(** * export_to_s3.py: MongoDB collections to newline-delimited JSON on S3

    A shallow embedding of [src/export_to_s3.py].  The four functions of the
    script ([clean_dataframe], [cast_types], [export_to_ndjson], [main]) are
    transcribed statement by statement.  The pandas, json and I/O calls they
    make are given by the definitions of the first sections; what those calls
    compute only as a matter of numerics or of text layout (the digits of a
    float, the date-string parser) is gathered in the class [Lib], and every
    theorem holds for all of its instances. *)

From Stdlib Require Import ZArith List String Ascii Bool Lia SpecFloat DecimalString.
Import ListNotations.
Open Scope string_scope.
Open Scope Z_scope.

(* ================================================================= *)
(** ** Python objects *)

(** A [str] is held as its UTF-8 bytes.  The two regular expressions of the
    script are character classes bounded by ASCII code points, and a code point
    above U+007F is encoded by bytes that are all above 0x7F, so acting on
    bytes or on code points gives the same text. *)

Definition ord (c : ascii) : N := N_of_ascii c.

Definition chr (n : N) : ascii := ascii_of_N n.

Definition dquote : string := String (chr 34) "".

(** The subclasses of [Exception] that the script can meet. *)
Inductive exn : Type :=
| TypeError (msg : string)
| ValueError (msg : string)
| KeyError (key : string)
| OSError (msg : string)
| PyMongoError (msg : string)
| S3UploadFailedError (msg : string)
| OverflowError (msg : string)
| AttributeError (msg : string).

Inductive result (A : Type) : Type :=
| Ok (a : A)
| Raise (e : exn).

Arguments Ok {A} a.
Arguments Raise {A} e.

Definition bind_result {A B} (r : result A) (k : A -> result B) : result B :=
  match r with
  | Ok a => k a
  | Raise e => Raise e
  end.

(** The objects found in a cell: the BSON values decoded by pymongo
    ([None], [bool], [int], [float], [str], [datetime], [ObjectId]) and the
    scalars pandas boxes cells into ([Timestamp], [NaT], [NA]). *)
Inductive value : Type :=
| VNone
| VBool (b : bool)
| VInt (z : Z)
| VFloat (f : spec_float)
| VStr (s : string)
| VDatetime (us : Z)          (* datetime.datetime, microseconds since the epoch *)
| VObjectId (hex : string)
| VTimestamp (ns : Z)         (* pandas.Timestamp *)
| VNaT
| VNA.

Definition nan : value := VFloat S754_nan.

(** A record (MongoDB document, or [row.to_dict()]): an insertion-ordered dict. *)
Definition record : Type := list (string * value).

Fixpoint dict_get {A} (d : list (string * A)) (k : string) : option A :=
  match d with
  | [] => None
  | (k', v) :: d' => if String.eqb k' k then Some v else dict_get d' k
  end.

(* ================================================================= *)
(** ** Columns and frames *)

(** A column carries its dtype.  [datetime64[ns]] cells are 64-bit counts of
    nanoseconds since the epoch, the smallest one standing for [NaT]; they
    are stored as [Z] and read modulo [2^64]. *)
Inductive column : Type :=
| ColObject (l : list value)
| ColBool (l : list bool)
| ColInt64 (l : list Z)
| ColUInt64 (l : list Z)
| ColFloat64 (l : list spec_float)
| ColDatetime64 (l : list Z)
| ColNullableInt64 (l : list (option Z)).   (* the extension dtype "Int64" *)

Definition col_length (c : column) : nat :=
  match c with
  | ColObject l => List.length l
  | ColBool l => List.length l
  | ColInt64 l => List.length l
  | ColUInt64 l => List.length l
  | ColFloat64 l => List.length l
  | ColDatetime64 l => List.length l
  | ColNullableInt64 l => List.length l
  end.

Record DataFrame : Type := mkDataFrame {
  nrows : nat;                         (* len(df.index) *)
  cols : list (string * column)        (* the labelled columns, in order *)
}.

(** [df.columns] *)
Definition df_columns (df : DataFrame) : list string := map fst (cols df).

(** [name in df.columns] *)
Definition has_column (df : DataFrame) (name : string) : bool :=
  existsb (String.eqb name) (df_columns df).

(** [df[name]] *)
Definition getitem (df : DataFrame) (name : string) : option column :=
  dict_get (cols df) name.

Fixpoint dict_set {A} (d : list (string * A)) (k : string) (v : A) : list (string * A) :=
  match d with
  | [] => [(k, v)]
  | (k', v') :: d' => if String.eqb k' k then (k, v) :: d' else (k', v') :: dict_set d' k v
  end.

(** [df[name] = c]: replaces the column in place, or appends a new one. *)
Definition setitem (df : DataFrame) (name : string) (c : column) : DataFrame :=
  mkDataFrame (nrows df) (dict_set (cols df) name c).

(** [df.drop(columns=[name], inplace=True)] on a frame that has the column. *)
Definition drop_column (df : DataFrame) (name : string) : DataFrame :=
  mkDataFrame (nrows df) (filter (fun p => negb (String.eqb (fst p) name)) (cols df)).

(* ================================================================= *)
(** ** 64-bit cells and the calendar *)

Definition INT64_MIN : Z := - 2 ^ 63.
Definition INT64_MAX : Z := 2 ^ 63 - 1.
Definition UINT64_MAX : Z := 2 ^ 64 - 1.

Definition in_int64 (z : Z) : bool := (INT64_MIN <=? z) && (z <=? INT64_MAX).

(** The signed 64-bit reading of a stored cell. *)
Definition int64 (z : Z) : Z := (z + 2 ^ 63) mod 2 ^ 64 - 2 ^ 63.

Definition NaT : Z := INT64_MIN.

Definition NS_PER_DAY : Z := 86400 * 1000000000.

(** Proleptic Gregorian date (year, month, day) of a day count from 1970-01-01. *)
Definition civil_from_days (days : Z) : Z * Z * Z :=
  let z := days + 719468 in
  let era := z / 146097 in
  let doe := z - era * 146097 in
  let yoe := (doe - doe / 1460 + doe / 36524 - doe / 146096) / 365 in
  let doy := doe - (365 * yoe + yoe / 4 - yoe / 100) in
  let mp := (5 * doy + 2) / 153 in
  let d := doy - (153 * mp + 2) / 5 + 1 in
  let m := if mp <? 10 then mp + 3 else mp - 9 in
  let y := yoe + era * 400 + (if m <=? 2 then 1 else 0) in
  (y, m, d).

(** [str(int)] *)
Definition int_str (z : Z) : string := NilZero.string_of_int (Z.to_int z).

Fixpoint zeros (n : nat) : string :=
  match n with
  | O => ""
  | S n' => String "0" (zeros n')
  end.

(** ["%02d"] of a non-negative number. *)
Definition fmt2 (n : Z) : string :=
  let s := int_str n in
  zeros (2 - String.length s) ++ s.

(** ["%Y-%m-%d"] of a day count: the year as it is, month and day on two digits. *)
Definition ymd (days : Z) : string :=
  let '(y, m, d) := civil_from_days days in
  int_str y ++ "-" ++ fmt2 m ++ "-" ++ fmt2 d.

(* ================================================================= *)
(** ** What the libraries compute beyond the script's control *)

Class Lib : Type := mkLib {
  (** [float.__repr__] on a finite float *)
  float_repr : spec_float -> string;
  (** [datetime.__str__] *)
  datetime_str : Z -> string;
  (** [Timestamp.__str__] *)
  timestamp_str : Z -> string;
  (** the text [astype(str)] gives a cell of a datetime64 column; the layout
      depends on the whole column *)
  datetime64_str : list Z -> Z -> string;
  (** the double pandas' [precise_xstrtod] computes for a decimal literal,
      [None] when it reports a range error *)
  xstrtod_value : string -> option spec_float;
  (** the cell [to_datetime(..., errors="coerce")] computes at a given
      position of a column that is neither datetime64 nor int64, [NaT] where
      the value does not parse *)
  to_datetime_cell : column -> nat -> Z;
  (** the exception, if any, that [to_datetime(..., errors="coerce")] or the
      [.dt] accessor raises for such a column as a whole: texts with
      different UTC offsets give no datetime64 series *)
  to_datetime_error : column -> option exn;
  (** the exception [astype("Int64")] raises for an infinite double: a
      [TypeError] in pandas 1.x, an [OverflowError] in pandas 2.x *)
  infinity_cast_error : exn
}.

Section Script.

Context {L : Lib}.

(** [str(x)] for a float: [repr] with the three special spellings. *)
Definition float_str (f : spec_float) : string :=
  match f with
  | S754_nan => "nan"
  | S754_infinity false => "inf"
  | S754_infinity true => "-inf"
  | _ => float_repr f
  end.

Definition bool_str (b : bool) : string := if b then "True" else "False".

(** [str(x)] *)
Definition py_str (v : value) : string :=
  match v with
  | VNone => "None"
  | VBool b => bool_str b
  | VInt z => int_str z
  | VFloat f => float_str f
  | VStr s => s
  | VDatetime t => datetime_str t
  | VObjectId h => h
  | VTimestamp t => timestamp_str t
  | VNaT => "NaT"
  | VNA => "<NA>"
  end.

(** [series.astype(str)]: the text of every cell, missing ones included. *)
Definition astype_str (c : column) : list string :=
  match c with
  | ColObject l => map py_str l
  | ColBool l => map bool_str l
  | ColInt64 l => map int_str l
  | ColUInt64 l => map int_str l
  | ColFloat64 l => map float_str l
  | ColDatetime64 l =>
      map (fun t => if int64 t =? NaT then "NaT" else datetime64_str l t) l
  | ColNullableInt64 l =>
      map (fun o => match o with Some z => int_str z | None => "<NA>" end) l
  end.

(** An object column holding the given strings. *)
Definition str_series (l : list string) : column := ColObject (map VStr l).

(* ================================================================= *)
(** ** clean_dataframe *)

(** The class [[\r\n\t]]. *)
Definition is_crlftab (c : ascii) : bool :=
  ((ord c =? 13) || (ord c =? 10) || (ord c =? 9))%N.

(** The range [\x20-\x7E]. *)
Definition is_printable (c : ascii) : bool :=
  ((32 <=? ord c) && (ord c <=? 126))%N.

(** [re.sub] of a one-character class: every match is replaced by [repl]. *)
Fixpoint sub_class (cls : ascii -> bool) (repl : string) (s : string) : string :=
  match s with
  | EmptyString => EmptyString
  | String c s' =>
      (if cls c then repl else String c EmptyString) ++ sub_class cls repl s'
  end.

(** [series.str.replace(pattern, repl, regex=True)] on a series of str. *)
Definition str_replace (cls : ascii -> bool) (repl : string) (l : list string) : list string :=
  map (sub_class cls repl) l.

(** [df.select_dtypes(include=["object", "bool"]).columns] *)
Definition is_object_or_bool (c : column) : bool :=
  match c with
  | ColObject _ | ColBool _ => true
  | _ => false
  end.

Definition select_dtypes_object_bool (df : DataFrame) : list string :=
  map fst (filter (fun p => is_object_or_bool (snd p)) (cols df)).

(** The right-hand side of the assignment in the loop. *)
Definition clean_series (c : column) : column :=
  str_series
    (str_replace (fun ch => negb (is_printable ch)) ""
       (str_replace is_crlftab " " (astype_str c))).

Definition clean_dataframe (df : DataFrame) : DataFrame :=
  fold_left
    (fun df col =>
       match getitem df col with
       | Some c => setitem df col (clean_series c)
       | None => df
       end)
    (select_dtypes_object_bool df) df.

(* ================================================================= *)
(** ** pd.to_numeric(series, errors="coerce") *)

Definition isspace_ascii (c : ascii) : bool :=
  ((ord c =? 32) || ((9 <=? ord c) && (ord c <=? 13)))%N.

Definition isdigit_ascii (c : ascii) : bool :=
  ((48 <=? ord c) && (ord c <=? 57))%N.

Definition is_sign (c : ascii) : bool := ((ord c =? 43) || (ord c =? 45))%N.

Definition tolower_ascii (c : ascii) : ascii :=
  if ((65 <=? ord c) && (ord c <=? 90))%N then chr (ord c + 32) else c.

Fixpoint lower (s : string) : string :=
  match s with
  | EmptyString => EmptyString
  | String c s' => String (tolower_ascii c) (lower s')
  end.

(** [while (cls( *p )) p++;] *)
Fixpoint skip_while (cls : ascii -> bool) (s : string) : string :=
  match s with
  | String c s' => if cls c then skip_while cls s' else s
  | EmptyString => EmptyString
  end.

(** At most [n] leading characters of the class, and what follows them. *)
Fixpoint span_upto (n : nat) (cls : ascii -> bool) (s : string) : string * string :=
  match n, s with
  | S n', String c s' =>
      if cls c then let (a, b) := span_upto n' cls s' in (String c a, b)
      else (EmptyString, s)
  | _, _ => (EmptyString, s)
  end.

Definition span (cls : ascii -> bool) (s : string) : string * string :=
  span_upto (String.length s) cls s.

Definition skip_sign (s : string) : bool * string :=
  match s with
  | String c s' => if is_sign c then ((ord c =? 45)%N, s') else (false, s)
  | EmptyString => (false, s)
  end.

Fixpoint digits_value (acc : Z) (s : string) : Z :=
  match s with
  | EmptyString => acc
  | String c s' => digits_value (10 * acc + (Z.of_N (ord c) - 48)) s'
  end.

(** The scan of [precise_xstrtod] (decimal point ".", exponent mark "e", no
    thousands separator, trailing blanks skipped): the sign and integer digits
    read, whether the literal can be an integer, and the text left at
    [*endptr].  [None] when no digit is found. *)
Definition xstrtod_scan (s : string) : option (bool * string * bool * string) :=
  let p := skip_while isspace_ascii s in
  let (negative, p) := skip_sign p in
  let (int_digits, p) := span isdigit_ascii p in
  let '(maybe_int, frac_digits, p) :=
    match p with
    | String "." p' => let (fd, p'') := span isdigit_ascii p' in (false, fd, p'')
    | _ => (true, EmptyString, p)
    end in
  if (String.length int_digits + String.length frac_digits =? 0)%nat then None
  else
    let (maybe_int, p) :=
      match p with
      | String c p' =>
          if (ord (tolower_ascii c) =? 101)%N then
            let (exp_digits, p'') := span_upto 17 isdigit_ascii (snd (skip_sign p')) in
            match exp_digits with
            | EmptyString => (false, p)          (* no digit after the mark: it is un-consumed *)
            | _ => (false, p'')
            end
          else (maybe_int, p)
      | EmptyString => (maybe_int, p)
      end in
    Some (negative, int_digits, maybe_int, skip_while isspace_ascii p).

(** What one cell contributes to the numeric conversion. *)
Inductive numeric : Type :=
| NumNull
| NumBool (b : bool)
| NumInt (z : Z) (f : spec_float)     (* an integer and its value as a double *)
| NumFloat (f : spec_float).

(** Conversion of an [int] to a double, to nearest-even. *)
Definition float_of_Z (z : Z) : spec_float := binary_normalize 53 1024 z 0 false.

Definition float_of_bool (b : bool) : spec_float :=
  if b then float_of_Z 1 else S754_zero false.

(** [floatify] followed by [int(val)] when the literal can be an integer;
    a string that does not parse is coerced to the null. *)
Definition numeric_of_str (s : string) : numeric :=
  match xstrtod_scan s with
  | Some (negative, int_digits, maybe_int, EmptyString) =>
      match xstrtod_value s with
      | Some f =>
          if maybe_int
          then NumInt ((if negative then -1 else 1) * digits_value 0 int_digits) f
          else NumFloat f
      | None => NumNull
      end
  | _ =>
      let l := lower s in
      if (l =? "inf") || (l =? "+inf") || (l =? "infinity") || (l =? "+infinity")
      then NumFloat (S754_infinity false)
      else if (l =? "-inf") || (l =? "-infinity")
      then NumFloat (S754_infinity true)
      else NumNull
  end%string.

(** One step of [lib.maybe_convert_numeric] with [coerce_numeric=True]. *)
Definition numeric_of_value (v : value) : numeric :=
  match v with
  | VFloat S754_nan => NumNull
  | VFloat f => NumFloat f
  | VInt z => NumInt z (float_of_Z z)
  | VBool b => NumBool b
  | VNone | VNA => NumNull
  | VStr EmptyString => NumNull
  | VStr s => numeric_of_str s
  | VDatetime _ | VObjectId _ | VTimestamp _ | VNaT => NumNull
  end.

Definition numeric_float (n : numeric) : spec_float :=
  match n with
  | NumNull => S754_nan
  | NumBool b => float_of_bool b
  | NumInt _ f => f
  | NumFloat f => f
  end.

Definition numeric_int (n : numeric) : Z :=
  match n with
  | NumInt z _ => z
  | NumBool true => 1
  | _ => 0
  end.

Definition numeric_bool (n : numeric) : bool :=
  match n with
  | NumBool b => b
  | _ => false
  end.

Definition is_NumInt (n : numeric) : bool :=
  match n with NumInt _ _ => true | _ => false end.

Definition is_NumBool (n : numeric) : bool :=
  match n with NumBool _ => true | _ => false end.

(** The flags [float_], [uint_] and [sint_] raised by one cell. *)
Definition seen_float (n : numeric) : bool :=
  match n with
  | NumNull | NumFloat _ => true
  | NumInt z _ => (z <? INT64_MIN) || (UINT64_MAX <? z)
  | NumBool _ => false
  end.

Definition seen_uint (n : numeric) : bool :=
  match n with NumInt z _ => INT64_MAX <? z | _ => false end.

Definition seen_sint (n : numeric) : bool :=
  match n with NumInt z _ => z <? 0 | _ => false end.

(** The array [lib.maybe_convert_numeric] returns for an object column. *)
Definition maybe_convert_numeric (l : list value) : column :=
  let ns := map numeric_of_value l in
  if existsb seen_float ns || (existsb seen_uint ns && existsb seen_sint ns)
  then ColFloat64 (map numeric_float ns)
  else if existsb is_NumInt ns
  then (if existsb seen_uint ns then ColUInt64 (map numeric_int ns)
        else ColInt64 (map numeric_int ns))
  else if existsb is_NumBool ns
  then ColBool (map numeric_bool ns)
  else ColInt64 (map numeric_int ns).

(** [pd.to_numeric(series, errors="coerce")]: numeric columns are returned as
    they are, a datetime64 column is viewed as its int64 cells, an object
    column is converted cell by cell. *)
Definition to_numeric (c : column) : column :=
  match c with
  | ColObject l => maybe_convert_numeric l
  | ColDatetime64 l => ColInt64 (map int64 l)
  | _ => c
  end.

(* ================================================================= *)
(** ** series.astype("Int64") *)

(** The integer a double is equal to, if any. *)
Definition float_to_int (f : spec_float) : option Z :=
  match f with
  | S754_zero _ => Some 0
  | S754_finite s m e =>
      let sign := if s then -1 else 1 in
      if 0 <=? e then Some (sign * (Zpos m * 2 ^ e))
      else if Zpos m mod 2 ^ (- e) =? 0 then Some (sign * (Zpos m / 2 ^ (- e)))
      else None
  | _ => None
  end.

Definition unsafe_cast (from : string) : exn :=
  TypeError ("cannot safely cast non-equivalent " ++ from ++ " to int64").

(** Cast of every cell, failing at the first one that cannot be cast. *)
Fixpoint safe_cast {A} (cast : A -> result (option Z)) (l : list A) : result (list (option Z)) :=
  match l with
  | [] => Ok []
  | a :: l' =>
      bind_result (cast a) (fun o =>
      bind_result (safe_cast cast l') (fun os => Ok (o :: os)))
  end.

(** A float cell: NaN becomes the missing marker, a double equal to an int64
    becomes that integer, any other double makes the cast fail: an infinite
    one with the exception of the library at hand, a fractional or too large
    one with a [TypeError] (the message is worded as in pandas 1.x). *)
Definition Int64_of_float (f : spec_float) : result (option Z) :=
  match f with
  | S754_nan => Ok None
  | S754_infinity _ => Raise infinity_cast_error
  | _ =>
      match float_to_int f with
      | Some z => if in_int64 z then Ok (Some z) else Raise (unsafe_cast "float64")
      | None => Raise (unsafe_cast "float64")
      end
  end.

Definition Int64_of_uint (z : Z) : result (option Z) :=
  if z <=? INT64_MAX then Ok (Some z) else Raise (unsafe_cast "uint64").

Definition Int64_of_object (v : value) : result (option Z) :=
  match v with
  | VInt z => if in_int64 z then Ok (Some z) else Raise (unsafe_cast "object")
  | VNone | VNA | VFloat S754_nan => Ok None
  | _ => Raise (TypeError "object cannot be converted to an IntegerDtype")
  end.

(** [series.astype("Int64")].  [cast_types] applies it to what [to_numeric]
    returns, which is never an object or datetime64 column. *)
Definition astype_Int64 (c : column) : result column :=
  match c with
  | ColInt64 l => Ok (ColNullableInt64 (map Some l))
  | ColBool l => Ok (ColNullableInt64 (map (fun b : bool => Some (if b then 1 else 0)) l))
  | ColNullableInt64 l => Ok c
  | ColFloat64 l => bind_result (safe_cast Int64_of_float l) (fun l' => Ok (ColNullableInt64 l'))
  | ColUInt64 l => bind_result (safe_cast Int64_of_uint l) (fun l' => Ok (ColNullableInt64 l'))
  | ColObject l => bind_result (safe_cast Int64_of_object l) (fun l' => Ok (ColNullableInt64 l'))
  | ColDatetime64 _ =>
      Raise (TypeError "cannot astype a datetimelike from [datetime64[ns]] to [Int64]")
  end.

(* ================================================================= *)
(** ** pd.to_datetime(series, errors="coerce").dt.strftime("%Y-%m-%d") *)

(** The datetime64[ns] cells of the converted series. *)
Definition to_datetime (c : column) : list Z :=
  match c with
  | ColDatetime64 l => l
  | ColInt64 l => l                     (* nanoseconds since the epoch *)
  | _ => map (to_datetime_cell c) (seq 0 (col_length c))
  end.

(** The exception, if any, of the conversion or of [.dt]: a datetime64 or
    int64 column always converts. *)
Definition to_datetime_raises (c : column) : option exn :=
  match c with
  | ColDatetime64 _ | ColInt64 _ => None
  | _ => to_datetime_error c
  end.

(** One cell of [.dt.strftime("%Y-%m-%d")]: [NaT] gives NaN. *)
Definition strftime_ymd (t : Z) : value :=
  let v := int64 t in
  if v =? NaT then nan
  else VStr (ymd (v / NS_PER_DAY)).

Definition dt_strftime_ymd (l : list Z) : column := ColObject (map strftime_ymd l).

(* ================================================================= *)
(** ** cast_types *)

(** One entry of a schema: [{"Name": ..., "Type": ...}]. *)
Record SchemaField : Type := mkField {
  Name : string;
  Typ : string
}.

(** The right-hand side of the assignment chosen by [typ]. *)
Definition cast_series (typ : string) (c : column) : result column :=
  if (typ =? "int")%string then astype_Int64 (to_numeric c)
  else if (typ =? "float")%string then Ok (to_numeric c)
  else if (typ =? "date")%string then
    match to_datetime_raises c with
    | Some e => Raise e
    | None => Ok (dt_strftime_ymd (to_datetime c))
    end
  else Ok (str_series (astype_str c)).

Fixpoint cast_types (df : DataFrame) (schema : list SchemaField) : result DataFrame :=
  match schema with
  | [] => Ok df
  | col :: schema' =>
      let name := Name col in
      let typ := Typ col in
      match getitem df name with
      | None => cast_types df schema'             (* name not in df.columns: continue *)
      | Some c =>
          bind_result (cast_series typ c) (fun c' =>
          cast_types (setitem df name c') schema')
      end
  end.

(* ================================================================= *)
(** ** pd.DataFrame(data) for a list of documents *)

(** The first occurrences, in order. *)
Fixpoint unique (l : list string) : list string :=
  match l with
  | [] => []
  | x :: l' => x :: filter (fun y => negb (String.eqb y x)) (unique l')
  end.

(** The column labels: the keys of the documents in order of first appearance. *)
Definition frame_labels (data : list record) : list string :=
  unique (List.concat (map (map fst) data)).

(** The cells of one label; a document without the key gets NaN. *)
Definition gather (data : list record) (k : string) : list value :=
  map (fun d => match dict_get d k with Some v => v | None => nan end) data.

Definition is_null (v : value) : bool :=
  match v with
  | VNone | VFloat S754_nan => true
  | _ => false
  end.

Definition is_nan (v : value) : bool :=
  match v with VFloat S754_nan => true | _ => false end.

Definition is_datetime (v : value) : bool :=
  match v with VDatetime _ => true | _ => false end.

Definition is_bool (v : value) : bool :=
  match v with VBool _ => true | _ => false end.

Definition is_int (v : value) : bool :=
  match v with VInt _ => true | _ => false end.

Definition is_float (v : value) : bool :=
  match v with
  | VFloat S754_nan => false
  | VFloat _ => true
  | _ => false
  end.

(** Values that make the column an object column by themselves: text,
    objects that are neither numbers, booleans, datetimes nor nulls, and
    integers that do not fit in 64 bits (BSON has none). *)
Definition is_plain_object (v : value) : bool :=
  match v with
  | VStr _ | VObjectId _ | VTimestamp _ | VNaT | VNA => true
  | VInt z => (z <? INT64_MIN) || (UINT64_MAX <? z)
  | _ => false
  end.

Definition value_uint (v : value) : bool :=
  match v with VInt z => INT64_MAX <? z | _ => false end.

Definition value_sint (v : value) : bool :=
  match v with VInt z => z <? 0 | _ => false end.

(** The datetime64[ns] cell of a [datetime] or of a null. *)
Definition datetime64_of (v : value) : Z :=
  match v with
  | VDatetime us => us * 1000
  | _ => NaT
  end.

Definition in_datetime64_bounds (v : value) : bool :=
  match v with
  | VDatetime us => in_int64 (us * 1000) && negb (us * 1000 =? NaT)
  | _ => true
  end.

Definition value_float (v : value) : spec_float :=
  match v with
  | VFloat f => f
  | VInt z => float_of_Z z
  | _ => S754_nan
  end.

Definition value_int (v : value) : Z :=
  match v with VInt z => z | _ => 0 end.

Definition value_bool (v : value) : bool :=
  match v with VBool b => b | _ => false end.

(** The dtype inference of the constructor ([lib.maybe_convert_objects]):
    booleans alone give a bool column, datetimes (with nulls) a datetime64
    column, integers an int64 column, numbers with a float or a null among
    them a float64 column, anything else stays an object column. *)
Definition infer_column (l : list value) : column :=
  if existsb is_plain_object l then ColObject l
  else if existsb is_datetime l then
    (if forallb (fun v => is_datetime v || is_null v) l && forallb in_datetime64_bounds l
     then ColDatetime64 (map datetime64_of l)
     else ColObject l)
  else if existsb is_bool l then
    (if forallb is_bool l then ColBool (map value_bool l) else ColObject l)
  else if existsb value_uint l && existsb value_sint l then ColObject l
  else if existsb is_null l then
    (if existsb is_float l || existsb is_int l || existsb is_nan l
     then ColFloat64 (map value_float l)
     else ColObject l)
  else if existsb is_float l then ColFloat64 (map value_float l)
  else if existsb value_uint l then ColUInt64 (map value_int l)
  else if existsb is_int l then ColInt64 (map value_int l)
  else ColObject l.

(** [pd.DataFrame(data)] *)
Definition DataFrame_of (data : list record) : DataFrame :=
  mkDataFrame (List.length data)
    (map (fun k => (k, infer_column (gather data k))) (frame_labels data)).

(* ================================================================= *)
(** ** df.iterrows() and row.to_dict() *)

Definition is_numpy_number (c : column) : bool :=
  match c with
  | ColInt64 _ | ColUInt64 _ | ColFloat64 _ => true
  | _ => false
  end.

Definition is_float64 (c : column) : bool :=
  match c with ColFloat64 _ => true | _ => false end.

Definition is_int64 (c : column) : bool :=
  match c with ColInt64 _ => true | _ => false end.

Definition is_uint64 (c : column) : bool :=
  match c with ColUInt64 _ => true | _ => false end.

(** Whether [df.values] is a float64 array: the columns are all numpy numbers
    and their common dtype is not an integer one.  Rows of any other frame
    keep the cells' own types. *)
Definition values_float64 (df : DataFrame) : bool :=
  let cs := map snd (cols df) in
  forallb is_numpy_number cs
  && (existsb is_float64 cs || (existsb is_int64 cs && existsb is_uint64 cs)).

(** The Python object a row holds for the cell at position [i]. *)
Definition box (as_float : bool) (c : column) (i : nat) : option value :=
  match c with
  | ColObject l => nth_error l i
  | ColBool l => option_map VBool (nth_error l i)
  | ColInt64 l | ColUInt64 l =>
      option_map (fun z => if as_float then VFloat (float_of_Z z) else VInt z) (nth_error l i)
  | ColFloat64 l => option_map VFloat (nth_error l i)
  | ColDatetime64 l =>
      option_map (fun t => if int64 t =? NaT then VNaT else VTimestamp (int64 t)) (nth_error l i)
  | ColNullableInt64 l =>
      option_map (fun o => match o with Some z => VInt z | None => VNA end) (nth_error l i)
  end.

(** [row.to_dict()] for the row at position [i].  For a missing cell of an
    Int64 column the object is the [NA] that pandas 1.x puts there; pandas
    2.x gives [None], or floats for the whole row when every column is a
    masked integer.  What the cast of an integer field gives is therefore
    stated on the column, and the properties of the export on frames without
    a missing integer. *)
Definition row_to_dict (df : DataFrame) (i : nat) : record :=
  flat_map
    (fun p => match box (values_float64 df) (snd p) i with
              | Some v => [(fst p, v)]
              | None => []
              end)
    (cols df).

(** The dicts of [for _, row in df.iterrows(): ... row.to_dict()]. *)
Definition iterrows (df : DataFrame) : list record :=
  map (row_to_dict df) (seq 0 (nrows df)).

(* ================================================================= *)
(** ** json.dumps(d, ensure_ascii=False) *)

Definition hex_digit (n : N) : ascii :=
  if (n <? 10)%N then chr (48 + n) else chr (87 + n).

(** The replacement of one character inside a JSON string: the quote, the
    backslash and the control characters are escaped, nothing else. *)
Definition escape_char (c : ascii) : string :=
  let n := ord c in
  if (n =? 34)%N then "\" ++ dquote
  else if (n =? 92)%N then "\\"
  else if (n =? 10)%N then "\n"
  else if (n =? 13)%N then "\r"
  else if (n =? 9)%N then "\t"
  else if (n =? 8)%N then "\b"
  else if (n =? 12)%N then "\f"
  else if (n <? 32)%N then "\u00" ++ String (hex_digit (n / 16)) (String (hex_digit (n mod 16)) "")
  else String c "".

Fixpoint escape (s : string) : string :=
  match s with
  | EmptyString => EmptyString
  | String c s' => escape_char c ++ escape s'
  end.

Definition json_string (s : string) : string := dquote ++ escape s ++ dquote.

Definition json_float (f : spec_float) : string :=
  match f with
  | S754_nan => "NaN"
  | S754_infinity false => "Infinity"
  | S754_infinity true => "-Infinity"
  | _ => float_repr f
  end.

Definition not_serializable (cls : string) : exn :=
  TypeError ("Object of type " ++ cls ++ " is not JSON serializable").

Definition json_value (v : value) : result string :=
  match v with
  | VNone => Ok "null"
  | VBool true => Ok "true"
  | VBool false => Ok "false"
  | VInt z => Ok (int_str z)
  | VFloat f => Ok (json_float f)
  | VStr s => Ok (json_string s)
  | VDatetime _ => Raise (not_serializable "datetime")
  | VObjectId _ => Raise (not_serializable "ObjectId")
  | VTimestamp _ => Raise (not_serializable "Timestamp")
  | VNaT => Raise (not_serializable "NaTType")
  | VNA => Raise (not_serializable "NAType")
  end.

(** The items of a dict, separated by [", "]. *)
Fixpoint json_items (d : record) : result string :=
  match d with
  | [] => Ok ""
  | (k, v) :: d' =>
      bind_result (json_value v) (fun jv =>
      bind_result (json_items d') (fun rest =>
      Ok (json_string k ++ ": " ++ jv ++ match d' with [] => "" | _ => ", " ++ rest end)))
  end.

Definition json_dumps (d : record) : result string :=
  bind_result (json_items d) (fun items => Ok ("{" ++ items ++ "}")).

Definition newline : string := String (chr 10) "".

End Script.

(* ================================================================= *)
(** ** The outside world *)

(** What the run can change: the local files, the uploads made to the
    storage service (bucket, key, content), oldest first, and the lines
    printed.  A bucket holds under a key the content of the last upload to
    that key: an upload replaces the object that was there. *)
Record World : Type := mkWorld {
  files : list (string * string);
  s3_objects : list (string * string * string);
  stdout : list string
}.

(** The object a bucket holds under a key after the given uploads. *)
Fixpoint s3_get_object (uploads : list (string * string * string))
    (bucket key : string) : option string :=
  match uploads with
  | [] => None
  | (b, k, content) :: later =>
      match s3_get_object later bucket key with
      | Some newer => Some newer
      | None => if String.eqb b bucket && String.eqb k key then Some content else None
      end
  end.

(** What the run finds outside: the environment variable, the documents of
    each collection or the error of the query, and the error, if any, met by
    each file or network operation. *)
Class Env : Type := mkEnv {
  getenv_BUCKET_NAME : option string;
  find : string -> result (list record);               (* list(db[name].find()) *)
  open_error : string -> option exn;                   (* open(filename, "w") *)
  upload_error : string -> string -> string -> option exn;   (* s3.upload_file *)
  remove_error : string -> option exn                  (* os.remove *)
}.

(** A statement: it changes the world and returns or raises. *)
Definition M (A : Type) : Type := World -> result A * World.

Definition ret {A} (a : A) : M A := fun w => (Ok a, w).

Definition raise {A} (e : exn) : M A := fun w => (Raise e, w).

Definition bind {A B} (m : M A) (k : A -> M B) : M B :=
  fun w =>
    match m w with
    | (Ok a, w') => k a w'
    | (Raise e, w') => (Raise e, w')
    end.

Definition lift {A} (r : result A) : M A := fun w => (r, w).

(** [try: body  except Exception as e: handler(e)] *)
Definition try_except (body : M unit) (handler : exn -> M unit) : M unit :=
  fun w =>
    match body w with
    | (Ok tt, w') => (Ok tt, w')
    | (Raise e, w') => handler e w'
    end.

Notation "x <- m ;; k" := (bind m (fun x => k))
  (at level 61, m at next level, right associativity).
Notation "m ;; k" := (bind m (fun _ => k))
  (at level 61, right associativity).

Definition print (line : string) : M unit :=
  fun w => (Ok tt, mkWorld (files w) (s3_objects w) (stdout w ++ [line])).

Definition remove_key {A} (d : list (string * A)) (k : string) : list (string * A) :=
  filter (fun p => negb (String.eqb (fst p) k)) d.

Section Run.

Context {L : Lib} {E : Env}.

(** [open(filename, "w", encoding="utf-8")]: the file is created or emptied. *)
Definition open_w (filename : string) : M unit :=
  fun w =>
    match open_error filename with
    | Some e => (Raise e, w)
    | None => (Ok tt, mkWorld (dict_set (files w) filename "") (s3_objects w) (stdout w))
    end.

(** [f.write(text)] on the file opened under [filename]. *)
Definition write (filename text : string) : M unit :=
  fun w =>
    let old := match dict_get (files w) filename with Some c => c | None => "" end in
    (Ok tt, mkWorld (dict_set (files w) filename (old ++ text)) (s3_objects w) (stdout w)).

(** [s3.upload_file(filename, bucket, key)]: the upload is recorded after
    the earlier ones; [s3_get_object] gives what the bucket then holds. *)
Definition s3_upload_file (filename bucket key : string) : M unit :=
  fun w =>
    match upload_error filename bucket key with
    | Some e => (Raise e, w)
    | None =>
        match dict_get (files w) filename with
        | Some content =>
            (Ok tt, mkWorld (files w) (s3_objects w ++ [(bucket, key, content)]) (stdout w))
        | None => (Raise (OSError ("No such file or directory: " ++ filename)), w)
        end
    end.

(** [os.remove(filename)] *)
Definition os_remove (filename : string) : M unit :=
  fun w =>
    match remove_error filename with
    | Some e => (Raise e, w)
    | None =>
        match dict_get (files w) filename with
        | Some _ => (Ok tt, mkWorld (remove_key (files w) filename) (s3_objects w) (stdout w))
        | None => (Raise (OSError ("No such file or directory: " ++ filename)), w)
        end
    end.

(* ================================================================= *)
(** ** export_to_ndjson *)

(** The body of the [for] loop over the rows. *)
Fixpoint write_rows (filename : string) (rows : list record) : M unit :=
  match rows with
  | [] => ret tt
  | row :: rows' =>
      line <- lift (json_dumps row) ;;
      write filename (line ++ newline) ;;
      write_rows filename rows'
  end.

Definition export_to_ndjson (df : DataFrame) (filename : string) : M unit :=
  open_w filename ;;
  write_rows filename (iterrows df).

(* ================================================================= *)
(** ** Configuration and main *)

Definition COLLECTIONS : list (string * string) :=
  [ ("UserTiktokMetrics", "user_tiktok_metrics/");
    ("AdminTiktokMetrics", "admin_tiktok_metrics/") ].

Definition BUCKET_NAME : string :=
  match getenv_BUCKET_NAME with
  | Some b => b
  | None => "my-bucket"
  end.

(** The two schemas of the script list the same fields and differ in the
    last name only, ["userId"] or ["adminId"]. *)
Definition metrics_schema (owner : string) : list SchemaField :=
  [ mkField "postId" "string";
    mkField "datePosted" "date";
    mkField "hourPosted" "string";
    mkField "usernameTiktokAccount" "string";
    mkField "postURL" "string";
    mkField "views" "int";
    mkField "likes" "int";
    mkField "comments" "int";
    mkField "saves" "int";
    mkField "reposts" "int";
    mkField "totalInteractions" "int";
    mkField "engagement" "float";
    mkField "numberHashtags" "int";
    mkField "hashtags" "string";
    mkField "soundId" "string";
    mkField "soundURL" "string";
    mkField "regionPost" "string";
    mkField "dateTracking" "date";
    mkField "timeTracking" "string";
    mkField owner "int" ].

Definition SCHEMAS : list (string * list SchemaField) :=
  [ ("UserTiktokMetrics", metrics_schema "userId");
    ("AdminTiktokMetrics", metrics_schema "adminId") ].

(** [SCHEMAS[collection_name]] *)
Definition SCHEMAS_getitem (collection_name : string) : result (list SchemaField) :=
  match dict_get SCHEMAS collection_name with
  | Some schema => Ok schema
  | None => Raise (KeyError collection_name)
  end.

(** [str(e)] in the message of the handler. *)
Definition exn_str (e : exn) : string :=
  match e with
  | TypeError msg | ValueError msg | OSError msg
  | PyMongoError msg | S3UploadFailedError msg
  | OverflowError msg | AttributeError msg => msg
  | KeyError key => "'" ++ key ++ "'"
  end.

(** The statements under [try] for one collection. *)
Definition process_collection (collection_name folder : string) : M unit :=
  print ("📥 Procesando colección: " ++ collection_name) ;;
  data <- lift (find collection_name) ;;
  match data with
  | [] => print ("⚠️ Colección vacía: " ++ collection_name)        (* continue *)
  | _ =>
      let df := DataFrame_of data in
      let df := if has_column df "_id" then drop_column df "_id" else df in
      let df := clean_dataframe df in
      schema <- lift (SCHEMAS_getitem collection_name) ;;
      df <- lift (cast_types df schema) ;;
      let filename := collection_name ++ ".json" in
      export_to_ndjson df filename ;;
      let s3_key := folder ++ filename in
      print ("⬆️ Subiendo " ++ filename ++ " a s3://" ++ BUCKET_NAME ++ "/" ++ s3_key) ;;
      s3_upload_file filename BUCKET_NAME s3_key ;;
      print ("✅ " ++ collection_name ++ " exportado y subido correctamente.") ;;
      os_remove filename
  end.

(** The [for] loop of [main] over the items of a dict of collections. *)
Fixpoint main_loop (collections : list (string * string)) : M unit :=
  match collections with
  | [] => ret tt
  | (collection_name, folder) :: collections' =>
      try_except (process_collection collection_name folder)
        (fun e => print ("❌ Error con " ++ collection_name ++ ": " ++ exn_str e)) ;;
      main_loop collections'
  end.

Definition main : M unit := main_loop COLLECTIONS.

(** The exit status of the interpreter running [main()]. *)
Definition exit_status (r : result unit) : Z :=
  match r with
  | Ok _ => 0
  | Raise _ => 1
  end.

(** The frame [main] has for the documents [data] once ["_id"] is dropped,
    the one it has after [clean_dataframe], and the one it hands to
    [export_to_ndjson] under the schema [schema]. *)
Definition fetched_frame (data : list record) : DataFrame :=
  let df := DataFrame_of data in
  if has_column df "_id" then drop_column df "_id" else df.

Definition cleaned_frame (data : list record) : DataFrame :=
  clean_dataframe (fetched_frame data).

Definition prepared_frame (data : list record) (schema : list SchemaField) : result DataFrame :=
  cast_types (cleaned_frame data) schema.

(** The text [export_to_ndjson] writes for the given rows when every row can
    be serialised: one line per row. *)
Fixpoint ndjson (rows : list record) : result string :=
  match rows with
  | [] => Ok ""
  | row :: rows' =>
      bind_result (json_dumps row) (fun line =>
      bind_result (ndjson rows') (fun rest => Ok (line ++ newline ++ rest)))
  end.

(** The [except] clause of [main] for one collection. *)
Definition report (collection_name : string) (e : exn) : M unit :=
  print ("❌ Error con " ++ collection_name ++ ": " ++ exn_str e).

(** [try: ... except Exception as e: ...] for one collection. *)
Definition guarded (collection_name folder : string) : M unit :=
  try_except (process_collection collection_name folder) (report collection_name).

End Run.

(* ================================================================= *)
(** ** The sanitizer as the specification words it *)

(** One pass over the text: a carriage return, newline or tab becomes one
    space, any other character outside 0x20-0x7E is deleted, the rest is kept. *)
Fixpoint sanitize (s : string) : string :=
  match s with
  | EmptyString => EmptyString
  | String c s' =>
      if is_crlftab c then String " " (sanitize s')
      else if is_printable c then String c (sanitize s')
      else sanitize s'
  end.

(** Every character of the text is in 0x20-0x7E (so none is a carriage
    return, a newline or a tab). *)
Fixpoint printable_text (s : string) : bool :=
  match s with
  | EmptyString => true
  | String c s' => is_printable c && negb (is_crlftab c) && printable_text s'
  end.

(* ================================================================= *)
(** ** Shapes of cells *)

(** The form [YYYY-MM-DD]: four digits, a dash, two digits, a dash, two digits. *)
Definition is_dash (c : ascii) : bool := (ord c =? 45)%N.

Definition is_ymd (s : string) : bool :=
  match s with
  | String y1 (String y2 (String y3 (String y4 (String h1
      (String m1 (String m2 (String h2 (String d1 (String d2 EmptyString))))))))) =>
      isdigit_ascii y1 && isdigit_ascii y2 && isdigit_ascii y3 && isdigit_ascii y4
      && is_dash h1 && isdigit_ascii m1 && isdigit_ascii m2
      && is_dash h2 && isdigit_ascii d1 && isdigit_ascii d2
  | _ => false
  end.

Definition is_digits2 (s : string) : bool :=
  match s with
  | String a (String b EmptyString) => isdigit_ascii a && isdigit_ascii b
  | _ => false
  end.

Definition is_digits4 (s : string) : bool :=
  match s with
  | String a (String b s') => isdigit_ascii a && isdigit_ascii b && is_digits2 s'
  | _ => false
  end.

(** The dates a datetime64[ns] cell can hold lie between 1677-09-21 and
    2262-04-11. *)
Definition civil_in_range (days : Z) : bool :=
  let '(y, m, d) := civil_from_days days in
  (1677 <=? y) && (y <=? 2262) && (1 <=? m) && (m <=? 12) && (1 <=? d) && (d <=? 31).

(** Every column has as many cells as the frame has rows. *)
Definition rectangular (df : DataFrame) : Prop :=
  forall name c, getitem df name = Some c -> col_length c = nrows df.

Definition not_id (k : string) : bool := negb (String.eqb k "_id").

Definition is_str (v : value) : bool :=
  match v with VStr _ => true | _ => false end.

(** The missing markers: [None], NaN, [NaT] and [NA]. *)
Definition is_missing (v : value) : bool :=
  match v with
  | VNone | VFloat S754_nan | VNaT | VNA => true
  | _ => false
  end.

(** [P] holds at the [n] consecutive integers from [z] on. *)
Fixpoint all_from (n : nat) (P : Z -> bool) (z : Z) : bool :=
  match n with
  | O => true
  | S n' => P z && all_from n' P (z + 1)
  end.

(* ================================================================= *)
(** ** An instance of the libraries and of the outside, for running examples *)

Definition digit (n : Z) : ascii := chr (Z.to_N (48 + n mod 10)).

(** Decimal digits of [n], left-padded with zeros to [w] digits. *)
Fixpoint fmt_width (w : nat) (n : Z) : string :=
  match w with
  | O => ""
  | S w' => fmt_width w' (n / 10) ++ String (digit n) ""
  end.

Fixpoint strip_zeros (fuel : nat) (w : nat) (n : Z) : nat * Z :=
  match fuel with
  | O => (w, n)
  | S fuel' =>
      match w with
      | S w' => if (n mod 10 =? 0) && negb (n =? 0) then strip_zeros fuel' w' (n / 10) else (w, n)
      | O => (w, n)
      end
  end.

(** The exact decimal expansion of a finite double.  It is the text of
    [repr] for the doubles whose shortest decimal form is exact and lies
    between 1e-4 and 1e16, such as 0.5, 1.5 or 12.0. *)
Definition exact_repr (f : spec_float) : string :=
  match f with
  | S754_zero s => (if s then "-" else "") ++ "0.0"
  | S754_finite s m e =>
      (if s then "-" else "") ++
      (if 0 <=? e then int_str (Zpos m * 2 ^ e) ++ ".0"
       else
         let k := - e in
         let ip := Zpos m / 2 ^ k in
         let fp := (Zpos m mod 2 ^ k) * 5 ^ k in
         let (w, n) := strip_zeros (Z.to_nat k) (Z.to_nat k) fp in
         int_str ip ++ "." ++ (if n =? 0 then "0" else fmt_width w n))
  | S754_nan => "nan"
  | S754_infinity s => if s then "-inf" else "inf"
  end.

Definition hms (secs : Z) : string :=
  fmt2 (secs / 3600) ++ ":" ++ fmt2 (secs / 60 mod 60) ++ ":" ++ fmt2 (secs mod 60).

(** ["YYYY-MM-DD HH:MM:SS"], followed by the sub-second part when there is one. *)
Definition iso_text (per_second : Z) (frac_width : nat) (t : Z) : string :=
  let secs := t / per_second in
  let frac := t mod per_second in
  ymd (secs / 86400) ++ " " ++ hms (secs mod 86400)
  ++ (if frac =? 0 then "" else "." ++ fmt_width frac_width frac).

(** Days from 1970-01-01 of a proleptic Gregorian date. *)
Definition days_from_civil (y m d : Z) : Z :=
  let y' := if m <=? 2 then y - 1 else y in
  let era := y' / 400 in
  let yoe := y' - era * 400 in
  let doy := (153 * (if 2 <? m then m - 3 else m + 9) + 2) / 5 + d - 1 in
  let doe := yoe * 365 + yoe / 4 - yoe / 100 + doy in
  era * 146097 + doe - 719468.

Definition all_digits (s : string) : bool :=
  String.eqb (skip_while isdigit_ascii s) "".

(** The timestamp of a text of the form [YYYY-MM-DD], [NaT] for any other text. *)
Definition parse_iso_date (s : string) : Z :=
  let y := substring 0 4 s in
  let m := substring 5 2 s in
  let d := substring 8 2 s in
  if (String.length s =? 10)%nat
     && String.eqb (substring 4 1 s) "-" && String.eqb (substring 7 1 s) "-"
     && all_digits y && all_digits m && all_digits d
  then
    let days := days_from_civil (digits_value 0 y) (digits_value 0 m) (digits_value 0 d) in
    if String.eqb (ymd days) s && in_int64 (days * NS_PER_DAY) then days * NS_PER_DAY else NaT
  else NaT.

(** The nearest double of [(-1)^negative * mant * 10^exp10], [None] when it
    is not finite. *)
Definition nearest_double (negative : bool) (mant exp10 : Z) : option spec_float :=
  let f :=
    if mant =? 0 then S754_zero negative
    else if 400 <? exp10 then S754_infinity negative
    else if exp10 <? - 800 then S754_zero negative
    else if 0 <=? exp10 then binary_normalize 53 1024 (mant * 10 ^ exp10) 0 false
    else
      let den := 10 ^ (- exp10) in
      let shift := 64 + Z.log2_up den in
      let q := (mant * 2 ^ shift) / den in
      let sticky := if (mant * 2 ^ shift) mod den =? 0 then 0 else 1 in
      binary_normalize 53 1024 (2 * q + sticky) (- (shift + 1)) false in
  match f with
  | S754_infinity _ | S754_nan => None
  | S754_zero _ => Some (S754_zero negative)
  | S754_finite _ m e => Some (S754_finite negative m e)
  end.

(** The value of a literal accepted by [xstrtod_scan], read to the nearest double. *)
Definition literal_value (s : string) : option spec_float :=
  let p := skip_while isspace_ascii s in
  let (negative, p) := skip_sign p in
  let (int_digits, p) := span isdigit_ascii p in
  let (frac_digits, p) :=
    match p with
    | String "." p' => span isdigit_ascii p'
    | _ => (EmptyString, p)
    end in
  let exp10 :=
    match p with
    | String c p' =>
        if (ord (tolower_ascii c) =? 101)%N then
          let (neg_exp, p'') := skip_sign p' in
          let (exp_digits, _) := span_upto 17 isdigit_ascii p'' in
          (if neg_exp then -1 else 1) * digits_value 0 exp_digits
        else 0
    | EmptyString => 0
    end in
  nearest_double negative
    (digits_value (digits_value 0 int_digits) frac_digits)
    (exp10 - Z.of_nat (String.length frac_digits)).

Definition whole_seconds (l : list Z) : bool :=
  forallb (fun t => (int64 t =? NaT) || (int64 t mod 1000000000 =? 0)) l.

Definition all_midnight (l : list Z) : bool :=
  forallb (fun t => (int64 t =? NaT) || (int64 t mod NS_PER_DAY =? 0)) l.

#[local] Instance example_lib : Lib := {|
  float_repr := exact_repr;
  datetime_str := iso_text 1000000 6;
  timestamp_str := iso_text 1000000000 9;
  datetime64_str := fun l t =>
    if all_midnight l then ymd (int64 t / NS_PER_DAY)
    else if whole_seconds l then iso_text 1 0 (int64 t / 1000000000)
    else iso_text 1000000000 9 (int64 t);
  xstrtod_value := literal_value;
  to_datetime_cell := fun c i =>
    match c with
    | ColObject l =>
        match nth_error l i with
        | Some (VStr s) => parse_iso_date s
        | Some (VDatetime us) => if in_int64 (us * 1000) then us * 1000 else NaT
        | _ => NaT
        end
    | _ => NaT
    end;
  to_datetime_error := fun _ => None;
  infinity_cast_error := OverflowError "cannot convert float infinity to integer"
|}.

(** An outside where the first collection cannot be read and the second one
    holds two documents. *)
Definition example_documents : list record :=
  [ [ ("_id", VObjectId "65f0c0ffee0000000000a001");
      ("postId", VStr "7301");
      ("datePosted", VStr "2024-02-29");
      ("views", VStr "1234");
      ("engagement", VFloat (S754_finite false 4503599627370496 (-53)));
      ("verified", VBool true) ];
    [ ("_id", VObjectId "65f0c0ffee0000000000a002");
      ("postId", VStr "7302");
      ("datePosted", VStr "not a date");
      ("views", VStr "88");
      ("verified", VBool false) ] ].

#[local] Instance example_env : Env := {|
  getenv_BUCKET_NAME := None;
  find := fun name =>
    if String.eqb name "UserTiktokMetrics"
    then Raise (PyMongoError "connection refused")
    else Ok example_documents;
  open_error := fun _ => None;
  upload_error := fun _ _ _ => None;
  remove_error := fun _ => None
|}.

Definition empty_world : World := mkWorld [] [] [].

(** A frame with a tab and a missing value in a text column. *)
Definition dirty_frame : DataFrame :=
  mkDataFrame 2
    [ ("caption", ColObject [VStr ("a" ++ String (chr 9) "b"); VNone]);
      ("views", ColInt64 [1; 2]);
      ("verified", ColBool [true; false]) ].

(** Cleaned frames with one declared field each. *)
Definition views_frame : DataFrame :=
  mkDataFrame 2 [("views", ColObject [VStr "1,234"; VStr "88"])].

Definition dates_frame : DataFrame :=
  mkDataFrame 2 [("datePosted", ColDatetime64 [1709202600000000000; NaT])].

Definition ids_frame : DataFrame :=
  mkDataFrame 2 [("postId", ColObject [VStr "7301"; VNone])].

(** Two documents, the second one without the field [engagement]. *)
Definition sparse_documents : list record :=
  [ [ ("views", VInt 1);
      ("engagement", VFloat (S754_finite false 4503599627370496 (-53))) ];
    [ ("views", VInt 2) ] ].

Definition sparse_frame : DataFrame :=
  mkDataFrame 2
    [ ("views", ColNullableInt64 [Some 1; Some 2]);
      ("engagement", ColFloat64 [S754_finite false 4503599627370496 (-53); S754_nan]) ].

(** The frame [main] serialises for [example_documents]. *)
Definition example_frame : DataFrame :=
  Eval vm_compute in
    match prepared_frame example_documents (metrics_schema "adminId") with
    | Ok df => df
    | Raise _ => mkDataFrame 0 []
    end.

(** Proofs that the strings of a concrete list are distinct, and that a
    concrete list has a given member. *)
Ltac distinct_strings :=
  repeat (constructor; [simpl; intuition discriminate|]); constructor.

Ltac member := simpl; repeat (first [left; reflexivity | right]).

(* ================================================================= *)
(** ** Further predicates on texts, cells and columns *)

(** The number of characters of a text that satisfy [p]. *)
Fixpoint count_chars (p : ascii -> bool) (s : string) : nat :=
  match s with
  | EmptyString => O
  | String c s' => ((if p c then 1 else 0) + count_chars p s')%nat
  end.

(** Whether some character of a text satisfies [p]. *)
Fixpoint has_char (p : ascii -> bool) (s : string) : bool :=
  match s with
  | EmptyString => false
  | String c s' => p c || has_char p s'
  end.

(** The characters the sanitizer keeps or turns into a space. *)
Definition survives (c : ascii) : bool := is_crlftab c || is_printable c.

(** The characters a numeric literal or one of the names of infinity can
    hold: blanks, signs, digits, the point and letters.  Any other character
    is foreign to numbers. *)
Definition is_letter (c : ascii) : bool :=
  (((65 <=? ord c) && (ord c <=? 90)) || ((97 <=? ord c) && (ord c <=? 122)))%N.

Definition is_foreign (c : ascii) : bool :=
  negb (isspace_ascii c || is_sign c || isdigit_ascii c || (ord c =? 46)%N || is_letter c).

(** The doubles and the columns that [astype("Int64")] accepts. *)
Definition castable_float (f : spec_float) : bool :=
  match f with
  | S754_nan => true
  | _ => match float_to_int f with
         | Some z => in_int64 z
         | None => false
         end
  end.

Definition castable_object (v : value) : bool :=
  match v with
  | VInt z => in_int64 z
  | VNone | VNA | VFloat S754_nan => true
  | _ => false
  end.

Definition castable (c : column) : bool :=
  match c with
  | ColFloat64 l => forallb castable_float l
  | ColUInt64 l => forallb (fun z => z <=? INT64_MAX) l
  | ColObject l => forallb castable_object l
  | ColDatetime64 _ => false
  | _ => true
  end.

(** The objects [json.dumps] has an encoding for. *)
Definition json_serialisable (v : value) : bool :=
  match v with
  | VNone | VBool _ | VInt _ | VFloat _ | VStr _ => true
  | _ => false
  end.

Definition is_some {A} (o : option A) : bool :=
  match o with Some _ => true | None => false end.

Definition is_NA (v : value) : bool :=
  match v with VNA => true | _ => false end.

(** The columns that hold no [NA]: no missing integer in an Int64 column, no
    [NA] among the objects of an object column. *)
Definition free_of_NA (c : column) : bool :=
  match c with
  | ColObject l => forallb (fun v => negb (is_NA v)) l
  | ColNullableInt64 l => forallb is_some l
  | _ => true
  end.

(** The columns whose cells, [NA] apart, can all be serialised: no [NaT] or
    [Timestamp], no other object without an encoding. *)
Definition encodable (c : column) : bool :=
  match c with
  | ColObject l => forallb json_serialisable l
  | ColDatetime64 l => match l with [] => true | _ => false end
  | _ => true
  end.

Definition is_datetime64 (c : column) : bool :=
  match c with ColDatetime64 _ => true | _ => false end.

(** The columns [main] can hold once cleaned: no bool column, and object
    columns of texts and NaN. *)
Definition tidy (c : column) : bool :=
  match c with
  | ColObject l => forallb (fun v => is_str v || is_nan v) l
  | ColBool _ => false
  | _ => true
  end.

Definition is_control (c : ascii) : bool := (ord c <? 32)%N.

Definition is_newline (c : ascii) : bool := (ord c =? 10)%N.

(** The cells a numeric column gives a row: numbers, booleans and [NA]. *)
Definition is_numeric_cell (v : value) : bool :=
  match v with
  | VInt _ | VFloat _ | VBool _ | VNA => true
  | _ => false
  end.

(** An outside where every collection holds [sparse_documents] and every
    upload fails. *)
Definition failing_upload_env : Env := {|
  getenv_BUCKET_NAME := None;
  find := fun _ => Ok sparse_documents;
  open_error := fun _ => None;
  upload_error := fun _ _ _ => Some (S3UploadFailedError "access denied");
  remove_error := fun _ => None
|}.

(** The text of the rows of [sparse_frame]. *)
Definition sparse_text : string :=
  Eval vm_compute in
    match ndjson (iterrows sparse_frame) with
    | Ok text => text
    | Raise _ => ""
    end.

(** A frame whose second row cannot be serialised: it holds an [ObjectId]. *)
Definition half_frame : DataFrame :=
  mkDataFrame 2 [("ref", ColObject [VStr "a"; VObjectId "65f0c0ffee0000000000a001"])].

Definition engagement_frame : DataFrame :=
  mkDataFrame 2
    [("engagement", ColFloat64 [S754_finite false 4503599627370496 (-53); S754_nan])].

Definition notes_world : World := mkWorld [("notes.txt", "keep")] [] [].

(** A schema without a date, a frame it cannot cast and the frame it makes of
    [views_frame]. *)
Definition views_schema : list SchemaField :=
  [mkField "views" "int"; mkField "postId" "string"].

Definition fraction_frame : DataFrame :=
  mkDataFrame 1 [("views", ColFloat64 [S754_finite false 6755399441055744 (-52)])].

Definition views_cast : DataFrame :=
  Eval vm_compute in
    match cast_types views_frame views_schema with
    | Ok df => df
    | Raise _ => mkDataFrame 0 []
    end.

(** The line of the row [{"ref": "a"}]. *)
Definition first_line : string :=
  Eval vm_compute in
    match ndjson [[("ref", VStr "a")]] with
    | Ok text => text
    | Raise _ => ""
    end.

(* ================================================================= *)
(** * Properties *)

(** ** Dicts and frames *)

Lemma dict_get_set_same {A} (d : list (string * A)) k v :
  dict_get (dict_set d k v) k = Some v.
Proof.
  induction d as [|[k' v'] d IH]; simpl.
  - now rewrite String.eqb_refl.
  - destruct (String.eqb k' k) eqn:Ek; simpl.
    + now rewrite String.eqb_refl.
    + now rewrite Ek.
Qed.

Lemma dict_get_set_other {A} (d : list (string * A)) k k' v :
  k' <> k -> dict_get (dict_set d k v) k' = dict_get d k'.
Proof.
  intros Hne. induction d as [|[k0 v0] d IH]; simpl.
  - destruct (String.eqb k k') eqn:Ek; [apply String.eqb_eq in Ek; congruence | reflexivity].
  - destruct (String.eqb k0 k) eqn:Ek; simpl.
    + apply String.eqb_eq in Ek. subst k0.
      destruct (String.eqb k k') eqn:Ek'; [apply String.eqb_eq in Ek'; congruence | reflexivity].
    + destruct (String.eqb k0 k'); [reflexivity | exact IH].
Qed.

Lemma dict_set_keys {A} (d : list (string * A)) k v c :
  dict_get d k = Some c -> map fst (dict_set d k v) = map fst d.
Proof.
  induction d as [|[k0 v0] d IH]; simpl; [discriminate|].
  destruct (String.eqb k0 k) eqn:Ek; simpl.
  - apply String.eqb_eq in Ek. now subst.
  - intros H. now rewrite IH.
Qed.

Lemma dict_get_In {A} (d : list (string * A)) k v :
  dict_get d k = Some v -> In (k, v) d.
Proof.
  induction d as [|[k0 v0] d IH]; simpl; [discriminate|].
  destruct (String.eqb k0 k) eqn:Ek.
  - apply String.eqb_eq in Ek. intros [= ->]. left. now subst.
  - intros H. right. auto.
Qed.

Lemma In_dict_get {A} (d : list (string * A)) k v :
  NoDup (map fst d) -> In (k, v) d -> dict_get d k = Some v.
Proof.
  induction d as [|[k0 v0] d IH]; simpl; [tauto|].
  intros Hnd [H|H].
  - injection H as -> ->. now rewrite String.eqb_refl.
  - inversion Hnd as [|? ? Hnotin Hnd']; subst.
    destruct (String.eqb k0 k) eqn:Ek.
    + apply String.eqb_eq in Ek. subst k0. exfalso. apply Hnotin.
      change k with (fst (k, v)). now apply in_map.
    + auto.
Qed.

Lemma dict_get_None {A} (d : list (string * A)) k :
  dict_get d k = None <-> ~ In k (map fst d).
Proof.
  induction d as [|[k0 v0] d IH]; simpl; [tauto|].
  destruct (String.eqb k0 k) eqn:Ek.
  - apply String.eqb_eq in Ek. subst. split; [discriminate | tauto].
  - apply String.eqb_neq in Ek. rewrite IH. tauto.
Qed.

Lemma dict_get_Some_key {A} (d : list (string * A)) k v :
  dict_get d k = Some v -> In k (map fst d).
Proof.
  intros H. apply dict_get_In in H. change k with (fst (k, v)). now apply in_map.
Qed.

Lemma NoDup_map_fst_filter {A B} (p : A * B -> bool) (l : list (A * B)) :
  NoDup (map fst l) -> NoDup (map fst (filter p l)).
Proof.
  induction l as [|x l IH]; simpl; intros H; [constructor|].
  inversion H as [|? ? Hn Hd]; subst.
  destruct (p x); simpl; auto.
  constructor; auto.
  intros Hin. apply Hn. apply in_map_iff in Hin as [y [Hy Hin]].
  apply filter_In in Hin as [Hin _]. rewrite <- Hy. now apply in_map.
Qed.

Section Properties.

Context {L : Lib}.

Lemma getitem_setitem_same df name c :
  getitem (setitem df name c) name = Some c.
Proof. apply dict_get_set_same. Qed.

Lemma getitem_setitem_other df name name' c :
  name' <> name -> getitem (setitem df name c) name' = getitem df name'.
Proof. apply dict_get_set_other. Qed.

Lemma df_columns_setitem df name c c0 :
  getitem df name = Some c0 -> df_columns (setitem df name c) = df_columns df.
Proof. apply dict_set_keys. Qed.

(** ** clean_dataframe *)

Lemma crlftab_not_printable c : is_crlftab c = true -> is_printable c = false.
Proof.
  unfold is_crlftab, is_printable. intros H.
  apply orb_true_iff in H as [H|H]; [apply orb_true_iff in H as [H|H]|];
    apply N.eqb_eq in H; rewrite H; reflexivity.
Qed.

Lemma string_app_assoc (a b c : string) : ((a ++ b) ++ c = a ++ (b ++ c))%string.
Proof. induction a as [|x a IH]; simpl; [reflexivity | now rewrite IH]. Qed.

Lemma sub_class_app cls repl a b :
  sub_class cls repl (a ++ b) = (sub_class cls repl a ++ sub_class cls repl b)%string.
Proof.
  induction a as [|c a IH]; simpl; [reflexivity|].
  now rewrite IH, string_app_assoc.
Qed.

(** The two substitutions of the script, one after the other, are the single
    pass of the specification. *)
Lemma two_substitutions_sanitize s :
  sub_class (fun ch => negb (is_printable ch)) "" (sub_class is_crlftab " " s) = sanitize s.
Proof.
  induction s as [|c s IH]; simpl; [reflexivity|].
  rewrite sub_class_app, IH.
  destruct (is_crlftab c) eqn:Hc; simpl.
  - reflexivity.
  - destruct (is_printable c); reflexivity.
Qed.

Lemma sanitize_printable s : printable_text (sanitize s) = true.
Proof.
  induction s as [|c s IH]; simpl; [reflexivity|].
  destruct (is_crlftab c) eqn:Hc; simpl; [exact IH|].
  destruct (is_printable c) eqn:Hp; simpl; [|exact IH].
  now rewrite Hp, Hc.
Qed.

Lemma clean_series_sanitize c :
  clean_series c = ColObject (map (fun s => VStr (sanitize s)) (astype_str c)).
Proof.
  unfold clean_series, str_series, str_replace.
  rewrite !map_map. f_equal. apply map_ext. intros s.
  now rewrite two_substitutions_sanitize.
Qed.

(** The loop of [clean_dataframe] over a list of distinct labels. *)
Lemma clean_loop names : forall df,
  NoDup names ->
  let df' := fold_left
    (fun df col => match getitem df col with
                   | Some c => setitem df col (clean_series c)
                   | None => df
                   end) names df in
  nrows df' = nrows df /\
  df_columns df' = df_columns df /\
  forall name,
    getitem df' name =
    if existsb (String.eqb name) names
    then option_map clean_series (getitem df name)
    else getitem df name.
Proof.
  induction names as [|col names IH]; intros df Hnd; simpl.
  - repeat split.
  - inversion Hnd as [|? ? Hnotin Hnd']; subst.
    set (df1 := match getitem df col with
                | Some c => setitem df col (clean_series c)
                | None => df
                end).
    destruct (IH df1 Hnd') as (Hn & Hc & Hg).
    assert (Hn1 : nrows df1 = nrows df)
      by (unfold df1; destruct (getitem df col); reflexivity).
    assert (Hc1 : df_columns df1 = df_columns df)
      by (unfold df1; destruct (getitem df col) eqn:E;
          [eapply df_columns_setitem; eauto | reflexivity]).
    repeat split; [congruence | congruence |].
    intros name. rewrite Hg.
    destruct (String.eqb name col) eqn:Ename; simpl.
    + apply String.eqb_eq in Ename. subst name.
      assert (Hex : existsb (String.eqb col) names = false).
      { apply not_true_is_false. intros H. apply existsb_exists in H as [x [Hx Hx']].
        apply String.eqb_eq in Hx'. now subst. }
      rewrite Hex. unfold df1. destruct (getitem df col) eqn:E; simpl.
      * apply getitem_setitem_same.
      * exact E.
    + apply String.eqb_neq in Ename.
      assert (Hsame : getitem df1 name = getitem df name).
      { unfold df1. destruct (getitem df col); [|reflexivity].
        now apply getitem_setitem_other. }
      now rewrite Hsame.
Qed.

Lemma select_dtypes_spec df name c :
  NoDup (df_columns df) ->
  getitem df name = Some c ->
  existsb (String.eqb name) (select_dtypes_object_bool df) = is_object_or_bool c.
Proof.
  intros Hnd Hget. unfold select_dtypes_object_bool.
  destruct (is_object_or_bool c) eqn:Hc.
  - apply existsb_exists. exists name. split; [|apply String.eqb_refl].
    change name with (fst (name, c)). apply in_map. apply filter_In.
    split; [now apply dict_get_In | exact Hc].
  - apply not_true_is_false. intros H. apply existsb_exists in H as [x [Hx Hx']].
    apply String.eqb_eq in Hx'. subst x.
    apply in_map_iff in Hx as [[n c'] [Hn Hin]]. simpl in Hn. subst n.
    apply filter_In in Hin as [Hin Hob]. simpl in Hob.
    apply (In_dict_get _ _ _ Hnd) in Hin. unfold getitem in Hget. congruence.
Qed.

Lemma clean_dataframe_getitem df name c :
  NoDup (df_columns df) ->
  getitem df name = Some c ->
  getitem (clean_dataframe df) name =
  Some (if is_object_or_bool c then clean_series c else c).
Proof.
  intros Hnd Hget. unfold clean_dataframe.
  destruct (clean_loop (select_dtypes_object_bool df) df) as (_ & _ & Hg).
  { now apply NoDup_map_fst_filter. }
  rewrite Hg, (select_dtypes_spec df name c Hnd Hget), Hget.
  destruct (is_object_or_bool c); reflexivity.
Qed.

Lemma clean_dataframe_columns df :
  NoDup (df_columns df) -> df_columns (clean_dataframe df) = df_columns df.
Proof.
  intros Hnd. unfold clean_dataframe.
  destruct (clean_loop (select_dtypes_object_bool df) df) as (_ & Hc & _); auto.
  now apply NoDup_map_fst_filter.
Qed.

Lemma clean_dataframe_nrows df :
  NoDup (df_columns df) -> nrows (clean_dataframe df) = nrows df.
Proof.
  intros Hnd. unfold clean_dataframe.
  destruct (clean_loop (select_dtypes_object_bool df) df) as (Hn & _ & _); auto.
  now apply NoDup_map_fst_filter.
Qed.

(** C1. For a frame with distinct labels, [clean_dataframe] keeps the labels;
    it replaces every cell of an object or bool column by the text of the
    cell in which each carriage return, newline and tab has become one space
    and every other character outside 0x20-0x7E is gone; it leaves the
    columns of the other dtypes as they are; and every cell of an object
    column of the result is a text with characters in 0x20-0x7E only. *)
Theorem clean_dataframe_sanitizes df :
  NoDup (df_columns df) ->
  df_columns (clean_dataframe df) = df_columns df /\
  (forall name c, getitem df name = Some c ->
     getitem (clean_dataframe df) name =
     Some (if is_object_or_bool c
           then ColObject (map (fun s => VStr (sanitize s)) (astype_str c))
           else c)) /\
  (forall name l, getitem (clean_dataframe df) name = Some (ColObject l) ->
     Forall (fun v => exists s, v = VStr s /\ printable_text s = true) l).
Proof.
  intros Hnd. split; [now apply clean_dataframe_columns|]. split.
  - intros name c Hget. rewrite (clean_dataframe_getitem df name c Hnd Hget).
    now rewrite clean_series_sanitize.
  - intros name l Hget.
    assert (Hin : In name (df_columns df)).
    { rewrite <- (clean_dataframe_columns df Hnd). eapply dict_get_Some_key; eauto. }
    destruct (getitem df name) as [c|] eqn:E;
      [|apply dict_get_None in E; contradiction].
    rewrite (clean_dataframe_getitem df name c Hnd E) in Hget.
    destruct (is_object_or_bool c) eqn:Hc.
    + rewrite clean_series_sanitize in Hget. injection Hget as <-.
      apply Forall_forall. intros v Hv. apply in_map_iff in Hv as [s [<- _]].
      exists (sanitize s). split; [reflexivity | apply sanitize_printable].
    + injection Hget as ->. discriminate.
Qed.

(** ** Rows *)

Lemma In_row_to_dict df i name v :
  In (name, v) (row_to_dict df i) <->
  exists c, In (name, c) (cols df) /\ box (values_float64 df) c i = Some v.
Proof.
  unfold row_to_dict. rewrite in_flat_map. split.
  - intros [[n c] [Hin Hv]]. simpl in Hv.
    destruct (box (values_float64 df) c i) as [v'|] eqn:E; [|contradiction].
    destruct Hv as [Hv|[]]. injection Hv as -> ->. eauto.
  - intros [c [Hin Hb]]. exists (name, c). split; [exact Hin|].
    simpl. rewrite Hb. now left.
Qed.

Lemma nth_error_map_Some {A B} (f : A -> B) l i b :
  nth_error (map f l) i = Some b -> exists a, nth_error l i = Some a /\ b = f a.
Proof.
  rewrite nth_error_map. destruct (nth_error l i) as [a|]; simpl; [|discriminate].
  intros [= <-]. eauto.
Qed.

(** ** cast_types *)

(** What the loop of [cast_types] does to the columns when it returns:
    the labels stay, a label outside the schema keeps its column, and with
    distinct names in the schema a declared label gets the cast of its column. *)
Lemma cast_types_loop schema : forall df df',
  cast_types df schema = Ok df' ->
  nrows df' = nrows df /\
  df_columns df' = df_columns df /\
  (forall name, ~ In name (map Name schema) -> getitem df' name = getitem df name) /\
  (NoDup (map Name schema) ->
   forall fld c, In fld schema -> getitem df (Name fld) = Some c ->
     exists c', cast_series (Typ fld) c = Ok c' /\ getitem df' (Name fld) = Some c').
Proof.
  induction schema as [|col schema IH]; intros df df' H; simpl in H.
  - injection H as <-. repeat split; intros; try contradiction.
  - destruct (getitem df (Name col)) as [c0|] eqn:E0.
    + destruct (cast_series (Typ col) c0) as [c1|e] eqn:E1; simpl in H; [|discriminate].
      destruct (IH _ _ H) as (Hn & Hc & Hout & Hin).
      split; [exact Hn|]. split.
      { rewrite Hc. eapply df_columns_setitem; eauto. }
      split.
      * intros name Hnot. simpl in Hnot. rewrite Hout by tauto.
        apply getitem_setitem_other. intros ->. tauto.
      * intros Hnd fld c [->|Hfld] Hget.
        -- inversion Hnd as [|? ? Hnotin Hnd']; subst.
           rewrite (Hout _ Hnotin), getitem_setitem_same.
           exists c1. split; [congruence | reflexivity].
        -- inversion Hnd as [|? ? Hnotin Hnd']; subst.
           apply (Hin Hnd' fld c Hfld).
           rewrite getitem_setitem_other; [exact Hget|].
           intros Heq. apply Hnotin. rewrite <- Heq. now apply in_map.
    + destruct (IH _ _ H) as (Hn & Hc & Hout & Hin).
      repeat split; auto.
      * intros name Hnot. simpl in Hnot. apply Hout. tauto.
      * intros Hnd fld c [->|Hfld] Hget; [congruence|].
        inversion Hnd; subst. auto.
Qed.

Lemma cast_types_declared df schema df' name typ c' :
  NoDup (map Name schema) ->
  In (mkField name typ) schema ->
  cast_types df schema = Ok df' ->
  getitem df' name = Some c' ->
  exists c, getitem df name = Some c /\ cast_series typ c = Ok c'.
Proof.
  intros Hnd Hin Hcast Hget.
  destruct (cast_types_loop schema df df' Hcast) as (_ & Hc & _ & Hdecl).
  assert (Hlab : In name (df_columns df))
    by (rewrite <- Hc; eapply dict_get_Some_key; eauto).
  destruct (getitem df name) as [c|] eqn:E; [|apply dict_get_None in E; contradiction].
  destruct (Hdecl Hnd (mkField name typ) c Hin E) as (c1 & H1 & H2). simpl in *.
  exists c. split; [reflexivity | congruence].
Qed.

Lemma cast_types_NoDup df schema df' :
  cast_types df schema = Ok df' -> NoDup (df_columns df) -> NoDup (df_columns df').
Proof.
  intros H Hnd. destruct (cast_types_loop schema df df' H) as (_ & Hc & _). now rewrite Hc.
Qed.

Lemma row_cell df i name v :
  NoDup (df_columns df) ->
  In (name, v) (row_to_dict df i) ->
  exists c, getitem df name = Some c /\ box (values_float64 df) c i = Some v.
Proof.
  intros Hnd H. apply In_row_to_dict in H as [c [Hin Hb]].
  exists c. split; [now apply In_dict_get | exact Hb].
Qed.

Lemma cell_row df i name c v :
  getitem df name = Some c ->
  box (values_float64 df) c i = Some v ->
  In (name, v) (row_to_dict df i).
Proof.
  intros Hget Hb. apply In_row_to_dict. exists c. split; [now apply dict_get_In | exact Hb].
Qed.

(** *** Integers *)

Lemma safe_cast_nth {A} (cast : A -> result (option Z)) l : forall l' i a,
  safe_cast cast l = Ok l' ->
  nth_error l i = Some a ->
  exists o, cast a = Ok o /\ nth_error l' i = Some o.
Proof.
  induction l as [|x l IH]; intros l' i a H Hn.
  - destruct i; discriminate.
  - simpl in H. destruct (cast x) as [o|] eqn:Ex; simpl in H; [|discriminate].
    destruct (safe_cast cast l) as [os|] eqn:El; simpl in H; [|discriminate].
    injection H as <-. destruct i; simpl in *.
    + injection Hn as <-. eauto.
    + eapply IH; eauto.
Qed.

Lemma astype_Int64_dtype c c' :
  astype_Int64 c = Ok c' -> exists l, c' = ColNullableInt64 l.
Proof.
  destruct c; simpl; intros H;
    try (injection H as <-; eauto; fail);
    try discriminate;
    match type of H with
    | bind_result ?r _ = _ => destruct r; simpl in H; [injection H as <-; eauto | discriminate]
    end.
Qed.

Lemma box_nullable b l i v :
  box b (ColNullableInt64 l) i = Some v -> v = VNA \/ exists z, v = VInt z.
Proof.
  simpl. destruct (nth_error l i) as [[z|]|]; simpl; intros [= <-]; eauto.
Qed.

Lemma null_cell_makes_float l i v :
  nth_error l i = Some v ->
  numeric_of_value v = NumNull ->
  maybe_convert_numeric l = ColFloat64 (map numeric_float (map numeric_of_value l)) /\
  nth_error (map numeric_float (map numeric_of_value l)) i = Some S754_nan.
Proof.
  intros Hn Hv. split.
  - unfold maybe_convert_numeric.
    assert (Hex : existsb seen_float (map numeric_of_value l) = true).
    { apply existsb_exists. exists NumNull. split; [|reflexivity].
      rewrite <- Hv. apply in_map. eapply nth_error_In; eauto. }
    now rewrite Hex.
  - rewrite !nth_error_map, Hn. simpl. now rewrite Hv.
Qed.

(** The text ["1,234"] is no number for the strict parser: the scan stops at
    the comma. *)
Lemma comma_not_numeric : numeric_of_value (VStr "1,234") = NumNull.
Proof. reflexivity. Qed.

(** C2. When [cast_types] returns, the column of a field declared ["int"] is
    an Int64 column: each of its cells is an integer or the missing marker
    [NA], never a text; and the cell of a row that held the text ["1,234"]
    is the missing one. *)
Theorem cast_types_integer_or_null df schema df' name :
  NoDup (map Name schema) ->
  In (mkField name "int") schema ->
  cast_types df schema = Ok df' ->
  (forall c', getitem df' name = Some c' ->
     (exists l, c' = ColNullableInt64 l) /\
     (forall i v, box false c' i = Some v -> v = VNA \/ exists z, v = VInt z)) /\
  (forall l i, getitem df name = Some (ColObject l) ->
     nth_error l i = Some (VStr "1,234") ->
     exists l', getitem df' name = Some (ColNullableInt64 l') /\
                nth_error l' i = Some None /\
                box false (ColNullableInt64 l') i = Some VNA).
Proof.
  intros Hs Hin Hcast. split.
  - intros c' Hget.
    destruct (cast_types_declared _ _ _ _ _ _ Hs Hin Hcast Hget) as (c & _ & Hc).
    unfold cast_series in Hc. simpl in Hc.
    apply astype_Int64_dtype in Hc as [l ->].
    split; [eauto|]. intros i v Hb. eapply box_nullable; eauto.
  - intros l i Hget Hn.
    destruct (cast_types_loop schema df df' Hcast) as (_ & _ & _ & Hdecl).
    destruct (Hdecl Hs _ _ Hin Hget) as (c' & Hc & Hget'). simpl in Hc, Hget'.
    unfold cast_series in Hc. simpl in Hc.
    destruct (null_cell_makes_float l i _ Hn comma_not_numeric) as (Hf & Hnan).
    rewrite Hf in Hc. simpl in Hc.
    destruct (safe_cast Int64_of_float _) as [l'|] eqn:El; simpl in Hc; [|discriminate].
    injection Hc as <-.
    destruct (safe_cast_nth _ _ _ _ _ El Hnan) as (o & Ho & Hno).
    simpl in Ho. injection Ho as <-.
    exists l'. split; [exact Hget'|]. split; [exact Hno|]. simpl. now rewrite Hno.
Qed.

(** *** Dates *)

Lemma all_from_spec n P : forall z,
  all_from n P z = true -> forall k, z <= k < z + Z.of_nat n -> P k = true.
Proof.
  induction n as [|n IH]; intros z H k Hk; [lia|].
  simpl in H. apply andb_true_iff in H as [H1 H2].
  destruct (Z.eq_dec k z) as [->|Hne]; [exact H1|].
  apply (IH (z + 1) H2). lia.
Qed.

Lemma civil_from_days_in_range d :
  -106752 <= d <= 106751 -> civil_in_range d = true.
Proof.
  intros H. unfold civil_in_range, civil_from_days. cbv zeta.
  set (z := d + 719468).
  set (era := z / 146097).
  set (doe := z - era * 146097).
  set (yoe := (doe - doe / 1460 + doe / 36524 - doe / 146096) / 365).
  set (doy := doe - (365 * yoe + yoe / 4 - yoe / 100)).
  set (mp := (5 * doy + 2) / 153).
  assert (Hdoe : 0 <= doe <= 146096) by (subst doe era; Z.div_mod_to_equations; lia).
  assert (Hyoe : 0 <= yoe <= 399) by (subst yoe; Z.div_mod_to_equations; lia).
  assert (Hdoy : 0 <= doy <= 365) by (subst doy yoe; Z.div_mod_to_equations; lia).
  assert (Hmp : 0 <= mp <= 11) by (subst mp; Z.div_mod_to_equations; lia).
  assert (Hd : 1 <= doy - (153 * mp + 2) / 5 + 1 <= 31)
    by (subst mp; Z.div_mod_to_equations; lia).
  assert (Hy : 1677 <= yoe + era * 400 + (if 10 <=? mp then 1 else 0) <= 2262).
  { destruct (10 <=? mp) eqn:E; [apply Z.leb_le in E | apply Z.leb_gt in E];
      subst mp doy yoe doe era z; Z.div_mod_to_equations; lia. }
  destruct (mp <? 10) eqn:E; [apply Z.ltb_lt in E | apply Z.ltb_ge in E].
  - destruct (mp + 3 <=? 2) eqn:E2; [apply Z.leb_le in E2; lia | clear E2].
    destruct (10 <=? mp) eqn:E3; [apply Z.leb_le in E3; lia | clear E3].
    repeat (apply andb_true_iff; split); apply Z.leb_le; lia.
  - destruct (mp - 9 <=? 2) eqn:E2; [clear E2 | apply Z.leb_gt in E2; lia].
    destruct (10 <=? mp) eqn:E3; [clear E3 | apply Z.leb_gt in E3; lia].
    repeat (apply andb_true_iff; split); apply Z.leb_le; lia.
Qed.

Lemma year_four_digits y : 1677 <= y <= 2262 -> is_digits4 (int_str y) = true.
Proof.
  intros H.
  apply (all_from_spec (Z.to_nat 586) (fun y => is_digits4 (int_str y)) 1677).
  - vm_compute. reflexivity.
  - rewrite Z2Nat.id; lia.
Qed.

Lemma fmt2_two_digits n : 1 <= n <= 31 -> is_digits2 (fmt2 n) = true.
Proof.
  intros H.
  apply (all_from_spec (Z.to_nat 31) (fun n => is_digits2 (fmt2 n)) 1).
  - vm_compute. reflexivity.
  - rewrite Z2Nat.id; lia.
Qed.

Lemma is_ymd_parts a b c :
  is_digits4 a = true -> is_digits2 b = true -> is_digits2 c = true ->
  is_ymd (a ++ "-" ++ b ++ "-" ++ c) = true.
Proof.
  intros Ha Hb Hc.
  destruct a as [|a1 [|a2 [|a3 [|a4 [|a5 a]]]]];
    simpl in Ha; rewrite ?andb_false_r in Ha; try discriminate.
  destruct b as [|b1 [|b2 [|b3 b]]]; simpl in Hb; try discriminate.
  destruct c as [|c1 [|c2 [|c3 c]]]; simpl in Hc; try discriminate.
  apply andb_true_iff in Ha as [Ha12 Ha34].
  apply andb_true_iff in Ha12 as [Ha1 Ha2]. apply andb_true_iff in Ha34 as [Ha3 Ha4].
  apply andb_true_iff in Hb as [Hb1 Hb2]. apply andb_true_iff in Hc as [Hc1 Hc2].
  simpl. now rewrite Ha1, Ha2, Ha3, Ha4, Hb1, Hb2, Hc1, Hc2.
Qed.

Lemma int64_bounds z : INT64_MIN <= int64 z <= INT64_MAX.
Proof.
  unfold int64, INT64_MIN, INT64_MAX.
  pose proof (Z.mod_pos_bound (z + 2 ^ 63) (2 ^ 64) eq_refl). lia.
Qed.

Lemma day_of_cell_bounds v :
  INT64_MIN <= v <= INT64_MAX -> -106752 <= v / NS_PER_DAY <= 106751.
Proof.
  unfold INT64_MIN, INT64_MAX, NS_PER_DAY.
  change (2 ^ 63) with 9223372036854775808.
  change (86400 * 1000000000) with 86400000000000.
  intros H. Z.div_mod_to_equations. lia.
Qed.

Lemma ymd_shape d : -106752 <= d <= 106751 -> is_ymd (ymd d) = true.
Proof.
  intros H. pose proof (civil_from_days_in_range d H) as Hr.
  unfold civil_in_range in Hr. unfold ymd.
  destruct (civil_from_days d) as [[y m] dd].
  repeat (apply andb_true_iff in Hr as [Hr ?]).
  apply is_ymd_parts; [apply year_four_digits | apply fmt2_two_digits | apply fmt2_two_digits]; lia.
Qed.

(** A cell of [.dt.strftime("%Y-%m-%d")] is NaN or a text of the form
    [YYYY-MM-DD]. *)
Lemma strftime_ymd_shape t :
  strftime_ymd t = nan \/ exists s, strftime_ymd t = VStr s /\ is_ymd s = true.
Proof.
  unfold strftime_ymd. destruct (int64 t =? NaT); [now left|].
  right. eexists. split; [reflexivity|].
  apply ymd_shape, day_of_cell_bounds, int64_bounds.
Qed.

Lemma cast_series_date c c' :
  cast_series "date" c = Ok c' -> c' = dt_strftime_ymd (to_datetime c).
Proof.
  unfold cast_series. simpl.
  destruct (to_datetime_raises c); [discriminate | now intros [= <-]].
Qed.

(** C4. When [cast_types] returns, a field declared ["date"] holds in every
    row either NaN or a text of the form [YYYY-MM-DD]; the cell is NaN where
    the conversion gave [NaT], and otherwise the date of the day the
    timestamp falls in, whatever the time of day. *)
Theorem cast_types_date_or_null df schema df' name :
  NoDup (df_columns df) ->
  NoDup (map Name schema) ->
  In (mkField name "date") schema ->
  cast_types df schema = Ok df' ->
  (forall i v, In (name, v) (row_to_dict df' i) ->
     v = nan \/ exists s, v = VStr s /\ is_ymd s = true) /\
  (forall c i t, getitem df name = Some c ->
     nth_error (to_datetime c) i = Some t ->
     In (name, if int64 t =? NaT then nan else VStr (ymd (int64 t / NS_PER_DAY)))
        (row_to_dict df' i)).
Proof.
  intros Hnd Hs Hin Hcast. split.
  - intros i v Hrow.
    apply row_cell in Hrow as (c' & Hget & Hb); [|eapply cast_types_NoDup; eauto].
    destruct (cast_types_declared _ _ _ _ _ _ Hs Hin Hcast Hget) as (c & _ & Hc).
    apply cast_series_date in Hc. subst c'.
    simpl in Hb. apply nth_error_map_Some in Hb as (t & _ & ->).
    apply strftime_ymd_shape.
  - intros c i t Hget Hn.
    destruct (cast_types_loop schema df df' Hcast) as (_ & _ & _ & Hdecl).
    destruct (Hdecl Hs _ _ Hin Hget) as (c' & Hc & Hget'). simpl in Hc, Hget'.
    apply cast_series_date in Hc. subst c'.
    eapply cell_row; eauto. simpl. rewrite nth_error_map, Hn. reflexivity.
Qed.

(** *** Any other declared type *)

Lemma other_type_cast typ c :
  typ <> "int" -> typ <> "float" -> typ <> "date" ->
  cast_series typ c = Ok (str_series (astype_str c)).
Proof.
  intros H1 H2 H3. unfold cast_series.
  apply String.eqb_neq in H1, H2, H3. now rewrite H1, H2, H3.
Qed.

Lemma astype_str_missing c i v :
  box false c i = Some v -> is_missing v = true ->
  nth_error (astype_str c) i = Some (py_str v).
Proof.
  intros Hb Hm.
  destruct c as [l|l|l|l|l|l|l]; simpl in *; rewrite nth_error_map;
    destruct (nth_error l i) as [x|]; simpl in *; try discriminate;
    injection Hb as <-; try discriminate.
  - reflexivity.
  - destruct x; try discriminate. reflexivity.
  - destruct (int64 x =? NaT); [reflexivity | discriminate].
  - destruct x; [discriminate | reflexivity].
Qed.

(** C6. When [cast_types] returns, a field declared with a type other than
    ["int"], ["float"] and ["date"] holds the text of each of its cells; no
    row has a missing marker there, and a cell that was missing ([None], NaN,
    [NaT] or [NA]) holds the text Python prints for that marker: ["None"],
    ["nan"], ["NaT"] or ["<NA>"]. *)
Theorem cast_types_text_never_null df schema df' name typ :
  NoDup (df_columns df) ->
  NoDup (map Name schema) ->
  In (mkField name typ) schema ->
  typ <> "int" -> typ <> "float" -> typ <> "date" ->
  cast_types df schema = Ok df' ->
  (forall c, getitem df name = Some c ->
     getitem df' name = Some (ColObject (map VStr (astype_str c)))) /\
  (forall i v, In (name, v) (row_to_dict df' i) ->
     is_missing v = false /\ exists s, v = VStr s) /\
  (forall c i v, getitem df name = Some c ->
     box false c i = Some v -> is_missing v = true ->
     In (name, VStr (py_str v)) (row_to_dict df' i)) /\
  py_str VNone = "None" /\ py_str nan = "nan" /\ py_str VNaT = "NaT" /\ py_str VNA = "<NA>".
Proof.
  intros Hnd Hs Hin H1 H2 H3 Hcast.
  destruct (cast_types_loop schema df df' Hcast) as (_ & _ & _ & Hdecl).
  assert (Hcol : forall c, getitem df name = Some c ->
            getitem df' name = Some (ColObject (map VStr (astype_str c)))).
  { intros c Hget. destruct (Hdecl Hs _ _ Hin Hget) as (c' & Hc & Hget').
    simpl in Hc, Hget'. rewrite other_type_cast in Hc by assumption.
    injection Hc as <-. exact Hget'. }
  split; [exact Hcol|]. split; [|split; [|repeat split]].
  - intros i v Hrow.
    apply row_cell in Hrow as (c' & Hget & Hb); [|eapply cast_types_NoDup; eauto].
    destruct (cast_types_declared _ _ _ _ _ _ Hs Hin Hcast Hget) as (c & _ & Hc).
    rewrite other_type_cast in Hc by assumption. injection Hc as <-.
    simpl in Hb. apply nth_error_map_Some in Hb as (s & _ & ->). eauto.
  - intros c i v Hget Hb Hm.
    eapply cell_row; [apply Hcol; eauto|].
    simpl. rewrite nth_error_map, (astype_str_missing _ _ _ Hb Hm). reflexivity.
Qed.

(** *** Fields outside the schema *)

Lemma cast_types_undeclared df schema df' name :
  cast_types df schema = Ok df' ->
  ~ In name (map Name schema) ->
  getitem df' name = getitem df name.
Proof.
  intros H Hn. destruct (cast_types_loop schema df df' H) as (_ & _ & Hout & _). auto.
Qed.

(** *** A fractional number in an integer field *)

(** C5. [cast_types] raises: the cast to ["Int64"] of a column that holds the
    number 1.5 fails with a [TypeError], both on a frame given directly and on
    the frame [main] prepares from a document with [views: 1.5]. *)
Theorem cast_types_raises_on_fraction :
  let one_and_a_half := S754_finite false 6755399441055744 (-52) in
  cast_types (mkDataFrame 1 [("views", ColFloat64 [one_and_a_half])])
             [mkField "views" "int"]
  = Raise (TypeError "cannot safely cast non-equivalent float64 to int64") /\
  prepared_frame [[("views", VFloat one_and_a_half)]] (metrics_schema "userId")
  = Raise (TypeError "cannot safely cast non-equivalent float64 to int64").
Proof. split; reflexivity. Qed.

(** ** The frame built from the documents *)

Lemma unique_In x l : In x (unique l) <-> In x l.
Proof.
  induction l as [|y l IH]; simpl; [tauto|].
  rewrite filter_In, IH. destruct (String.eqb x y) eqn:E.
  - apply String.eqb_eq in E. subst. tauto.
  - simpl. tauto.
Qed.

Lemma NoDup_filter {A} (p : A -> bool) l : NoDup l -> NoDup (filter p l).
Proof.
  induction 1 as [|x l Hn Hd IH]; simpl; [constructor|].
  destruct (p x); [constructor; auto | auto].
  intros H. apply filter_In in H. tauto.
Qed.

Lemma unique_NoDup l : NoDup (unique l).
Proof.
  induction l as [|x l IH]; simpl; constructor.
  - intros H. apply filter_In in H as [_ H]. now rewrite String.eqb_refl in H.
  - now apply NoDup_filter.
Qed.

Lemma frame_labels_In data k :
  In k (frame_labels data) <-> exists r, In r data /\ In k (map fst r).
Proof.
  unfold frame_labels. rewrite unique_In, in_concat. split.
  - intros [ks [Hks Hk]]. apply in_map_iff in Hks as [r [<- Hr]]. eauto.
  - intros [r [Hr Hk]]. exists (map fst r). split; [now apply in_map | exact Hk].
Qed.

Lemma dict_get_tabulate {A} (f : string -> A) l k :
  In k l -> dict_get (map (fun k => (k, f k)) l) k = Some (f k).
Proof.
  induction l as [|x l IH]; simpl; [tauto|].
  destruct (String.eqb x k) eqn:E.
  - apply String.eqb_eq in E. now subst.
  - intros [H|H]; [subst; now rewrite String.eqb_refl in E | auto].
Qed.

Lemma DataFrame_of_columns data : df_columns (DataFrame_of data) = frame_labels data.
Proof.
  unfold df_columns, DataFrame_of. simpl. rewrite map_map. simpl. apply map_id.
Qed.

Lemma DataFrame_of_getitem data k c :
  getitem (DataFrame_of data) k = Some c -> c = infer_column (gather data k).
Proof.
  intros H. assert (Hin : In k (frame_labels data)).
  { rewrite <- DataFrame_of_columns. eapply dict_get_Some_key; eauto. }
  unfold getitem, DataFrame_of in H. simpl in H.
  rewrite (dict_get_tabulate (fun k => infer_column (gather data k))) in H by assumption.
  congruence.
Qed.

Lemma dict_get_filter_key {A} (d : list (string * A)) (p : string -> bool) k :
  p k = true -> dict_get (filter (fun x => p (fst x)) d) k = dict_get d k.
Proof.
  intros Hp. induction d as [|[k0 v0] d IH]; simpl; [reflexivity|].
  destruct (p k0) eqn:E; simpl.
  - destruct (String.eqb k0 k); auto.
  - destruct (String.eqb k0 k) eqn:E'; [|exact IH].
    apply String.eqb_eq in E'. congruence.
Qed.

Lemma map_fst_filter_key {A} (d : list (string * A)) (p : string -> bool) :
  map fst (filter (fun x => p (fst x)) d) = filter p (map fst d).
Proof.
  induction d as [|[k v] d IH]; simpl; [reflexivity|].
  destruct (p k); simpl; now rewrite IH.
Qed.

Lemma filter_all {A} (p : A -> bool) l :
  (forall x, In x l -> p x = true) -> filter p l = l.
Proof.
  induction l as [|x l IH]; simpl; intros H; [reflexivity|].
  rewrite (H x) by auto. f_equal. auto.
Qed.

Lemma fetched_frame_columns data :
  df_columns (fetched_frame data) = filter not_id (frame_labels data).
Proof.
  unfold fetched_frame. rewrite <- DataFrame_of_columns.
  destruct (has_column (DataFrame_of data) "_id") eqn:E.
  - unfold df_columns, drop_column. simpl. apply (map_fst_filter_key _ not_id).
  - symmetry. apply filter_all. intros x Hx. unfold not_id.
    destruct (String.eqb x "_id") eqn:Ex; [|reflexivity].
    apply String.eqb_eq in Ex. subst x. exfalso.
    apply not_true_iff_false in E. apply E. unfold has_column.
    apply existsb_exists. exists "_id". split; [exact Hx | reflexivity].
Qed.

Lemma fetched_frame_getitem data k :
  not_id k = true -> getitem (fetched_frame data) k = getitem (DataFrame_of data) k.
Proof.
  intros Hk. unfold fetched_frame.
  destruct (has_column (DataFrame_of data) "_id"); [|reflexivity].
  apply (dict_get_filter_key _ not_id _ Hk).
Qed.

Lemma fetched_frame_NoDup data : NoDup (df_columns (fetched_frame data)).
Proof. rewrite fetched_frame_columns. apply NoDup_filter, unique_NoDup. Qed.

Lemma cleaned_frame_columns data :
  df_columns (cleaned_frame data) = filter not_id (frame_labels data).
Proof.
  unfold cleaned_frame. rewrite clean_dataframe_columns by apply fetched_frame_NoDup.
  apply fetched_frame_columns.
Qed.

Lemma cleaned_frame_NoDup data : NoDup (df_columns (cleaned_frame data)).
Proof. rewrite cleaned_frame_columns. apply NoDup_filter, unique_NoDup. Qed.

Lemma prepared_frame_columns data schema df :
  prepared_frame data schema = Ok df ->
  df_columns df = filter not_id (frame_labels data).
Proof.
  intros H. destruct (cast_types_loop schema _ _ H) as (_ & Hc & _).
  rewrite Hc. apply cleaned_frame_columns.
Qed.

(** No row of the frame [main] serialises has the key ["_id"]. *)
Lemma prepared_frame_no_id data schema df i :
  prepared_frame data schema = Ok df ->
  ~ In "_id" (map fst (row_to_dict df i)).
Proof.
  intros H Hin. apply in_map_iff in Hin as [[k v] [Hk Hin]]. simpl in Hk. subst k.
  apply In_row_to_dict in Hin as [c [Hin _]].
  assert (Hl : In "_id" (df_columns df))
    by (change "_id" with (fst ("_id", c)); now apply in_map).
  rewrite (prepared_frame_columns _ _ _ H) in Hl.
  apply filter_In in Hl as [_ Hl]. discriminate.
Qed.

(** *** Lengths *)

Lemma infer_column_length l : col_length (infer_column l) = List.length l.
Proof.
  unfold infer_column.
  repeat match goal with
         | |- context [if ?b then _ else _] => destruct b
         end; simpl; rewrite ?length_map; reflexivity.
Qed.

Lemma astype_str_length c : List.length (astype_str c) = col_length c.
Proof. destruct c; simpl; apply length_map. Qed.

Lemma clean_series_length c : col_length (clean_series c) = col_length c.
Proof.
  unfold clean_series, str_series, str_replace. simpl.
  rewrite !length_map. apply astype_str_length.
Qed.

Lemma to_numeric_length c : col_length (to_numeric c) = col_length c.
Proof.
  destruct c; simpl; try reflexivity; [|apply length_map].
  unfold maybe_convert_numeric.
  repeat match goal with
         | |- context [if ?b then _ else _] => destruct b
         end; simpl; rewrite !length_map; reflexivity.
Qed.

Lemma safe_cast_length {A} (cast : A -> result (option Z)) l : forall l',
  safe_cast cast l = Ok l' -> List.length l' = List.length l.
Proof.
  induction l as [|x l IH]; simpl; intros l' H.
  - now injection H as <-.
  - destruct (cast x); simpl in H; [|discriminate].
    destruct (safe_cast cast l); simpl in H; [|discriminate].
    injection H as <-. simpl. f_equal. auto.
Qed.

Lemma astype_Int64_length c c' :
  astype_Int64 c = Ok c' -> col_length c' = col_length c.
Proof.
  destruct c; simpl; intros H;
    try (injection H as <-; simpl; rewrite ?length_map; reflexivity);
    try discriminate;
    match type of H with
    | bind_result ?r _ = _ =>
        destruct r eqn:E; simpl in H; [injection H as <- | discriminate]
    end; simpl; eapply safe_cast_length; eauto.
Qed.

Lemma to_datetime_length c : List.length (to_datetime c) = col_length c.
Proof.
  destruct c; simpl; try reflexivity; rewrite length_map, length_seq; reflexivity.
Qed.

Lemma cast_series_length typ c c' :
  cast_series typ c = Ok c' -> col_length c' = col_length c.
Proof.
  unfold cast_series.
  destruct (typ =? "int")%string.
  { intros H. rewrite (astype_Int64_length _ _ H). apply to_numeric_length. }
  destruct (typ =? "float")%string.
  { intros [= <-]. apply to_numeric_length. }
  destruct (typ =? "date")%string.
  - destruct (to_datetime_raises c); [discriminate|].
    intros [= <-]. simpl. rewrite length_map. apply to_datetime_length.
  - intros [= <-]. simpl. rewrite length_map. apply astype_str_length.
Qed.

Lemma DataFrame_of_rectangular data : rectangular (DataFrame_of data).
Proof.
  intros name c H. apply DataFrame_of_getitem in H. subst c.
  rewrite infer_column_length. unfold gather. apply length_map.
Qed.

Lemma fetched_frame_rectangular data : rectangular (fetched_frame data).
Proof.
  intros name c H.
  assert (Hk : not_id name = true).
  { apply dict_get_Some_key in H. fold (df_columns (fetched_frame data)) in H.
    rewrite fetched_frame_columns in H. now apply filter_In in H. }
  rewrite fetched_frame_getitem in H by assumption.
  rewrite (DataFrame_of_rectangular data name c H).
  unfold fetched_frame. now destruct (has_column _ _).
Qed.

Lemma clean_dataframe_rectangular df :
  NoDup (df_columns df) -> rectangular df -> rectangular (clean_dataframe df).
Proof.
  intros Hnd Hr name c' H.
  assert (Hin : In name (df_columns df)).
  { rewrite <- (clean_dataframe_columns df Hnd). eapply dict_get_Some_key; eauto. }
  destruct (getitem df name) as [c|] eqn:E; [|apply dict_get_None in E; contradiction].
  rewrite (clean_dataframe_getitem df name c Hnd E) in H. injection H as <-.
  rewrite clean_dataframe_nrows by assumption. rewrite <- (Hr name c E).
  destruct (is_object_or_bool c); [apply clean_series_length | reflexivity].
Qed.

Lemma cast_types_rectangular schema : forall df df',
  cast_types df schema = Ok df' -> rectangular df -> rectangular df'.
Proof.
  induction schema as [|col schema IH]; intros df df' H Hr; simpl in H.
  - now injection H as <-.
  - destruct (getitem df (Name col)) as [c0|] eqn:E0; [|eauto].
    destruct (cast_series (Typ col) c0) as [c1|] eqn:E1; simpl in H; [|discriminate].
    apply (IH _ _ H). intros name c Hget. simpl.
    destruct (String.eqb name (Name col)) eqn:En.
    + apply String.eqb_eq in En. subst name.
      rewrite getitem_setitem_same in Hget. injection Hget as <-.
      rewrite (cast_series_length _ _ _ E1). eauto.
    + apply String.eqb_neq in En.
      rewrite getitem_setitem_other in Hget by assumption. eauto.
Qed.

Lemma prepared_frame_rectangular data schema df :
  prepared_frame data schema = Ok df -> rectangular df /\ nrows df = List.length data.
Proof.
  intros H. split.
  - eapply cast_types_rectangular; eauto.
    apply clean_dataframe_rectangular;
      [apply fetched_frame_NoDup | apply fetched_frame_rectangular].
  - destruct (cast_types_loop schema _ _ H) as (Hn & _). rewrite Hn.
    unfold cleaned_frame. rewrite clean_dataframe_nrows by apply fetched_frame_NoDup.
    unfold fetched_frame. now destruct (has_column _ _).
Qed.

Lemma box_Some b c i : (i < col_length c)%nat -> exists v, box b c i = Some v.
Proof.
  intros H. destruct c as [l|l|l|l|l|l|l]; simpl in *;
    destruct (nth_error l i) eqn:E;
    try (apply nth_error_None in E; lia); simpl; eauto.
Qed.

Lemma row_keys df i :
  NoDup (df_columns df) -> rectangular df -> (i < nrows df)%nat ->
  map fst (row_to_dict df i) = df_columns df.
Proof.
  intros Hnd Hr Hi. unfold row_to_dict, df_columns.
  assert (Hall : forall p, In p (cols df) ->
            exists v, box (values_float64 df) (snd p) i = Some v).
  { intros [k c] Hp. apply box_Some. simpl.
    rewrite (Hr k c); [exact Hi | now apply In_dict_get]. }
  generalize (values_float64 df) Hall. clear. intros b.
  induction (cols df) as [|p l IH]; intros Hall; simpl; [reflexivity|].
  destruct (Hall p (or_introl eq_refl)) as [v Hv]. rewrite Hv. simpl.
  f_equal. apply IH. intros q Hq. apply Hall. now right.
Qed.

(** ** Keys of the serialised records *)

(** The cell that [pd.DataFrame(data)] puts where a document lacks the key:
    NaN, or [NaT] in a column of date-times. *)
Lemma infer_column_backfill l i :
  nth_error l i = Some nan ->
  (infer_column l = ColObject l) \/
  (infer_column l = ColFloat64 (map value_float l)) \/
  (infer_column l = ColDatetime64 (map datetime64_of l)).
Proof.
  intros Hn. assert (Hin : In nan l) by (eapply nth_error_In; eauto).
  unfold infer_column.
  destruct (existsb is_plain_object l); [now left|].
  destruct (existsb is_datetime l).
  { destruct (_ && _); [right; right | left]; reflexivity. }
  destruct (existsb is_bool l).
  { destruct (forallb is_bool l) eqn:E; [|now left].
    rewrite forallb_forall in E. specialize (E nan Hin). discriminate. }
  destruct (_ && _); [now left|].
  assert (Hnull : existsb is_null l = true)
    by (apply existsb_exists; exists nan; split; [exact Hin | reflexivity]).
  rewrite Hnull.
  destruct (_ || _); [right; left | left]; reflexivity.
Qed.

Lemma gather_missing data i r k :
  nth_error data i = Some r -> ~ In k (map fst r) ->
  nth_error (gather data k) i = Some nan.
Proof.
  intros Hn Hk. apply dict_get_None in Hk.
  unfold gather. now rewrite nth_error_map, Hn; simpl; rewrite Hk.
Qed.

(** The cell of a document that lacks the key, once the frame is cleaned:
    the text ["nan"] in a text column, NaN in a column of numbers, [NaT] in
    a column of date-times. *)
Lemma cleaned_frame_backfill data i r k :
  nth_error data i = Some r ->
  ~ In k (map fst r) ->
  k <> "_id" ->
  (exists r', In r' data /\ In k (map fst r')) ->
  exists c, getitem (cleaned_frame data) k = Some c /\
    (box false c i = Some (VStr "nan") \/ box false c i = Some nan \/
     box false c i = Some VNaT).
Proof.
  intros Hn Hk Hid Hsome.
  assert (Hnot : not_id k = true).
  { unfold not_id. apply String.eqb_neq in Hid. now rewrite Hid. }
  assert (Hlab : In k (frame_labels data)) by now apply frame_labels_In.
  assert (Hget : getitem (fetched_frame data) k = Some (infer_column (gather data k))).
  { rewrite (fetched_frame_getitem _ _ Hnot). unfold getitem, DataFrame_of. simpl.
    now rewrite (dict_get_tabulate (fun k => infer_column (gather data k))). }
  pose proof (gather_missing _ _ _ _ Hn Hk) as Hcell.
  unfold cleaned_frame.
  rewrite (clean_dataframe_getitem _ _ _ (fetched_frame_NoDup data) Hget).
  eexists. split; [reflexivity|].
  destruct (infer_column_backfill _ _ Hcell) as [-> | [-> | ->]]; cbn [is_object_or_bool].
  - left. rewrite clean_series_sanitize. cbn [box astype_str].
    now rewrite !nth_error_map, Hcell.
  - right; left. cbn [box]. now rewrite nth_error_map, Hcell.
  - right; right. cbn [box]. now rewrite nth_error_map, Hcell.
Qed.

Lemma box_any_flag b c i v :
  box false c i = Some v -> is_int v = false -> box b c i = Some v.
Proof.
  destruct b; [|auto].
  destruct c as [l|l|l|l|l|l|l]; simpl; auto;
    destruct (nth_error l i); simpl; try discriminate; intros [= <-]; discriminate.
Qed.

(** C3, amended.  In the frame [main] serialises, the row of every document
    has exactly the keys, other than ["_id"], that some document of the
    collection has: a field that no document has is not added, and a field
    that only some documents have is a key of every row.  The caster leaves
    the columns of the fields that the schema does not name as they are.
    Where a document lacks a key that another document has, the cleaned
    frame holds the text ["nan"] (text column), NaN (column of numbers) or
    [NaT] (column of date-times), and for a field that the schema does not
    name the row holds that very cell under the key. *)
Theorem serialised_keys data schema df i k :
  prepared_frame data schema = Ok df ->
  (i < List.length data)%nat ->
  (In k (map fst (row_to_dict df i)) <->
   k <> "_id" /\ exists r, In r data /\ In k (map fst r)) /\
  (~ In k (map Name schema) -> getitem df k = getitem (cleaned_frame data) k) /\
  (forall r,
     nth_error data i = Some r -> ~ In k (map fst r) -> k <> "_id" ->
     (exists r', In r' data /\ In k (map fst r')) ->
     (exists c, getitem (cleaned_frame data) k = Some c /\
        (box false c i = Some (VStr "nan") \/ box false c i = Some nan \/
         box false c i = Some VNaT)) /\
     (~ In k (map Name schema) ->
      In (k, VStr "nan") (row_to_dict df i) \/ In (k, nan) (row_to_dict df i) \/
      In (k, VNaT) (row_to_dict df i))).
Proof.
  intros H Hi.
  assert (Hpass : ~ In k (map Name schema) -> getitem df k = getitem (cleaned_frame data) k)
    by (intros Hk; eapply cast_types_undeclared; eauto).
  split; [|split; [exact Hpass|]].
  - destruct (prepared_frame_rectangular _ _ _ H) as [Hr Hn].
    rewrite row_keys; [| | exact Hr | now rewrite Hn].
    + rewrite (prepared_frame_columns _ _ _ H), filter_In, frame_labels_In.
      unfold not_id. destruct (String.eqb k "_id") eqn:E.
      * apply String.eqb_eq in E. simpl. split; [intros [_ ?]; discriminate | tauto].
      * apply String.eqb_neq in E. simpl. tauto.
    + rewrite (prepared_frame_columns _ _ _ H). apply NoDup_filter, unique_NoDup.
  - intros r Hn Hk Hid Hsome.
    destruct (cleaned_frame_backfill data i r k Hn Hk Hid Hsome) as (c & Hget & Hcell).
    split; [eauto|]. intros Hund. rewrite <- (Hpass Hund) in Hget.
    destruct Hcell as [Hc|[Hc|Hc]]; [left | right; left | right; right];
      (eapply cell_row; [exact Hget | apply box_any_flag; [exact Hc | reflexivity]]).
Qed.

(** ** Text and boolean fields *)

Lemma infer_text_or_bool l v :
  In v l -> is_bool v || is_str v = true ->
  infer_column l = ColObject l \/
  (infer_column l = ColBool (map value_bool l) /\ is_bool v = true).
Proof.
  intros Hin Hv. unfold infer_column.
  destruct (existsb is_plain_object l) eqn:E1; [now left|].
  assert (Hb : is_bool v = true).
  { destruct v; try discriminate; [reflexivity|].
    exfalso. apply not_true_iff_false in E1. apply E1.
    apply existsb_exists. eexists. split; [exact Hin | reflexivity]. }
  destruct (existsb is_datetime l).
  - destruct (forallb (fun v0 => is_datetime v0 || is_null v0) l) eqn:E2; [|now left].
    rewrite forallb_forall in E2. specialize (E2 v Hin).
    destruct v; discriminate.
  - assert (E3 : existsb is_bool l = true)
      by (apply existsb_exists; eauto).
    rewrite E3. destruct (forallb is_bool l); [right | left]; auto.
Qed.

Lemma gather_nth data i r name v :
  nth_error data i = Some r -> dict_get r name = Some v ->
  nth_error (gather data name) i = Some v.
Proof.
  intros Hn Hg. unfold gather. now rewrite nth_error_map, Hn; simpl; rewrite Hg.
Qed.

(** The cell the sanitizer leaves for a text or boolean value of a document. *)
Lemma cleaned_frame_text_cell data i r name v :
  nth_error data i = Some r ->
  dict_get r name = Some v ->
  name <> "_id" ->
  is_bool v || is_str v = true ->
  exists l, getitem (cleaned_frame data) name = Some (ColObject l) /\
            nth_error l i = Some (VStr (sanitize (py_str v))).
Proof.
  intros Hn Hg Hid Hv.
  assert (Hk : not_id name = true).
  { unfold not_id. apply String.eqb_neq in Hid. now rewrite Hid. }
  assert (Hlab : In name (frame_labels data)).
  { apply frame_labels_In. exists r. split;
      [eapply nth_error_In; eauto | eapply dict_get_Some_key; eauto]. }
  assert (Hcol : getitem (fetched_frame data) name
                 = Some (infer_column (gather data name))).
  { rewrite fetched_frame_getitem by assumption.
    apply (dict_get_tabulate (fun k => infer_column (gather data k))). exact Hlab. }
  pose proof (gather_nth _ _ _ _ _ Hn Hg) as Hcell.
  unfold cleaned_frame.
  rewrite (clean_dataframe_getitem _ _ _ (fetched_frame_NoDup data) Hcol).
  destruct (infer_text_or_bool (gather data name) v) as [E|[E Hb]];
    [eapply nth_error_In; eauto | exact Hv | |];
    rewrite E; simpl; rewrite clean_series_sanitize; eexists; (split; [reflexivity|]);
    simpl; rewrite !nth_error_map, Hcell; simpl; [reflexivity|].
  destruct v; try discriminate. reflexivity.
Qed.

(** C10.  A text or boolean value of a document, in any field but ["_id"],
    is turned by the sanitizer into the sanitised text of the value, whatever
    the schema; that text has characters in 0x20-0x7E only; when the schema
    does not name the field, the caster hands the cell on and the row
    serialised holds that text; and a boolean is then written as the JSON
    string ["True"] or ["False"], not as a JSON boolean. *)
Theorem text_and_bool_fields_sanitised data schema df i r name v :
  prepared_frame data schema = Ok df ->
  nth_error data i = Some r ->
  dict_get r name = Some v ->
  name <> "_id" ->
  is_bool v || is_str v = true ->
  In (name, VStr (sanitize (py_str v))) (row_to_dict (cleaned_frame data) i) /\
  printable_text (sanitize (py_str v)) = true /\
  (~ In name (map Name schema) ->
   In (name, VStr (sanitize (py_str v))) (row_to_dict df i)) /\
  (forall b, v = VBool b ->
   json_value (VStr (sanitize (py_str v))) = Ok (dquote ++ bool_str b ++ dquote)).
Proof.
  intros H Hn Hg Hid Hv.
  destruct (cleaned_frame_text_cell _ _ _ _ _ Hn Hg Hid Hv) as (l & Hcol & Hcell).
  split; [|split; [|split]].
  - eapply cell_row; eauto.
  - apply sanitize_printable.
  - intros Hs. apply (cell_row df i name (ColObject l)); [|exact Hcell].
    rewrite (cast_types_undeclared _ _ _ _ H Hs). exact Hcol.
  - intros b ->. destruct b; reflexivity.
Qed.

End Properties.

(** ** The run *)

Section RunProperties.

Context {L : Lib} {E : Env}.

Lemma dict_set_set {A} (d : list (string * A)) k v v' :
  dict_set (dict_set d k v) k v' = dict_set d k v'.
Proof.
  induction d as [|[k0 v0] d IH]; simpl.
  - now rewrite String.eqb_refl.
  - destruct (String.eqb k0 k) eqn:Ek; simpl.
    + now rewrite String.eqb_refl.
    + now rewrite Ek, IH.
Qed.

(** The loop over the rows leaves the bucket and the output alone; it ends
    with the whole text appended to the file, or raises at the first row
    that cannot be serialised. *)
Lemma write_rows_spec filename rows : forall w old,
  dict_get (files w) filename = Some old ->
  exists w',
    s3_objects w' = s3_objects w /\ stdout w' = stdout w /\
    match ndjson rows with
    | Ok text =>
        write_rows filename rows w = (Ok tt, w') /\
        dict_get (files w') filename = Some (old ++ text)%string
    | Raise e => write_rows filename rows w = (Raise e, w')
    end.
Proof.
  induction rows as [|row rows IH]; intros w old Hold; simpl.
  - exists w. repeat split; auto. rewrite Hold. f_equal.
    clear. induction old; simpl; [reflexivity | now f_equal].
  - unfold bind, lift. destruct (json_dumps row) as [line|e]; simpl.
    + rewrite Hold.
      set (w1 := mkWorld _ _ _).
      destruct (IH w1 (old ++ line ++ newline)%string) as (w' & Hs & Ho & Hm).
      { subst w1. simpl. apply dict_get_set_same. }
      exists w'. split; [exact Hs|]. split; [exact Ho|].
      destruct (ndjson rows) as [rest|e]; simpl.
      * destruct Hm as [Hw Hf]. split; [exact Hw|].
        rewrite Hf. f_equal. unfold newline. now rewrite !string_app_assoc.
      * exact Hm.
    + exists w. auto.
Qed.

Lemma export_to_ndjson_spec df filename w :
  exists w',
    s3_objects w' = s3_objects w /\ stdout w' = stdout w /\
    ((exists text, ndjson (iterrows df) = Ok text /\
        export_to_ndjson df filename w = (Ok tt, w') /\
        dict_get (files w') filename = Some text) \/
     (exists e, export_to_ndjson df filename w = (Raise e, w'))).
Proof.
  unfold export_to_ndjson, bind, open_w.
  destruct (open_error filename) as [e|].
  - exists w. repeat split; auto. right. eauto.
  - set (w1 := mkWorld _ _ _).
    destruct (write_rows_spec filename (iterrows df) w1 "") as (w' & Hs & Ho & Hm).
    { subst w1. simpl. apply dict_get_set_same. }
    exists w'. split; [exact Hs|]. split; [exact Ho|].
    destruct (ndjson (iterrows df)) as [text|e].
    + left. exists text. tauto.
    + right. eauto.
Qed.

(** What the statements under [try] do to the bucket and to the output. *)
Lemma process_collection_effect c f w :
  exists r w' out,
    process_collection c f w = (r, w') /\
    stdout w' = (stdout w ++ ("📥 Procesando colección: " ++ c)%string :: out)%list /\
    (s3_objects w' = s3_objects w \/
     exists data schema df text,
       find c = Ok data /\ SCHEMAS_getitem c = Ok schema /\
       prepared_frame data schema = Ok df /\
       ndjson (iterrows df) = Ok text /\
       s3_objects w' = (s3_objects w ++ [(BUCKET_NAME, (f ++ c ++ ".json")%string, text)])%list).
Proof.
  unfold process_collection, bind at 1, print at 1.
  unfold bind at 1, lift at 1.
  destruct (find c) as [data|e]; [|do 3 eexists; split; [reflexivity|]; simpl; eauto].
  destruct data as [|d data]; [do 3 eexists; split; [reflexivity|]; simpl; split; [|auto] |].
  { rewrite <- app_assoc. reflexivity. }
  fold (fetched_frame (d :: data)). fold (cleaned_frame (d :: data)).
  unfold bind at 1, lift at 1.
  destruct (SCHEMAS_getitem c) as [schema|e]; [|do 3 eexists; split; [reflexivity|]; simpl; eauto].
  unfold bind at 1, lift at 1.
  fold (prepared_frame (d :: data) schema).
  destruct (prepared_frame (d :: data) schema) as [df|e] eqn:Hp;
    [|do 3 eexists; split; [reflexivity|]; simpl; eauto].
  unfold bind at 1.
  set (w1 := mkWorld _ _ _).
  destruct (export_to_ndjson_spec df (c ++ ".json") w1) as (w2 & Hs2 & Ho2 & [(text & Ht & Hx & Hf)|(e & Hx)]);
    rewrite Hx; [|do 3 eexists; split; [reflexivity|]; rewrite Ho2; subst w1; simpl; eauto].
  unfold bind at 1, print at 1. unfold bind at 1, s3_upload_file at 1. simpl files.
  destruct (upload_error _ _ _) as [e|];
    [do 3 eexists; split; [reflexivity|]; simpl; rewrite Ho2, Hs2; subst w1; simpl;
     split; [rewrite <- app_assoc; reflexivity | auto] |].
  rewrite Hf.
  unfold bind at 1, print at 1. unfold os_remove. simpl.
  destruct (remove_error _) as [e|]; [|rewrite Hf];
    (do 3 eexists; split; [reflexivity|]; simpl; rewrite Ho2, Hs2; subst w1; simpl;
     split; [rewrite <- !app_assoc; reflexivity |]);
    right; exists (d :: data), schema, df, text; auto.
Qed.

(** The [try] statement always returns: an error of the body is reported on
    the output and goes no further. *)
Lemma guarded_raise c f w e w1 :
  process_collection c f w = (Raise e, w1) ->
  guarded c f w =
  (Ok tt, mkWorld (files w1) (s3_objects w1)
            (stdout w1 ++ [("❌ Error con " ++ c ++ ": " ++ exn_str e)%string])%list).
Proof. intros H. unfold guarded, try_except. now rewrite H. Qed.

Lemma guarded_effect c f w :
  exists w' out,
    guarded c f w = (Ok tt, w') /\
    stdout w' = (stdout w ++ ("📥 Procesando colección: " ++ c)%string :: out)%list /\
    (s3_objects w' = s3_objects w \/
     exists data schema df text,
       find c = Ok data /\ SCHEMAS_getitem c = Ok schema /\
       prepared_frame data schema = Ok df /\
       ndjson (iterrows df) = Ok text /\
       s3_objects w' = (s3_objects w ++ [(BUCKET_NAME, (f ++ c ++ ".json")%string, text)])%list).
Proof.
  destruct (process_collection_effect c f w) as (r & w1 & out & Hp & Ho & Hs).
  destruct r as [[]|e].
  - exists w1, out. split; [|auto]. unfold guarded, try_except. now rewrite Hp.
  - eexists _, _. split; [apply (guarded_raise _ _ _ _ _ Hp)|]. simpl.
    split; [rewrite Ho, <- app_assoc; reflexivity | exact Hs].
Qed.

Lemma main_loop_cons c f rest w :
  main_loop ((c, f) :: rest) w = main_loop rest (snd (guarded c f w)).
Proof.
  destruct (guarded_effect c f w) as (w' & out & Hg & _).
  change (main_loop ((c, f) :: rest) w)
    with (bind (guarded c f) (fun _ => main_loop rest) w).
  unfold bind. now rewrite Hg.
Qed.

Lemma main_loop_returns collections : forall w,
  exists w' out,
    main_loop collections w = (Ok tt, w') /\ stdout w' = (stdout w ++ out)%list.
Proof.
  induction collections as [|[c f] rest IH]; intros w.
  - exists w, []. split; [reflexivity | now rewrite app_nil_r].
  - rewrite main_loop_cons.
    destruct (guarded_effect c f w) as (w1 & out1 & Hg & Ho & _). rewrite Hg. simpl.
    destruct (IH w1) as (w' & out & Hm & Ho').
    exists w', (("📥 Procesando colección: " ++ c)%string :: out1 ++ out)%list.
    split; [exact Hm|]. rewrite Ho', Ho, <- app_assoc. reflexivity.
Qed.

Lemma export_to_ndjson_writes df filename text w :
  open_error filename = None ->
  ndjson (iterrows df) = Ok text ->
  exists w',
    export_to_ndjson df filename w = (Ok tt, w') /\
    s3_objects w' = s3_objects w /\ stdout w' = stdout w /\
    dict_get (files w') filename = Some text.
Proof.
  intros Ho Ht. unfold export_to_ndjson, bind, open_w. rewrite Ho.
  set (w1 := mkWorld _ _ _).
  destruct (write_rows_spec filename (iterrows df) w1 "") as (w' & Hs & Hout & Hm).
  { subst w1. simpl. apply dict_get_set_same. }
  rewrite Ht in Hm. destruct Hm as [Hw Hf].
  exists w'. rewrite Hw. auto.
Qed.

(** A collection whose own steps up to the upload succeed is uploaded. *)
Lemma process_collection_uploads c f w d data schema df text :
  find c = Ok (d :: data) ->
  SCHEMAS_getitem c = Ok schema ->
  prepared_frame (d :: data) schema = Ok df ->
  ndjson (iterrows df) = Ok text ->
  open_error (c ++ ".json") = None ->
  upload_error (c ++ ".json") BUCKET_NAME (f ++ c ++ ".json") = None ->
  exists r w',
    process_collection c f w = (r, w') /\
    s3_objects w' = (s3_objects w ++ [(BUCKET_NAME, (f ++ c ++ ".json")%string, text)])%list.
Proof.
  intros Hfind Hsch Hprep Htext Hopen Hup.
  unfold process_collection, bind at 1, print at 1.
  unfold bind at 1, lift at 1. rewrite Hfind.
  fold (fetched_frame (d :: data)). fold (cleaned_frame (d :: data)).
  unfold bind at 1, lift at 1. rewrite Hsch.
  unfold bind at 1, lift at 1.
  fold (prepared_frame (d :: data) schema). rewrite Hprep.
  unfold bind at 1.
  set (w1 := mkWorld _ _ _).
  destruct (export_to_ndjson_writes df (c ++ ".json") text w1 Hopen Htext)
    as (w2 & Hx & Hs2 & Ho2 & Hf).
  rewrite Hx.
  unfold bind at 1, print at 1. unfold bind at 1, s3_upload_file at 1. simpl files.
  rewrite Hup, Hf.
  unfold bind at 1, print at 1. unfold os_remove. simpl.
  destruct (remove_error _) as [e|]; [|rewrite Hf];
    (do 2 eexists; split; [reflexivity|]; simpl; rewrite Hs2; subst w1; reflexivity).
Qed.

Lemma main_loop_keeps_objects collections : forall w obj,
  In obj (s3_objects w) -> In obj (s3_objects (snd (main_loop collections w))).
Proof.
  induction collections as [|[c f] rest IH]; intros w obj Hin; [exact Hin|].
  rewrite main_loop_cons.
  destruct (guarded_effect c f w) as (w1 & out1 & Hg & _ & Hs). rewrite Hg. simpl.
  apply IH.
  destruct Hs as [Hs|(data & schema & df & text & _ & _ & _ & _ & Hs)]; rewrite Hs;
    [exact Hin | apply in_or_app; now left].
Qed.

Lemma main_loop_uploads collections : forall w c f d data schema df text,
  In (c, f) collections ->
  find c = Ok (d :: data) ->
  SCHEMAS_getitem c = Ok schema ->
  prepared_frame (d :: data) schema = Ok df ->
  ndjson (iterrows df) = Ok text ->
  open_error (c ++ ".json") = None ->
  upload_error (c ++ ".json") BUCKET_NAME (f ++ c ++ ".json") = None ->
  In (BUCKET_NAME, (f ++ c ++ ".json")%string, text)
     (s3_objects (snd (main_loop collections w))).
Proof.
  induction collections as [|[c0 f0] rest IH];
    intros w c f d data schema df text Hin Hfind Hsch Hprep Htext Hopen Hup;
    [contradiction|].
  rewrite main_loop_cons.
  destruct Hin as [Heq|Hin].
  - injection Heq as -> ->.
    destruct (process_collection_uploads c f w d data schema df text
                Hfind Hsch Hprep Htext Hopen Hup) as (r & w1 & Hp & Hs).
    apply main_loop_keeps_objects.
    unfold guarded, try_except. rewrite Hp.
    destruct r as [[]|e]; simpl; rewrite Hs; apply in_or_app; right; now left.
  - eapply IH; eauto.
Qed.
(** C8.  Whatever the outside does, the loop of [main] over any list of
    collections, and so [main] itself, returns normally and the process exits
    with status 0; an
    error raised by any statement of one collection is caught by that
    collection's [try], reported on the output, and the loop goes on with the
    remaining collections from the world that collection left; every
    collection of the list is announced on the output, that is, started; and
    a collection whose own fetch, cast, serialisation and upload succeed has
    its object in the bucket at the end, whatever happened to the others. *)
Theorem main_loop_isolates_failures collections w :
  (exists w', main_loop collections w = (Ok tt, w')) /\
  exit_status (fst (main_loop collections w)) = 0 /\
  exit_status (fst (main w)) = 0 /\
  (forall c f rest w0,
     main_loop ((c, f) :: rest) w0 = main_loop rest (snd (guarded c f w0))) /\
  (forall c f w0, exists w1, guarded c f w0 = (Ok tt, w1)) /\
  (forall c f w0 e w1,
     process_collection c f w0 = (Raise e, w1) ->
     guarded c f w0 =
     (Ok tt, mkWorld (files w1) (s3_objects w1)
               (stdout w1 ++ [("❌ Error con " ++ c ++ ": " ++ exn_str e)%string])%list)) /\
  (forall c f, In (c, f) collections ->
     In ("📥 Procesando colección: " ++ c) (stdout (snd (main_loop collections w)))) /\
  (forall c f d data schema df text,
     In (c, f) collections ->
     find c = Ok (d :: data) ->
     SCHEMAS_getitem c = Ok schema ->
     prepared_frame (d :: data) schema = Ok df ->
     ndjson (iterrows df) = Ok text ->
     open_error (c ++ ".json") = None ->
     upload_error (c ++ ".json") BUCKET_NAME (f ++ c ++ ".json") = None ->
     In (BUCKET_NAME, (f ++ c ++ ".json")%string, text)
        (s3_objects (snd (main_loop collections w)))).
Proof.
  split; [|split; [|split; [|split; [|split; [|split; [|split]]]]]].
  8: { intros. eapply main_loop_uploads; eauto. }
  - destruct (main_loop_returns collections w) as (w' & _ & H & _). eauto.
  - destruct (main_loop_returns collections w) as (w' & _ & H & _). now rewrite H.
  - unfold main. destruct (main_loop_returns COLLECTIONS w) as (w' & _ & H & _).
    now rewrite H.
  - intros. apply main_loop_cons.
  - intros c f w0. destruct (guarded_effect c f w0) as (w1 & _ & H & _). eauto.
  - intros. now apply guarded_raise.
  - revert w. induction collections as [|[c0 f0] rest IH]; intros w c f Hin; [contradiction|].
    rewrite main_loop_cons.
    destruct (guarded_effect c0 f0 w) as (w1 & out1 & Hg & Ho & _). rewrite Hg. simpl.
    destruct Hin as [Heq|Hin].
    + injection Heq as -> ->.
      destruct (main_loop_returns rest w1) as (w' & out & Hm & Ho'). rewrite Hm. simpl.
      rewrite Ho', Ho. apply in_or_app. left. apply in_or_app. right. now left.
    + exact (IH w1 c f Hin).
Qed.

(** C7.  The frame [main] builds from the documents fetched has no column
    ["_id"] when it reaches the sanitizer, and every object the loop of [main]
    puts in the bucket is the text of rows none of which has the key ["_id"]. *)
Theorem main_loop_never_emits_id collections w :
  (forall data, ~ In "_id" (df_columns (fetched_frame data))) /\
  exists new,
    s3_objects (snd (main_loop collections w)) = (s3_objects w ++ new)%list /\
    Forall (fun obj =>
              exists rows, ndjson rows = Ok (snd obj) /\
                           Forall (fun row => ~ In "_id" (map fst row)) rows) new.
Proof.
  split.
  { intros data H. rewrite fetched_frame_columns in H.
    apply filter_In in H as [_ H]. discriminate. }
  revert w. induction collections as [|[c f] rest IH]; intros w.
  - exists []. split; [simpl; now rewrite app_nil_r | constructor].
  - rewrite main_loop_cons.
    destruct (guarded_effect c f w) as (w1 & out1 & Hg & _ & Hs). rewrite Hg. simpl.
    destruct (IH w1) as (new & Hnew & Hall).
    destruct Hs as [Hs|(data & schema & df & text & _ & _ & Hp & Ht & Hs)].
    + exists new. split; [now rewrite Hnew, Hs | exact Hall].
    + eexists (_ :: new). split; [rewrite Hnew, Hs, <- app_assoc; reflexivity|].
      constructor; [|exact Hall]. simpl. exists (iterrows df). split; [exact Ht|].
      apply Forall_forall. intros row Hrow. unfold iterrows in Hrow.
      apply in_map_iff in Hrow as [i [<- _]].
      eapply prepared_frame_no_id; eauto.
Qed.

(** C9.  [export_to_ndjson] does not serialise every frame that [main]
    prepares: a date-time in a field that the schema does not name makes a
    datetime64 column, which neither the sanitizer nor the caster touches;
    the row holds a [Timestamp] there and [json.dumps] raises a [TypeError]
    on it, so the file is left empty and there is nothing to read back. *)
Theorem export_raises_on_timestamp :
  let data := [[("postId", VStr "7301"); ("createdAt", VDatetime 1705314600000000)]] in
  let df := mkDataFrame 1 [("postId", ColObject [VStr "7301"]);
                           ("createdAt", ColDatetime64 [1705314600000000000])] in
  let e := TypeError "Object of type Timestamp is not JSON serializable" in
  prepared_frame data (metrics_schema "userId") = Ok df /\
  iterrows df = [[("postId", VStr "7301");
                  ("createdAt", VTimestamp 1705314600000000000)]] /\
  ndjson (iterrows df) = Raise e /\
  (forall filename w, exists e', fst (export_to_ndjson df filename w) = Raise e') /\
  (forall filename w, open_error filename = None ->
     fst (export_to_ndjson df filename w) = Raise e /\
     dict_get (files (snd (export_to_ndjson df filename w))) filename = Some "").
Proof.
  cbv zeta. split; [reflexivity|]. split; [reflexivity|]. split; [reflexivity|]. split.
  - intros filename w. unfold export_to_ndjson, bind, open_w.
    destruct (open_error filename); simpl; eauto.
  - intros filename w Hopen. unfold export_to_ndjson, bind, open_w.
    rewrite Hopen. simpl. split; [reflexivity | apply dict_get_set_same].
Qed.

End RunProperties.

(** The schemas of the script name each field once, so the theorems on
    declared fields apply to them. *)
Lemma SCHEMAS_names_distinct collection_name schema :
  SCHEMAS_getitem collection_name = Ok schema -> NoDup (map Name schema).
Proof.
  unfold SCHEMAS_getitem, SCHEMAS. cbn [dict_get].
  destruct (String.eqb "UserTiktokMetrics" collection_name);
    [intros H; injection H as <-; distinct_strings|].
  destruct (String.eqb "AdminTiktokMetrics" collection_name);
    [intros H; injection H as <-; distinct_strings | discriminate].
Qed.

(** ** The script on examples *)

(** The first collection cannot be read, the second one is exported: the run
    reports the error, uploads the second collection and returns. *)
Example first_fails_second_uploads :
  main empty_world =
  (Ok tt,
   mkWorld []
     [("my-bucket", "admin_tiktok_metrics/AdminTiktokMetrics.json",
       ("{" ++ dquote ++ "postId" ++ dquote ++ ": " ++ dquote ++ "7301" ++ dquote ++ ", "
        ++ dquote ++ "datePosted" ++ dquote ++ ": " ++ dquote ++ "2024-02-29" ++ dquote ++ ", "
        ++ dquote ++ "views" ++ dquote ++ ": 1234, "
        ++ dquote ++ "engagement" ++ dquote ++ ": 0.5, "
        ++ dquote ++ "verified" ++ dquote ++ ": " ++ dquote ++ "True" ++ dquote ++ "}" ++ newline
        ++ "{" ++ dquote ++ "postId" ++ dquote ++ ": " ++ dquote ++ "7302" ++ dquote ++ ", "
        ++ dquote ++ "datePosted" ++ dquote ++ ": NaN, "
        ++ dquote ++ "views" ++ dquote ++ ": 88, "
        ++ dquote ++ "engagement" ++ dquote ++ ": NaN, "
        ++ dquote ++ "verified" ++ dquote ++ ": " ++ dquote ++ "False" ++ dquote ++ "}" ++ newline)%string)]
     ["📥 Procesando colección: UserTiktokMetrics";
      "❌ Error con UserTiktokMetrics: connection refused";
      "📥 Procesando colección: AdminTiktokMetrics";
      "⬆️ Subiendo AdminTiktokMetrics.json a s3://my-bucket/admin_tiktok_metrics/AdminTiktokMetrics.json";
      "✅ AdminTiktokMetrics exportado y subido correctamente."]).
Proof. vm_compute. reflexivity. Qed.

(** ** The theorems at concrete frames *)

Lemma clean_dataframe_sanitizes_witness :
  NoDup (df_columns dirty_frame) /\
  (df_columns (clean_dataframe dirty_frame) = df_columns dirty_frame /\
   (forall name c, getitem dirty_frame name = Some c ->
      getitem (clean_dataframe dirty_frame) name =
      Some (if is_object_or_bool c
            then ColObject (map (fun s => VStr (sanitize s)) (astype_str c))
            else c)) /\
   (forall name l, getitem (clean_dataframe dirty_frame) name = Some (ColObject l) ->
      Forall (fun v => exists s, v = VStr s /\ printable_text s = true) l)).
Proof.
  assert (H : NoDup (df_columns dirty_frame)) by distinct_strings.
  split; [exact H | exact (clean_dataframe_sanitizes dirty_frame H)].
Defined.

Lemma cast_types_integer_or_null_witness :
  cast_types views_frame (metrics_schema "userId")
  = Ok (mkDataFrame 2 [("views", ColNullableInt64 [None; Some 88])]) /\
  ((forall c',
      getitem (mkDataFrame 2 [("views", ColNullableInt64 [None; Some 88])]) "views"
      = Some c' ->
      (exists l, c' = ColNullableInt64 l) /\
      (forall i v, box false c' i = Some v -> v = VNA \/ exists z, v = VInt z)) /\
   (forall l i, getitem views_frame "views" = Some (ColObject l) ->
      nth_error l i = Some (VStr "1,234") ->
      exists l',
        getitem (mkDataFrame 2 [("views", ColNullableInt64 [None; Some 88])]) "views"
        = Some (ColNullableInt64 l') /\
        nth_error l' i = Some None /\
        box false (ColNullableInt64 l') i = Some VNA)).
Proof.
  assert (H2 : NoDup (map Name (metrics_schema "userId"))) by distinct_strings.
  assert (H3 : In (mkField "views" "int") (metrics_schema "userId")) by member.
  assert (H4 : cast_types views_frame (metrics_schema "userId")
               = Ok (mkDataFrame 2 [("views", ColNullableInt64 [None; Some 88])]))
    by reflexivity.
  split; [exact H4 | exact (cast_types_integer_or_null _ _ _ _ H2 H3 H4)].
Defined.

Lemma cast_types_date_or_null_witness :
  cast_types dates_frame (metrics_schema "userId")
  = Ok (mkDataFrame 2 [("datePosted", ColObject [VStr "2024-02-29"; nan])]) /\
  ((forall i v,
      In ("datePosted", v)
         (row_to_dict (mkDataFrame 2 [("datePosted", ColObject [VStr "2024-02-29"; nan])]) i) ->
      v = nan \/ exists s, v = VStr s /\ is_ymd s = true) /\
   (forall c i t, getitem dates_frame "datePosted" = Some c ->
      nth_error (to_datetime c) i = Some t ->
      In ("datePosted", if int64 t =? NaT then nan else VStr (ymd (int64 t / NS_PER_DAY)))
         (row_to_dict (mkDataFrame 2 [("datePosted", ColObject [VStr "2024-02-29"; nan])]) i))).
Proof.
  assert (H1 : NoDup (df_columns dates_frame)) by distinct_strings.
  assert (H2 : NoDup (map Name (metrics_schema "userId"))) by distinct_strings.
  assert (H3 : In (mkField "datePosted" "date") (metrics_schema "userId")) by member.
  assert (H4 : cast_types dates_frame (metrics_schema "userId")
               = Ok (mkDataFrame 2 [("datePosted", ColObject [VStr "2024-02-29"; nan])]))
    by (vm_compute; reflexivity).
  split; [exact H4 | exact (cast_types_date_or_null _ _ _ _ H1 H2 H3 H4)].
Defined.

Lemma cast_types_text_never_null_witness :
  cast_types ids_frame (metrics_schema "userId")
  = Ok (mkDataFrame 2 [("postId", ColObject [VStr "7301"; VStr "None"])]) /\
  ((forall c, getitem ids_frame "postId" = Some c ->
      getitem (mkDataFrame 2 [("postId", ColObject [VStr "7301"; VStr "None"])]) "postId"
      = Some (ColObject (map VStr (astype_str c)))) /\
   (forall i v,
      In ("postId", v)
         (row_to_dict (mkDataFrame 2 [("postId", ColObject [VStr "7301"; VStr "None"])]) i) ->
      is_missing v = false /\ exists s, v = VStr s) /\
   (forall c i v, getitem ids_frame "postId" = Some c ->
      box false c i = Some v -> is_missing v = true ->
      In ("postId", VStr (py_str v))
         (row_to_dict (mkDataFrame 2 [("postId", ColObject [VStr "7301"; VStr "None"])]) i)) /\
   py_str VNone = "None" /\ py_str nan = "nan" /\ py_str VNaT = "NaT" /\ py_str VNA = "<NA>").
Proof.
  assert (H1 : NoDup (df_columns ids_frame)) by distinct_strings.
  assert (H2 : NoDup (map Name (metrics_schema "userId"))) by distinct_strings.
  assert (H3 : In (mkField "postId" "string") (metrics_schema "userId")) by member.
  assert (H4 : cast_types ids_frame (metrics_schema "userId")
               = Ok (mkDataFrame 2 [("postId", ColObject [VStr "7301"; VStr "None"])]))
    by reflexivity.
  split; [exact H4|].
  exact (cast_types_text_never_null _ _ _ _ _ H1 H2 H3
           ltac:(discriminate) ltac:(discriminate) ltac:(discriminate) H4).
Defined.

Lemma serialised_keys_witness :
  prepared_frame sparse_documents (metrics_schema "userId") = Ok sparse_frame /\
  ((In "engagement" (map fst (row_to_dict sparse_frame 1)) <->
    "engagement" <> "_id" /\
    exists r, In r sparse_documents /\ In "engagement" (map fst r)) /\
   (~ In "engagement" (map Name (metrics_schema "userId")) ->
    getitem sparse_frame "engagement"
    = getitem (cleaned_frame sparse_documents) "engagement") /\
   (forall r,
      nth_error sparse_documents 1 = Some r -> ~ In "engagement" (map fst r) ->
      "engagement" <> "_id" ->
      (exists r', In r' sparse_documents /\ In "engagement" (map fst r')) ->
      (exists c, getitem (cleaned_frame sparse_documents) "engagement" = Some c /\
         (box false c 1 = Some (VStr "nan") \/ box false c 1 = Some nan \/
          box false c 1 = Some VNaT)) /\
      (~ In "engagement" (map Name (metrics_schema "userId")) ->
       In ("engagement", VStr "nan") (row_to_dict sparse_frame 1) \/
       In ("engagement", nan) (row_to_dict sparse_frame 1) \/
       In ("engagement", VNaT) (row_to_dict sparse_frame 1)))).
Proof.
  assert (H : prepared_frame sparse_documents (metrics_schema "userId") = Ok sparse_frame)
    by (vm_compute; reflexivity).
  split; [exact H|].
  exact (serialised_keys sparse_documents _ sparse_frame 1%nat "engagement" H
           ltac:(simpl; lia)).
Defined.

(** C3 as stated fails: the second document has no field [engagement], and
    its row is serialised with the key [engagement] and the value NaN. *)
Lemma missing_field_is_serialised :
  nth_error sparse_documents 1 = Some [("views", VInt 2)] /\
  dict_get [("views", VInt 2)] "engagement" = None /\
  prepared_frame sparse_documents (metrics_schema "userId") = Ok sparse_frame /\
  row_to_dict sparse_frame 1 = [("views", VInt 2); ("engagement", nan)] /\
  json_dumps (row_to_dict sparse_frame 1)
  = Ok ("{" ++ dquote ++ "views" ++ dquote ++ ": 2, "
        ++ dquote ++ "engagement" ++ dquote ++ ": NaN}").
Proof. repeat split; vm_compute; reflexivity. Qed.

Lemma text_and_bool_fields_sanitised_witness :
  prepared_frame example_documents (metrics_schema "adminId") = Ok example_frame /\
  (In ("verified", VStr (sanitize (py_str (VBool true))))
      (row_to_dict (cleaned_frame example_documents) 0) /\
   printable_text (sanitize (py_str (VBool true))) = true /\
   (~ In "verified" (map Name (metrics_schema "adminId")) ->
    In ("verified", VStr (sanitize (py_str (VBool true)))) (row_to_dict example_frame 0)) /\
   (forall b, VBool true = VBool b ->
    json_value (VStr (sanitize (py_str (VBool true)))) = Ok (dquote ++ bool_str b ++ dquote))).
Proof.
  assert (H : prepared_frame example_documents (metrics_schema "adminId") = Ok example_frame)
    by (vm_compute; reflexivity).
  split; [exact H|].
  exact (text_and_bool_fields_sanitised example_documents _ example_frame 0%nat
           (nth 0%nat example_documents []) "verified" (VBool true)
           H eq_refl eq_refl ltac:(discriminate) eq_refl).
Defined.

(* ================================================================= *)
(** * Further properties of the script *)

Section MoreClean.

Context {L : Lib}.

Lemma cols_ext {A} (d1 : list (string * A)) : forall d2,
  map fst d1 = map fst d2 ->
  NoDup (map fst d1) ->
  (forall k, dict_get d1 k = dict_get d2 k) ->
  d1 = d2.
Proof.
  induction d1 as [|[k1 v1] d1 IH]; intros [|[k2 v2] d2] Hk Hnd Hg; try discriminate.
  - reflexivity.
  - simpl in Hk. injection Hk as -> Hk.
    inversion Hnd as [|? ? Hnotin Hnd']; subst.
    pose proof (Hg k2) as H2. simpl in H2. rewrite String.eqb_refl in H2.
    injection H2 as ->. f_equal. apply IH; auto.
    intros k. specialize (Hg k). simpl in Hg.
    destruct (String.eqb k2 k) eqn:E; [|exact Hg].
    apply String.eqb_eq in E. subst k.
    assert (H1 : dict_get d1 k2 = None) by (now apply dict_get_None).
    assert (H2 : dict_get d2 k2 = None) by (apply dict_get_None; now rewrite <- Hk).
    congruence.
Qed.

Lemma frame_ext df1 df2 :
  nrows df1 = nrows df2 ->
  df_columns df1 = df_columns df2 ->
  NoDup (df_columns df1) ->
  (forall name, getitem df1 name = getitem df2 name) ->
  df1 = df2.
Proof.
  destruct df1 as [n1 c1], df2 as [n2 c2]. unfold df_columns, getitem. simpl.
  intros -> Hk Hnd Hg. f_equal. now apply cols_ext.
Qed.

Lemma sanitize_fixes_printable s : printable_text s = true -> sanitize s = s.
Proof.
  induction s as [|c s IH]; simpl; [reflexivity|].
  intros H. apply andb_true_iff in H as [H Hs]. apply andb_true_iff in H as [Hp Hc].
  apply negb_true_iff in Hc. rewrite Hc, Hp. f_equal. auto.
Qed.

(** X1.  The two substitutions of [clean_dataframe] leave a text as it is
    exactly when all its characters are in 0x20-0x7E; applied twice they give
    what they give once. *)
Theorem cleaning_fixes_exactly_printable_text s :
  let clean := fun t =>
    sub_class (fun ch => negb (is_printable ch)) "" (sub_class is_crlftab " " t) in
  (clean s = s <-> printable_text s = true) /\ clean (clean s) = clean s.
Proof.
  cbv beta zeta. rewrite !two_substitutions_sanitize. split; [split|].
  - intros H. rewrite <- H. apply sanitize_printable.
  - apply sanitize_fixes_printable.
  - apply sanitize_fixes_printable, sanitize_printable.
Qed.

Lemma sanitize_length s : String.length (sanitize s) = count_chars survives s.
Proof.
  induction s as [|c s IH]; simpl; [reflexivity|]. unfold survives.
  destruct (is_crlftab c); simpl; [now rewrite IH|].
  destruct (is_printable c); simpl; now rewrite IH.
Qed.

Lemma count_chars_le p s : (count_chars p s <= String.length s)%nat.
Proof. induction s as [|c s IH]; simpl; [lia|]. destruct (p c); lia. Qed.

(** X2.  The text the sanitizer leaves has one character for each character
    of the source that is printable ASCII or a carriage return, newline or
    tab, so it is never longer than the source. *)
Theorem cleaned_text_length s :
  let cleaned :=
    sub_class (fun ch => negb (is_printable ch)) "" (sub_class is_crlftab " " s) in
  String.length cleaned = count_chars survives s /\
  (String.length cleaned <= String.length s)%nat.
Proof.
  cbv beta zeta. rewrite two_substitutions_sanitize, sanitize_length.
  split; [reflexivity | apply count_chars_le].
Qed.

Lemma clean_series_twice c :
  clean_series (clean_series c) = clean_series c.
Proof.
  rewrite !clean_series_sanitize. simpl. rewrite !map_map. f_equal.
  apply map_ext. intros s. simpl. f_equal.
  apply sanitize_fixes_printable, sanitize_printable.
Qed.

(** X3.  [clean_dataframe] is idempotent: cleaning a cleaned frame changes
    nothing. *)
Theorem clean_dataframe_idempotent df :
  NoDup (df_columns df) ->
  clean_dataframe (clean_dataframe df) = clean_dataframe df.
Proof.
  intros Hnd.
  assert (Hnd' : NoDup (df_columns (clean_dataframe df)))
    by now rewrite clean_dataframe_columns.
  apply frame_ext;
    [apply (clean_dataframe_nrows _ Hnd') | apply (clean_dataframe_columns _ Hnd')
     | now rewrite clean_dataframe_columns |].
  intros name. destruct (getitem df name) as [c|] eqn:E.
  - pose proof (clean_dataframe_getitem df name c Hnd E) as H1.
    rewrite (clean_dataframe_getitem _ name _ Hnd' H1), H1. f_equal.
    destruct (is_object_or_bool c) eqn:Hc; [|now rewrite Hc].
    rewrite clean_series_sanitize at 1. simpl. apply clean_series_twice.
  - assert (H1 : getitem (clean_dataframe df) name = None).
      { apply dict_get_None. fold (df_columns (clean_dataframe df)).
      rewrite clean_dataframe_columns by assumption. now apply dict_get_None. }
    rewrite H1. apply dict_get_None.
    fold (df_columns (clean_dataframe (clean_dataframe df))).
    rewrite !clean_dataframe_columns by assumption. now apply dict_get_None.
Qed.

End MoreClean.

Section MoreCast.

Context {L : Lib}.

(** *** Texts that are no numbers *)

Lemma skip_while_has F cls s :
  (forall c, cls c = true -> F c = false) ->
  has_char F s = true -> has_char F (skip_while cls s) = true.
Proof.
  intros Hc. induction s as [|c s IH]; simpl; [auto|].
  destruct (cls c) eqn:E; [|auto].
  rewrite (Hc c E). simpl. exact IH.
Qed.

Lemma span_upto_has F cls n : forall s a b,
  (forall c, cls c = true -> F c = false) ->
  span_upto n cls s = (a, b) ->
  has_char F s = true -> has_char F b = true.
Proof.
  induction n as [|n IH]; intros s a b Hc Hs Hf; simpl in Hs.
  - now injection Hs as <- <-.
  - destruct s as [|c s]; [now injection Hs as <- <-|].
    destruct (cls c) eqn:E.
    + destruct (span_upto n cls s) as [a' b'] eqn:E'. injection Hs as <- <-.
      simpl in Hf. rewrite (Hc c E) in Hf. simpl in Hf. eapply IH; eauto.
    + now injection Hs as <- <-.
Qed.

Lemma skip_sign_has F s :
  (forall c, is_sign c = true -> F c = false) ->
  has_char F s = true -> has_char F (snd (skip_sign s)) = true.
Proof.
  intros Hc. destruct s as [|c s]; simpl; [auto|].
  destruct (is_sign c) eqn:E; simpl; [|auto].
  now rewrite (Hc c E).
Qed.

Lemma space_not_foreign c : isspace_ascii c = true -> is_foreign c = false.
Proof. unfold is_foreign. now intros ->. Qed.

Lemma sign_not_foreign c : is_sign c = true -> is_foreign c = false.
Proof. unfold is_foreign. intros ->. now rewrite orb_true_r. Qed.

Lemma digit_not_foreign c : isdigit_ascii c = true -> is_foreign c = false.
Proof. unfold is_foreign. intros ->. now rewrite !orb_true_r. Qed.

Lemma tolower_foreign c : is_foreign (tolower_ascii c) = is_foreign c.
Proof. destruct c as [[] [] [] [] [] [] [] []]; reflexivity. Qed.

Lemma exponent_mark_not_foreign c :
  (ord (tolower_ascii c) =? 101)%N = true -> is_foreign c = false.
Proof. destruct c as [[] [] [] [] [] [] [] []]; simpl; intros H; try discriminate; reflexivity. Qed.

Lemma has_lower s : has_char is_foreign (lower s) = has_char is_foreign s.
Proof.
  induction s as [|c s IH]; simpl; [reflexivity|]. now rewrite tolower_foreign, IH.
Qed.

Lemma foreign_not_name s k :
  has_char is_foreign s = true -> has_char is_foreign k = false ->
  String.eqb (lower s) k = false.
Proof.
  intros Hs Hk. destruct (String.eqb (lower s) k) eqn:E; [|reflexivity].
  apply String.eqb_eq in E. rewrite <- (has_lower s), E in Hs. congruence.
Qed.

(** The scan never steps over a foreign character. *)
Lemma xstrtod_scan_stops s negative digits maybe_int rest :
  xstrtod_scan s = Some (negative, digits, maybe_int, rest) ->
  has_char is_foreign s = true ->
  has_char is_foreign rest = true.
Proof.
  unfold xstrtod_scan. intros H Hs.
  pose proof (skip_while_has is_foreign isspace_ascii s space_not_foreign Hs) as H0.
  set (p0 := skip_while isspace_ascii s) in *.
  pose proof (skip_sign_has is_foreign p0 sign_not_foreign H0) as H1.
  destruct (skip_sign p0) as [neg p1]. simpl in H1.
  destruct (span isdigit_ascii p1) as [id p2] eqn:E2.
  pose proof (span_upto_has _ _ _ _ _ _ digit_not_foreign E2 H1) as H2.
  match type of H with
  | context [match ?X with (_, _) => _ end] => destruct X as [[mi fd] p3] eqn:E3
  end.
  assert (H3 : has_char is_foreign p3 = true).
  { destruct p2 as [|c2 p2']; [discriminate|].
    destruct (ascii_dec c2 ".") as [->|Hne].
    - destruct (span isdigit_ascii p2') as [fd' p3'] eqn:E. injection E3 as <- <- <-.
      simpl in H2. eapply span_upto_has; [apply digit_not_foreign | exact E | exact H2].
    - assert (p3 = String c2 p2'); [|now subst].
      destruct c2 as [[] [] [] [] [] [] [] []]; try congruence; now injection E3. }
  destruct (_ =? 0)%nat; [discriminate|].
  match type of H with
  | context [match ?X with (_, _) => _ end] => destruct X as [mi' p4] eqn:E4
  end.
  injection H as <- <- <- <-.
  apply skip_while_has; [apply space_not_foreign|].
  destruct p3 as [|c p']; [discriminate|].
  destruct (ord (tolower_ascii c) =? 101)%N eqn:Ec; [|now injection E4 as <- <-].
  destruct (span_upto 17 isdigit_ascii (snd (skip_sign p'))) as [ed p''] eqn:E5.
  destruct ed; [now injection E4 as <- <-|]. injection E4 as <- <-.
  eapply span_upto_has; [apply digit_not_foreign | exact E5|].
  apply skip_sign_has; [apply sign_not_foreign|].
  simpl in H3. now rewrite (exponent_mark_not_foreign c Ec) in H3.
Qed.

Lemma foreign_text_not_numeric s :
  has_char is_foreign s = true -> numeric_of_value (VStr s) = NumNull.
Proof.
  intros Hs. destruct s as [|c s]; [discriminate|]. simpl numeric_of_value.
  unfold numeric_of_str.
  destruct (xstrtod_scan (String c s)) as [[[[neg ds] mi] rest]|] eqn:E.
  - pose proof (xstrtod_scan_stops _ _ _ _ _ E Hs) as Hr.
    destruct rest; [discriminate|].
    rewrite !(foreign_not_name _ _ Hs) by reflexivity. reflexivity.
  - rewrite !(foreign_not_name _ _ Hs) by reflexivity. reflexivity.
Qed.

(** X4.  A text with a character that no number holds (anything but
    blanks, signs, digits, the point and letters: a comma, a currency sign, a
    percent sign) is no number for [pd.to_numeric]: its cell becomes NaN, the
    whole column a float64 column, and in a field declared ["int"] the cell
    is [NA] when the cast returns. *)
Theorem foreign_text_is_null l i s :
  nth_error l i = Some (VStr s) ->
  has_char is_foreign s = true ->
  (exists fs, to_numeric (ColObject l) = ColFloat64 fs /\
              nth_error fs i = Some S754_nan) /\
  (forall c', cast_series "int" (ColObject l) = Ok c' -> box false c' i = Some VNA).
Proof.
  intros Hn Hs.
  destruct (null_cell_makes_float l i _ Hn (foreign_text_not_numeric s Hs)) as (Hf & Hnan).
  split; [simpl; eauto|].
  intros c' Hc. unfold cast_series in Hc. simpl in Hc. rewrite Hf in Hc. simpl in Hc.
  destruct (safe_cast Int64_of_float _) as [l'|] eqn:El; simpl in Hc; [|discriminate].
  injection Hc as <-.
  destruct (safe_cast_nth _ _ _ _ _ El Hnan) as (o & Ho & Hno).
  simpl in Ho. injection Ho as <-. simpl. now rewrite Hno.
Qed.

(** *** When the cast returns *)

Lemma safe_cast_ok_iff {A} (cast : A -> result (option Z)) (p : A -> bool) l :
  (forall a, (exists o, cast a = Ok o) <-> p a = true) ->
  ((exists l', safe_cast cast l = Ok l') <-> forallb p l = true).
Proof.
  intros Hp. induction l as [|a l IH]; simpl.
  - split; eauto.
  - rewrite andb_true_iff, <- IH, <- Hp. split.
    + intros [l' H]. destruct (cast a) as [o|]; simpl in H; [|discriminate].
      destruct (safe_cast cast l) as [os|]; simpl in H; [|discriminate]. eauto.
    + intros [[o Ho] [os Hos]]. rewrite Ho, Hos. simpl. eauto.
Qed.

Lemma Int64_of_float_ok f : (exists o, Int64_of_float f = Ok o) <-> castable_float f = true.
Proof.
  destruct f as [s|s| |s m e];
    try (simpl; split; [intros [o H]; discriminate | discriminate]; fail);
    unfold Int64_of_float, castable_float;
    try (destruct (float_to_int _) as [z|]; [destruct (in_int64 z)|]);
    split; intros H; try discriminate; eauto; destruct H; discriminate.
Qed.

Lemma Int64_of_uint_ok z : (exists o, Int64_of_uint z = Ok o) <-> (z <=? INT64_MAX) = true.
Proof.
  unfold Int64_of_uint. destruct (z <=? INT64_MAX); split; intros H;
    try discriminate; eauto; destruct H; discriminate.
Qed.

Lemma Int64_of_object_ok v : (exists o, Int64_of_object v = Ok o) <-> castable_object v = true.
Proof.
  destruct v as [| |z|f| | | | | |]; simpl;
    try (destruct (in_int64 z)); try (destruct f);
    split; intros H; try discriminate; eauto; destruct H; discriminate.
Qed.

Lemma astype_Int64_ok_iff c :
  (exists c', astype_Int64 c = Ok c') <-> castable c = true.
Proof.
  destruct c as [l|l|l|l|l|l|l]; simpl;
    try (split; [reflexivity | eauto]; fail).
  - rewrite <- (safe_cast_ok_iff Int64_of_object _ l Int64_of_object_ok).
    destruct (safe_cast Int64_of_object l); simpl; split; intros [x H]; try discriminate; eauto.
  - rewrite <- (safe_cast_ok_iff Int64_of_uint _ l Int64_of_uint_ok).
    destruct (safe_cast Int64_of_uint l); simpl; split; intros [x H]; try discriminate; eauto.
  - rewrite <- (safe_cast_ok_iff Int64_of_float _ l Int64_of_float_ok).
    destruct (safe_cast Int64_of_float l); simpl; split; intros [x H]; try discriminate; eauto.
  - split; [intros [x H]; discriminate | discriminate].
Qed.

Lemma cast_series_other_ok typ c :
  typ <> "int" -> typ <> "date" -> exists c', cast_series typ c = Ok c'.
Proof.
  intros H Hd. apply String.eqb_neq in H, Hd. unfold cast_series. rewrite H, Hd.
  destruct (typ =? "float")%string; eauto.
Qed.

Lemma cast_types_returns_if schema : forall df,
  NoDup (map Name schema) ->
  (forall fld, In fld schema -> Typ fld <> "date") ->
  (forall fld c, In fld schema -> Typ fld = "int" ->
     getitem df (Name fld) = Some c -> castable (to_numeric c) = true) ->
  exists df', cast_types df schema = Ok df'.
Proof.
  induction schema as [|col schema IH]; intros df Hnd Hdate H; simpl; [eauto|].
  inversion Hnd as [|? ? Hnotin Hnd']; subst.
  assert (Hdate' : forall fld, In fld schema -> Typ fld <> "date")
    by (intros fld Hin; apply Hdate; now right).
  destruct (getitem df (Name col)) as [c|] eqn:E.
  - assert (Hc : exists c', cast_series (Typ col) c = Ok c').
    { destruct (string_dec (Typ col) "int") as [Hi|Hi];
        [|apply cast_series_other_ok; [exact Hi | apply Hdate; now left]].
      unfold cast_series. rewrite Hi. simpl. apply astype_Int64_ok_iff.
      apply (H col c); auto. now left. }
    destruct Hc as [c' Hc]. rewrite Hc. simpl. apply IH; [exact Hnd' | exact Hdate' |].
    intros fld c0 Hin Hi Hget. apply (H fld c0); auto; [now right|].
    rewrite getitem_setitem_other in Hget; [exact Hget|].
    intros Heq. apply Hnotin. rewrite <- Heq. now apply in_map.
  - apply IH; [exact Hnd' | exact Hdate' |]. intros fld c0 Hin. apply H. now right.
Qed.

(** X5.  With a schema that names each field once and declares no date,
    [cast_types] returns exactly when every column of a field declared
    ["int"] is, once converted by [pd.to_numeric], free of numbers that are
    no int64: fractional, infinite or out of range.  Fields declared
    ["float"] or a text type never make it raise.  Dates are left out
    because [pd.to_datetime] can fail on a column as a whole, on texts with
    different UTC offsets: see [to_datetime_error]. *)
Theorem cast_types_returns_iff df schema :
  NoDup (map Name schema) ->
  (forall fld, In fld schema -> Typ fld <> "date") ->
  ((exists df', cast_types df schema = Ok df') <->
   (forall fld c, In fld schema -> Typ fld = "int" ->
      getitem df (Name fld) = Some c -> castable (to_numeric c) = true)).
Proof.
  intros Hnd Hdate. split.
  - intros [df' H] fld c Hin Hi Hget.
    destruct (cast_types_loop schema df df' H) as (_ & _ & _ & Hdecl).
    destruct (Hdecl Hnd fld c Hin Hget) as (c' & Hc & _).
    unfold cast_series in Hc. rewrite Hi in Hc. simpl in Hc.
    apply astype_Int64_ok_iff. eauto.
  - now apply cast_types_returns_if.
Qed.

Lemma cast_series_raises typ c e :
  cast_series typ c = Raise e -> typ = "int" \/ typ = "date".
Proof.
  unfold cast_series.
  destruct (typ =? "int")%string eqn:Ei; [apply String.eqb_eq in Ei; auto|].
  destruct (typ =? "float")%string; [discriminate|].
  destruct (typ =? "date")%string eqn:Ed; [apply String.eqb_eq in Ed; auto | discriminate].
Qed.

(** X6.  With a schema that names each field once, an exception that
    [cast_types] raises is the one raised by the cast of one column of the
    frame, and the field of that column is declared ["int"] or ["date"]: a
    field declared ["float"] or a text type never makes it raise. *)
Theorem cast_types_raises_from_int_or_date schema : forall df e,
  NoDup (map Name schema) ->
  cast_types df schema = Raise e ->
  exists fld c,
    In fld schema /\ getitem df (Name fld) = Some c /\
    cast_series (Typ fld) c = Raise e /\
    (Typ fld = "int" \/ Typ fld = "date").
Proof.
  induction schema as [|col schema IH]; intros df e Hnd H; simpl in H; [discriminate|].
  inversion Hnd as [|? ? Hnotin Hnd']; subst.
  destruct (getitem df (Name col)) as [c|] eqn:E.
  - destruct (cast_series (Typ col) c) as [c'|e'] eqn:Ec; simpl in H.
    + destruct (IH _ _ Hnd' H) as (fld & c0 & Hin & Hget & Hc & Ht).
      exists fld, c0. split; [now right|]. split; [|auto].
      rewrite getitem_setitem_other in Hget; [exact Hget|].
      intros Heq. apply Hnotin. rewrite <- Heq. now apply in_map.
    + injection H as <-. exists col, c.
      split; [now left|]. split; [exact E|]. split; [exact Ec|].
      eapply cast_series_raises; eauto.
  - destruct (IH _ _ Hnd' H) as (fld & c0 & Hin & Hget & Hc & Ht).
    exists fld, c0. split; [now right | auto].
Qed.

(** X7.  [cast_types] never adds, drops, renames or reorders a column and
    never changes the number of rows or the length of a column: a field of
    the schema that the frame lacks is skipped. *)
Theorem cast_types_keeps_shape df schema df' :
  cast_types df schema = Ok df' ->
  nrows df' = nrows df /\
  df_columns df' = df_columns df /\
  (forall name c', getitem df' name = Some c' ->
     exists c, getitem df name = Some c /\ col_length c' = col_length c) /\
  (forall name, getitem df name = None -> getitem df' name = None).
Proof.
  revert df df'. induction schema as [|col schema IH]; intros df df' H; simpl in H.
  - injection H as <-. repeat split; eauto.
  - destruct (getitem df (Name col)) as [c0|] eqn:E0; [|now apply IH].
    destruct (cast_series (Typ col) c0) as [c1|] eqn:E1; simpl in H; [|discriminate].
    destruct (IH _ _ H) as (Hn & Hc & Hlen & Hnone).
    split; [exact Hn|]. split; [rewrite Hc; eapply df_columns_setitem; eauto|]. split.
    + intros name c' Hget. destruct (Hlen name c' Hget) as (c & Hg & Hl).
      destruct (String.eqb name (Name col)) eqn:En.
      * apply String.eqb_eq in En. subst name.
        rewrite getitem_setitem_same in Hg. injection Hg as <-.
        exists c0. split; [exact E0|]. rewrite Hl. eapply cast_series_length; eauto.
      * apply String.eqb_neq in En.
        rewrite getitem_setitem_other in Hg by assumption. eauto.
    + intros name Hg. apply Hnone.
      rewrite getitem_setitem_other; [exact Hg|]. intros ->. congruence.
Qed.

(** *** Casting twice *)

Lemma dict_set_same {A} (d : list (string * A)) k v :
  dict_get d k = Some v -> dict_set d k v = d.
Proof.
  induction d as [|[k0 v0] d IH]; simpl; [discriminate|].
  destruct (String.eqb k0 k) eqn:E.
  - apply String.eqb_eq in E. intros [= ->]. now subst.
  - intros H. now rewrite IH.
Qed.

Lemma setitem_same df name c : getitem df name = Some c -> setitem df name c = df.
Proof.
  intros H. destruct df as [n cs]. unfold setitem, getitem in *. simpl in *.
  now rewrite dict_set_same.
Qed.

Lemma to_numeric_not_object c :
  match to_numeric c with
  | ColObject _ | ColDatetime64 _ => False
  | _ => True
  end.
Proof.
  destruct c; simpl; auto. unfold maybe_convert_numeric.
  repeat match goal with |- context [if ?b then _ else _] => destruct b end; exact I.
Qed.

Lemma to_numeric_twice c : to_numeric (to_numeric c) = to_numeric c.
Proof.
  pose proof (to_numeric_not_object c) as H.
  destruct (to_numeric c); simpl; try reflexivity; contradiction.
Qed.

Lemma cast_series_twice typ c c' :
  typ <> "date" ->
  cast_series typ c = Ok c' -> cast_series typ c' = Ok c'.
Proof.
  intros Hd. apply String.eqb_neq in Hd. unfold cast_series.
  destruct (typ =? "int")%string.
  { intros H. destruct (astype_Int64_dtype _ _ H) as [l ->]. reflexivity. }
  destruct (typ =? "float")%string.
  { intros [= <-]. now rewrite to_numeric_twice. }
  rewrite Hd. intros [= <-]. simpl. now rewrite map_map, map_id.
Qed.

Lemma cast_types_fixed schema : forall df,
  (forall fld c, In fld schema -> getitem df (Name fld) = Some c ->
     cast_series (Typ fld) c = Ok c) ->
  cast_types df schema = Ok df.
Proof.
  induction schema as [|col schema IH]; intros df H; simpl; [reflexivity|].
  destruct (getitem df (Name col)) as [c|] eqn:E.
  - rewrite (H col c (or_introl eq_refl) E). simpl.
    rewrite (setitem_same _ _ _ E). apply IH. intros fld c0 Hin. apply H. now right.
  - apply IH. intros fld c0 Hin. apply H. now right.
Qed.

(** X8.  With a schema that names each field once and declares no ["date"],
    casting a frame that [cast_types] returned gives the same frame again. *)
Theorem cast_types_idempotent df schema df' :
  NoDup (map Name schema) ->
  (forall fld, In fld schema -> Typ fld <> "date") ->
  cast_types df schema = Ok df' ->
  cast_types df' schema = Ok df'.
Proof.
  intros Hnd Hd H. apply cast_types_fixed. intros fld c' Hin Hget.
  destruct (cast_types_loop schema df df' H) as (_ & Hc & _ & Hdecl).
  assert (Hlab : In (Name fld) (df_columns df))
    by (rewrite <- Hc; eapply dict_get_Some_key; eauto).
  destruct (getitem df (Name fld)) as [c|] eqn:E;
    [|apply dict_get_None in E; contradiction].
  destruct (Hdecl Hnd fld c Hin E) as (c1 & H1 & H2).
  assert (c1 = c') by congruence. subst c1.
  eapply cast_series_twice; eauto.
Qed.

End MoreCast.

Section MoreExport.

Context {L : Lib}.

(** *** When a frame can be serialised *)

Lemma json_value_ok_iff v :
  (exists s, json_value v = Ok s) <-> json_serialisable v = true.
Proof.
  destruct v as [|[]| | | | | | | |]; simpl; split; intros H;
    try discriminate; eauto; destruct H; discriminate.
Qed.

Lemma json_items_ok_iff d :
  (exists s, json_items d = Ok s) <->
  forallb (fun kv => json_serialisable (snd kv)) d = true.
Proof.
  induction d as [|[k v] d IH]; simpl; [split; eauto|].
  rewrite andb_true_iff, <- IH, <- json_value_ok_iff. split.
  - intros [s H]. destruct (json_value v); simpl in H; [|discriminate].
    destruct (json_items d); simpl in H; [|discriminate]. eauto.
  - intros [[jv Hv] [rest Hr]]. rewrite Hv, Hr. simpl. eauto.
Qed.

Lemma json_dumps_ok_iff d :
  (exists s, json_dumps d = Ok s) <->
  forallb (fun kv => json_serialisable (snd kv)) d = true.
Proof.
  rewrite <- json_items_ok_iff. unfold json_dumps.
  destruct (json_items d); simpl; split; intros [s H]; try discriminate; eauto.
Qed.

Lemma ndjson_ok_iff rows :
  (exists text, ndjson rows = Ok text) <->
  Forall (fun row => exists s, json_dumps row = Ok s) rows.
Proof.
  induction rows as [|row rows IH]; simpl.
  - split; [constructor | eauto].
  - split.
    + intros [text H]. destruct (json_dumps row) eqn:E; simpl in H; [|discriminate].
      destruct (ndjson rows); simpl in H; [|discriminate].
      constructor; [eauto | apply IH; eauto].
    + intros H. inversion H as [|? ? [s Hs] Hr]; subst.
      apply IH in Hr as [rest Hr]. rewrite Hs, Hr. simpl. eauto.
Qed.

Lemma box_serialisable b c i v :
  encodable c = true -> free_of_NA c = true ->
  box b c i = Some v -> json_serialisable v = true.
Proof.
  intros He Hna Hb. destruct c as [l|l|l|l|l|l|l]; simpl in *.
  - rewrite forallb_forall in He. apply He. eapply nth_error_In; eauto.
  - destruct (nth_error l i); simpl in Hb; [|discriminate]. now injection Hb as <-.
  - destruct (nth_error l i); simpl in Hb; [|discriminate]. injection Hb as <-. now destruct b.
  - destruct (nth_error l i); simpl in Hb; [|discriminate]. injection Hb as <-. now destruct b.
  - destruct (nth_error l i); simpl in Hb; [|discriminate]. now injection Hb as <-.
  - destruct l; [|discriminate]. destruct i; discriminate.
  - destruct (nth_error l i) as [o|] eqn:E; simpl in Hb; [|discriminate]. injection Hb as <-.
    rewrite forallb_forall in Hna. specialize (Hna o (nth_error_In _ _ E)).
    destruct o; [reflexivity | discriminate].
Qed.

Lemma encodable_of_box b c :
  (forall i v, (i < col_length c)%nat -> box b c i = Some v -> json_serialisable v = true) ->
  encodable c = true.
Proof.
  intros H. destruct c as [l|l|l|l|l|l|l]; simpl in *; try reflexivity.
  - apply forallb_forall. intros v Hv. apply In_nth_error in Hv as [i Hi].
    apply (H i v); [|exact Hi]. apply nth_error_Some. congruence.
  - destruct l as [|t l]; [reflexivity|].
    specialize (H O _ ltac:(simpl; lia) eq_refl). destruct (int64 t =? NaT); discriminate.
Qed.

Lemma rows_ok_iff df :
  NoDup (df_columns df) -> rectangular df ->
  (forall name c, getitem df name = Some c -> free_of_NA c = true) ->
  ((exists text, ndjson (iterrows df) = Ok text) <->
   (forall name c, getitem df name = Some c -> encodable c = true)).
Proof.
  intros Hnd Hr Hna. rewrite ndjson_ok_iff. unfold iterrows. rewrite Forall_forall. split.
  - intros H name c Hget. apply (encodable_of_box (values_float64 df)).
    intros i v Hi Hb. rewrite (Hr name c Hget) in Hi.
    assert (Hrow : exists s, json_dumps (row_to_dict df i) = Ok s).
    { apply H. apply in_map. apply in_seq. lia. }
    apply json_dumps_ok_iff in Hrow. rewrite forallb_forall in Hrow.
    apply (Hrow (name, v)). eapply cell_row; eauto.
  - intros H row Hrow. apply in_map_iff in Hrow as [i [<- _]].
    apply json_dumps_ok_iff, forallb_forall. intros [k v] Hin. simpl.
    apply row_cell in Hin as (c & Hget & Hb); [|exact Hnd].
    eapply box_serialisable; eauto.
Qed.

(** *** The columns of the frame main serialises *)

Lemma clean_series_tidy c : tidy (clean_series c) = true.
Proof.
  rewrite clean_series_sanitize. simpl. apply forallb_forall.
  intros v Hv. apply in_map_iff in Hv as [s [<- _]]. reflexivity.
Qed.

Lemma cleaned_frame_tidy data name c :
  getitem (cleaned_frame data) name = Some c -> tidy c = true.
Proof.
  intros H. unfold cleaned_frame in H.
  assert (Hin : In name (df_columns (fetched_frame data))).
  { rewrite <- (clean_dataframe_columns _ (fetched_frame_NoDup data)).
    eapply dict_get_Some_key; eauto. }
  destruct (getitem (fetched_frame data) name) as [c0|] eqn:E;
    [|apply dict_get_None in E; contradiction].
  rewrite (clean_dataframe_getitem _ _ _ (fetched_frame_NoDup data) E) in H.
  injection H as <-.
  destruct (is_object_or_bool c0) eqn:Ho;
    [apply clean_series_tidy | destruct c0; try discriminate; reflexivity].
Qed.

Lemma tidy_values_not_bool l :
  forallb (fun v => is_str v || is_nan v) l = true ->
  existsb is_NumBool (map numeric_of_value l) = false.
Proof.
  intros H. apply not_true_is_false. intros Hex.
  apply existsb_exists in Hex as [n [Hn Hb]].
  apply in_map_iff in Hn as [v [<- Hv]].
  rewrite forallb_forall in H. specialize (H v Hv).
  destruct v as [| | |f|s| | | | |]; try discriminate.
  - destruct f; discriminate.
  - destruct s as [|c s]; [discriminate|]. simpl in Hb. unfold numeric_of_str in Hb.
    repeat match type of Hb with
           | context [match ?X with _ => _ end] => destruct X; try discriminate
           | context [if ?X then _ else _] => destruct X; try discriminate
           end.
Qed.

Lemma to_numeric_tidy c : tidy c = true -> tidy (to_numeric c) = true.
Proof.
  destruct c as [l|l|l|l|l|l|l]; simpl; try reflexivity; try discriminate.
  intros H. unfold maybe_convert_numeric.
  rewrite (tidy_values_not_bool l H).
  repeat match goal with |- context [if ?b then _ else _] => destruct b end; reflexivity.
Qed.

Lemma cast_series_tidy typ c c' :
  tidy c = true -> cast_series typ c = Ok c' -> tidy c' = true.
Proof.
  intros Ht. unfold cast_series.
  destruct (typ =? "int")%string.
  { intros H. now destruct (astype_Int64_dtype _ _ H) as [l ->]. }
  destruct (typ =? "float")%string.
  { intros [= <-]. now apply to_numeric_tidy. }
  destruct (typ =? "date")%string.
  - destruct (to_datetime_raises c); [discriminate|].
    intros [= <-]. simpl. apply forallb_forall.
    intros v Hv. apply in_map_iff in Hv as [x [<- _]].
    unfold strftime_ymd. now destruct (int64 x =? NaT).
  - intros [= <-]. simpl. apply forallb_forall.
    intros v Hv. apply in_map_iff in Hv as [x [<- _]]. reflexivity.
Qed.

Lemma cast_types_tidy schema : forall df df',
  cast_types df schema = Ok df' ->
  (forall name c, getitem df name = Some c -> tidy c = true) ->
  forall name c, getitem df' name = Some c -> tidy c = true.
Proof.
  induction schema as [|col schema IH]; intros df df' H Ht; simpl in H.
  - now injection H as <-.
  - destruct (getitem df (Name col)) as [c0|] eqn:E0; [|eauto].
    destruct (cast_series (Typ col) c0) as [c1|] eqn:E1; simpl in H; [|discriminate].
    apply (IH _ _ H). intros name c Hget.
    destruct (String.eqb name (Name col)) eqn:En.
    + apply String.eqb_eq in En. subst name.
      rewrite getitem_setitem_same in Hget. injection Hget as <-.
      eapply cast_series_tidy; eauto.
    + apply String.eqb_neq in En.
      rewrite getitem_setitem_other in Hget by assumption. eauto.
Qed.

Lemma tidy_encodable c :
  tidy c = true -> (0 < col_length c)%nat -> encodable c = negb (is_datetime64 c).
Proof.
  destruct c as [l|l|l|l|l|l|l]; simpl; try reflexivity; try discriminate.
  - intros H _. apply forallb_forall. intros v Hv.
    rewrite forallb_forall in H. specialize (H v Hv).
    destruct v; try discriminate; reflexivity.
  - intros _ Hl. destruct l; [simpl in Hl; lia | reflexivity].
Qed.

(** X9.  For a frame that holds no [NA] (how [row.to_dict()] renders a
    missing integer depends on the version of pandas), [export_to_ndjson]
    returns exactly when the file can be opened and no column holds a cell
    that JSON has no encoding for: a [Timestamp] or [NaT] of a datetime64
    column, or such an object in an object column; it then leaves the whole
    text in the file, one serialised row after the other. *)
Theorem export_to_ndjson_returns_iff {E : Env} df filename w :
  NoDup (df_columns df) -> rectangular df ->
  (forall name c, getitem df name = Some c -> free_of_NA c = true) ->
  (fst (export_to_ndjson df filename w) = Ok tt <->
   open_error filename = None /\
   forall name c, getitem df name = Some c -> encodable c = true) /\
  (fst (export_to_ndjson df filename w) = Ok tt ->
   exists text, ndjson (iterrows df) = Ok text /\
                dict_get (files (snd (export_to_ndjson df filename w))) filename = Some text).
Proof.
  intros Hnd Hr Hna. rewrite <- (rows_ok_iff df Hnd Hr Hna).
  destruct (export_to_ndjson_spec df filename w)
    as (w' & _ & _ & [(text & Ht & Hx & Hf)|(e & Hx)]).
  - rewrite Hx. simpl. split; [|eauto]. split; [|reflexivity]. intros _. split; [|eauto].
    unfold export_to_ndjson, bind, open_w in Hx.
    destruct (open_error filename); [discriminate | reflexivity].
  - rewrite Hx. simpl. split; [|discriminate]. split; [discriminate|].
    intros [Ho [text Ht]].
    destruct (export_to_ndjson_writes df filename text w Ho Ht) as (w2 & Hx2 & _).
    congruence.
Qed.

Lemma tidy_free_of_NA c :
  tidy c = true ->
  (forall l, c = ColNullableInt64 l -> forallb is_some l = true) ->
  free_of_NA c = true.
Proof.
  destruct c as [l|l|l|l|l|l|l]; simpl; try reflexivity; try discriminate.
  - intros H _. apply forallb_forall. intros v Hv.
    rewrite forallb_forall in H. specialize (H v Hv).
    destruct v; try discriminate; reflexivity.
  - intros _ H. now apply H.
Qed.

(** X10.  For the frame [main] prepares from a non-empty list of documents,
    when no Int64 column (a field declared ["int"]) has a missing value, the
    rows can all be serialised exactly when no column is left with the dtype
    datetime64, that is, when no document has a date-time in a field that
    the schema does not cast. *)
Theorem prepared_frame_serialisable_iff data schema df :
  prepared_frame data schema = Ok df ->
  data <> [] ->
  (forall name l, getitem df name = Some (ColNullableInt64 l) -> forallb is_some l = true) ->
  ((exists text, ndjson (iterrows df) = Ok text) <->
   (forall name c, getitem df name = Some c -> is_datetime64 c = false)).
Proof.
  intros H Hne Hint.
  destruct (prepared_frame_rectangular _ _ _ H) as [Hr Hn].
  assert (Hnd : NoDup (df_columns df)).
  { rewrite (prepared_frame_columns _ _ _ H). apply NoDup_filter, unique_NoDup. }
  assert (Htidy : forall name c, getitem df name = Some c -> tidy c = true).
  { intros name c Hget. eapply (cast_types_tidy schema); eauto. apply cleaned_frame_tidy. }
  assert (Hna : forall name c, getitem df name = Some c -> free_of_NA c = true).
  { intros name c Hget. apply tidy_free_of_NA; [eauto|].
    intros l ->. eauto. }
  rewrite (rows_ok_iff df Hnd Hr Hna).
  assert (Heq : forall name c, getitem df name = Some c ->
                               encodable c = negb (is_datetime64 c)).
  { intros name c Hget. apply tidy_encodable; [eauto|].
    rewrite (Hr name c Hget), Hn. destruct data; [contradiction | simpl; lia]. }
  split; intros Hall name c Hget; specialize (Hall name c Hget);
    rewrite (Heq name c Hget) in *; destruct (is_datetime64 c); auto; discriminate.
Qed.

(** *** One line per record *)

Lemma has_char_app p a b : has_char p (a ++ b) = has_char p a || has_char p b.
Proof. induction a as [|c a IH]; simpl; [reflexivity|]. now rewrite IH, orb_assoc. Qed.

Lemma count_chars_app p a b :
  count_chars p (a ++ b) = (count_chars p a + count_chars p b)%nat.
Proof. induction a as [|c a IH]; simpl; [reflexivity|]. rewrite IH. lia. Qed.

Lemma no_newline_count s :
  has_char is_control s = false -> count_chars is_newline s = O.
Proof.
  induction s as [|c s IH]; simpl; [reflexivity|].
  intros H. apply orb_false_iff in H as [Hc Hs]. rewrite (IH Hs).
  unfold is_control, is_newline in *.
  destruct (ord c =? 10)%N eqn:E; [|reflexivity].
  apply N.eqb_eq in E. rewrite E in Hc. discriminate.
Qed.

Lemma escape_char_no_control c : has_char is_control (escape_char c) = false.
Proof. destruct c as [[] [] [] [] [] [] [] []]; reflexivity. Qed.

Lemma json_string_no_control s : has_char is_control (json_string s) = false.
Proof.
  unfold json_string. rewrite !has_char_app. simpl.
  induction s as [|c s IH]; simpl; [reflexivity|].
  rewrite has_char_app, escape_char_no_control. simpl.
  rewrite orb_false_r in *. exact IH.
Qed.

Lemma string_of_uint_no_control d :
  has_char is_control (NilZero.string_of_uint d) = false.
Proof.
  destruct d; try reflexivity; simpl;
    match goal with |- context [NilEmpty.string_of_uint ?d] =>
      induction d; simpl; auto end.
Qed.

Lemma int_str_no_control z : has_char is_control (int_str z) = false.
Proof.
  unfold int_str, NilZero.string_of_int.
  destruct (Z.to_int z); simpl; apply string_of_uint_no_control.
Qed.

Section OneLine.

Hypothesis float_repr_no_control :
  forall f, has_char is_control (float_repr f) = false.

Lemma json_value_no_control v s :
  json_value v = Ok s -> has_char is_control s = false.
Proof.
  destruct v as [|[]| |f| | | | | |]; simpl; intros H; try discriminate;
    injection H as <-; try reflexivity.
  - apply int_str_no_control.
  - destruct f as [| [] | |]; simpl; auto.
  - apply json_string_no_control.
Qed.

Lemma Ok_inj {A} (a b : A) : Ok a = Ok b -> a = b.
Proof. now intros [= ->]. Qed.

Lemma json_items_cons k v d :
  json_items ((k, v) :: d) =
  bind_result (json_value v) (fun jv =>
  bind_result (json_items d) (fun rest =>
  Ok (json_string k ++ ": " ++ jv ++ match d with [] => "" | _ => ", " ++ rest end))).
Proof. reflexivity. Qed.

Lemma json_items_no_control d : forall s,
  json_items d = Ok s -> has_char is_control s = false.
Proof.
  induction d as [|[k v] d IH]; intros s H.
  - now injection H as <-.
  - rewrite json_items_cons in H.
    destruct (json_value v) as [jv|] eqn:Ev; [|discriminate].
    destruct (json_items d) as [rest|] eqn:Ed; [|discriminate].
    cbn [bind_result] in H. apply Ok_inj in H. subst s. rewrite !has_char_app.
    rewrite json_string_no_control, (json_value_no_control _ _ Ev).
    destruct d; [reflexivity|]. cbv iota. rewrite has_char_app, (IH rest eq_refl). reflexivity.
Qed.

Lemma json_dumps_no_control d s :
  json_dumps d = Ok s -> has_char is_control s = false.
Proof.
  unfold json_dumps. destruct (json_items d) as [items|] eqn:E; simpl; [|discriminate].
  intros H. apply Ok_inj in H. subst s. cbn [has_char].
  rewrite has_char_app, (json_items_no_control _ _ E). reflexivity.
Qed.

End OneLine.

(** X11.  Provided the text Python prints for a float has no control
    character, the text [export_to_ndjson] writes has exactly as many newline
    characters as the frame has rows, and it ends each row with one: a
    newline inside a value never breaks a record over two lines. *)
Theorem ndjson_one_line_per_row rows :
  (forall f, has_char is_control (float_repr f) = false) ->
  forall text,
  ndjson rows = Ok text ->
  count_chars is_newline text = List.length rows /\
  Forall (fun row => exists line, json_dumps row = Ok line /\
                                  count_chars is_newline line = O) rows.
Proof.
  intros Hfloat.
  induction rows as [|row rows IH]; intros text H.
  - injection H as <-. split; [reflexivity | constructor].
  - cbn [ndjson] in H.
    destruct (json_dumps row) as [line|] eqn:El; [|discriminate].
    destruct (ndjson rows) as [rest|] eqn:Er; [|discriminate].
    cbn [bind_result] in H. apply Ok_inj in H. subst text.
    destruct (IH rest eq_refl) as [Hc Hall].
    pose proof (no_newline_count _ (json_dumps_no_control Hfloat _ _ El)) as Hl.
    split; [|constructor; eauto].
    rewrite !count_chars_app, Hl, Hc. reflexivity.
Qed.

(** *** Rows and keys *)

(** X12.  The frame [main] serialises has one row for each document
    fetched, and every row lists the same keys in the same order: the keys of
    the documents other than ["_id"], in the order in which they first appear
    in the collection. *)
Theorem rows_follow_documents data schema df :
  prepared_frame data schema = Ok df ->
  List.length (iterrows df) = List.length data /\
  (forall i, (i < List.length data)%nat ->
     map fst (row_to_dict df i) = filter not_id (frame_labels data)) /\
  NoDup (filter not_id (frame_labels data)).
Proof.
  intros H. destruct (prepared_frame_rectangular _ _ _ H) as [Hr Hn].
  assert (Hnd : NoDup (filter not_id (frame_labels data)))
    by apply NoDup_filter, unique_NoDup.
  split; [|split; [|exact Hnd]].
  - unfold iterrows. now rewrite length_map, length_seq.
  - intros i Hi. rewrite <- (prepared_frame_columns _ _ _ H).
    apply row_keys; [|exact Hr | now rewrite Hn].
    now rewrite (prepared_frame_columns _ _ _ H).
Qed.

End MoreExport.

Section MoreRun.

Context {L : Lib} {E : Env}.

(** *** Files *)

Lemma dict_get_remove_key {A} (d : list (string * A)) k :
  dict_get (remove_key d k) k = None.
Proof.
  apply dict_get_None. unfold remove_key. intros H.
  apply in_map_iff in H as [[k' v] [Hk Hin]]. simpl in Hk. subst k'.
  apply filter_In in Hin as [_ Hin]. simpl in Hin. now rewrite String.eqb_refl in Hin.
Qed.

Lemma dict_get_remove_other {A} (d : list (string * A)) k k' :
  k' <> k -> dict_get (remove_key d k) k' = dict_get d k'.
Proof.
  intros Hne. unfold remove_key.
  apply (dict_get_filter_key d (fun x => negb (String.eqb x k))).
  apply String.eqb_neq in Hne. now rewrite Hne.
Qed.

Lemma write_rows_other_files filename rows other : forall w,
  other <> filename ->
  dict_get (files (snd (write_rows filename rows w))) other = dict_get (files w) other.
Proof.
  induction rows as [|row rows IH]; intros w Hne; [reflexivity|].
  cbn [write_rows]. unfold bind at 1, lift at 1.
  destruct (json_dumps row) as [line|e]; [|reflexivity].
  unfold bind at 1, write at 1. rewrite IH by assumption. simpl.
  now apply dict_get_set_other.
Qed.

Lemma export_to_ndjson_other_files df filename other w :
  other <> filename ->
  dict_get (files (snd (export_to_ndjson df filename w))) other = dict_get (files w) other.
Proof.
  intros Hne. unfold export_to_ndjson, bind, open_w.
  destruct (open_error filename); [reflexivity|].
  rewrite write_rows_other_files by assumption. simpl. now apply dict_get_set_other.
Qed.

(** What the statements under [try] do to the local files. *)
Lemma process_collection_files c f w :
  exists r w',
    process_collection c f w = (r, w') /\
    (forall other, other <> (c ++ ".json")%string ->
       dict_get (files w') other = dict_get (files w) other) /\
    (r = Ok tt ->
     (find c = Ok [] /\ files w' = files w) \/
     dict_get (files w') (c ++ ".json") = None).
Proof.
  unfold process_collection, bind at 1, print at 1.
  unfold bind at 1, lift at 1.
  destruct (find c) as [data|e];
    [|do 2 eexists; split; [reflexivity|]; simpl; split; [auto | discriminate]].
  destruct data as [|d data];
    [do 2 eexists; split; [reflexivity|]; simpl; auto |].
  fold (fetched_frame (d :: data)). fold (cleaned_frame (d :: data)).
  unfold bind at 1, lift at 1.
  destruct (SCHEMAS_getitem c) as [schema|e];
    [|do 2 eexists; split; [reflexivity|]; simpl; split; [auto | discriminate]].
  unfold bind at 1, lift at 1.
  fold (prepared_frame (d :: data) schema).
  destruct (prepared_frame (d :: data) schema) as [df|e];
    [|do 2 eexists; split; [reflexivity|]; simpl; split; [auto | discriminate]].
  unfold bind at 1.
  set (w1 := mkWorld _ _ _).
  pose proof (export_to_ndjson_other_files df (c ++ ".json")) as Hother.
  destruct (export_to_ndjson_spec df (c ++ ".json") w1)
    as (w2 & Hs2 & Ho2 & [(text & Ht & Hx & Hf)|(e & Hx)]);
    rewrite Hx;
    (assert (Hkeep : forall other, other <> (c ++ ".json")%string ->
               dict_get (files w2) other = dict_get (files w) other)
       by (intros other Hne; specialize (Hother other w1 Hne);
           rewrite Hx in Hother; exact Hother));
    [|do 2 eexists; split; [reflexivity|]; split; [exact Hkeep | discriminate]].
  unfold bind at 1, print at 1. unfold bind at 1, s3_upload_file at 1. simpl files.
  destruct (upload_error _ _ _) as [e|];
    [do 2 eexists; split; [reflexivity|]; simpl; split; [exact Hkeep | discriminate] |].
  rewrite Hf.
  unfold bind at 1, print at 1. unfold os_remove. simpl.
  destruct (remove_error _) as [e|];
    [do 2 eexists; split; [reflexivity|]; simpl; split; [exact Hkeep | discriminate] |].
  rewrite Hf. do 2 eexists. split; [reflexivity|]. simpl. split.
  - intros other Hne. rewrite dict_get_remove_other by assumption. auto.
  - intros _. right. apply dict_get_remove_key.
Qed.

(** X13.  A collection without documents, and a collection whose query
    fails, leave the local files and the bucket as they were: the run only
    prints the announcement and one more line, the notice of the empty
    collection or the report of the error. *)
Theorem nothing_written_without_documents c f w :
  (find c = Ok [] ->
   guarded c f w =
   (Ok tt, mkWorld (files w) (s3_objects w)
             (stdout w ++ [("📥 Procesando colección: " ++ c)%string;
                           ("⚠️ Colección vacía: " ++ c)%string])%list)) /\
  (forall e, find c = Raise e ->
   guarded c f w =
   (Ok tt, mkWorld (files w) (s3_objects w)
             (stdout w ++ [("📥 Procesando colección: " ++ c)%string;
                           ("❌ Error con " ++ c ++ ": " ++ exn_str e)%string])%list)).
Proof.
  split.
  - intros H. unfold guarded, try_except, process_collection, bind, lift, print.
    rewrite H. simpl. now rewrite <- app_assoc.
  - intros e H. unfold guarded, try_except, report, process_collection, bind, lift, print.
    rewrite H. simpl. now rewrite <- app_assoc.
Qed.

(** X14.  The staging file of a collection does not outlive a successful
    export: when the statements under [try] return for a collection that has
    documents, the file [<collection>.json] no longer exists; and they never
    touch a file of another name. *)
Theorem staging_file_is_removed c f w d data :
  find c = Ok (d :: data) ->
  fst (process_collection c f w) = Ok tt ->
  dict_get (files (snd (process_collection c f w))) (c ++ ".json") = None /\
  (forall other, other <> (c ++ ".json")%string ->
     dict_get (files (snd (process_collection c f w))) other = dict_get (files w) other).
Proof.
  intros Hfind Hok.
  destruct (process_collection_files c f w) as (r & w' & Hp & Hother & Hgone).
  rewrite Hp in *. simpl in *. split; [|exact Hother].
  destruct (Hgone Hok) as [[Hempty _]|H]; [congruence | exact H].
Qed.

Lemma process_collection_upload_fails c f w d data schema df text e :
  find c = Ok (d :: data) ->
  SCHEMAS_getitem c = Ok schema ->
  prepared_frame (d :: data) schema = Ok df ->
  ndjson (iterrows df) = Ok text ->
  open_error (c ++ ".json") = None ->
  upload_error (c ++ ".json") BUCKET_NAME (f ++ c ++ ".json") = Some e ->
  exists w',
    process_collection c f w = (Raise e, w') /\
    dict_get (files w') (c ++ ".json") = Some text /\
    s3_objects w' = s3_objects w.
Proof.
  intros Hfind Hsch Hprep Htext Hopen Hup.
  unfold process_collection, bind at 1, print at 1.
  unfold bind at 1, lift at 1. rewrite Hfind.
  fold (fetched_frame (d :: data)). fold (cleaned_frame (d :: data)).
  unfold bind at 1, lift at 1. rewrite Hsch.
  unfold bind at 1, lift at 1.
  fold (prepared_frame (d :: data) schema). rewrite Hprep.
  unfold bind at 1.
  set (w1 := mkWorld _ _ _).
  destruct (export_to_ndjson_writes df (c ++ ".json") text w1 Hopen Htext)
    as (w2 & Hx & Hs2 & Ho2 & Hf).
  rewrite Hx.
  unfold bind at 1, print at 1. unfold bind at 1, s3_upload_file at 1. simpl files.
  rewrite Hup. eexists. split; [reflexivity|]. simpl. split; [exact Hf | now rewrite Hs2].
Qed.

(** X15.  When the upload fails the staging file stays behind, holding the
    whole export, nothing is added to the bucket, and the error is the one
    the upload raised. *)
Theorem failed_upload_leaves_staging_file c f w d data schema df text e :
  find c = Ok (d :: data) ->
  SCHEMAS_getitem c = Ok schema ->
  prepared_frame (d :: data) schema = Ok df ->
  ndjson (iterrows df) = Ok text ->
  open_error (c ++ ".json") = None ->
  upload_error (c ++ ".json") BUCKET_NAME (f ++ c ++ ".json") = Some e ->
  fst (process_collection c f w) = Raise e /\
  dict_get (files (snd (process_collection c f w))) (c ++ ".json") = Some text /\
  s3_objects (snd (process_collection c f w)) = s3_objects w.
Proof.
  intros Hfind Hsch Hprep Htext Hopen Hup.
  destruct (process_collection_upload_fails c f w d data schema df text e
              Hfind Hsch Hprep Htext Hopen Hup) as (w' & Hp & Hf & Hs).
  rewrite Hp. simpl. auto.
Qed.

(** *** The bucket *)

Lemma main_loop_upload_log collections : forall w,
  exists new,
    s3_objects (snd (main_loop collections w)) = (s3_objects w ++ new)%list /\
    (List.length new <= List.length collections)%nat /\
    Forall (fun obj =>
              exists c f, In (c, f) collections /\
                          fst (fst obj) = BUCKET_NAME /\
                          snd (fst obj) = (f ++ c ++ ".json")%string) new.
Proof.
  induction collections as [|[c f] rest IH]; intros w.
  - exists []. split; [simpl; now rewrite app_nil_r|]. split; [simpl; lia | constructor].
  - rewrite main_loop_cons.
    destruct (guarded_effect c f w) as (w1 & out1 & Hg & _ & Hs). rewrite Hg. simpl.
    destruct (IH w1) as (new & Hnew & Hlen & Hall).
    assert (Hall' : Forall (fun obj =>
              exists c0 f0, In (c0, f0) ((c, f) :: rest) /\
                            fst (fst obj) = BUCKET_NAME /\
                            snd (fst obj) = (f0 ++ c0 ++ ".json")%string) new).
    { eapply Forall_impl; [|exact Hall]. intros obj (c0 & f0 & Hin & Hb & Hk).
      exists c0, f0. split; [now right | auto]. }
    destruct Hs as [Hs|(data & schema & df & text & _ & _ & _ & _ & Hs)].
    + exists new. rewrite Hnew, Hs. split; [reflexivity|]. split; [lia | exact Hall'].
    + eexists (_ :: new). rewrite Hnew, Hs, <- app_assoc. split; [reflexivity|].
      split; [simpl; lia|]. constructor; [|exact Hall'].
      exists c, f. simpl. split; [now left | auto].
Qed.

Lemma s3_get_object_app old new bucket key :
  s3_get_object (old ++ new) bucket key =
  match s3_get_object new bucket key with
  | Some newer => Some newer
  | None => s3_get_object old bucket key
  end.
Proof.
  induction old as [|[[b k] content] old IH]; simpl.
  - now destruct (s3_get_object new bucket key).
  - rewrite IH. now destruct (s3_get_object new bucket key).
Qed.

Lemma s3_get_object_none uploads bucket key :
  Forall (fun obj => ~ (fst (fst obj) = bucket /\ snd (fst obj) = key)) uploads ->
  s3_get_object uploads bucket key = None.
Proof.
  induction 1 as [|[[b k] content] uploads Hx _ IH]; simpl; [reflexivity|].
  rewrite IH. simpl in Hx.
  destruct (String.eqb b bucket) eqn:Eb; [|reflexivity].
  destruct (String.eqb k key) eqn:Ek; [|reflexivity].
  apply String.eqb_eq in Eb, Ek. tauto.
Qed.

(** X16.  The loop of [main] makes at most one upload for each entry of the
    list, each to [BUCKET_NAME] under the key [<prefix><collection>.json] of
    a configured collection, after the uploads made before; and the object
    that a bucket holds under any other key is the one it held before the
    run: only the objects under the keys of the layout can be replaced. *)
Theorem uploads_follow_the_layout collections : forall w,
  (exists new,
     s3_objects (snd (main_loop collections w)) = (s3_objects w ++ new)%list /\
     (List.length new <= List.length collections)%nat /\
     Forall (fun obj =>
               exists c f, In (c, f) collections /\
                           fst (fst obj) = BUCKET_NAME /\
                           snd (fst obj) = (f ++ c ++ ".json")%string) new) /\
  (forall bucket key,
     (forall c f, In (c, f) collections ->
        ~ (bucket = BUCKET_NAME /\ key = (f ++ c ++ ".json")%string)) ->
     s3_get_object (s3_objects (snd (main_loop collections w))) bucket key =
     s3_get_object (s3_objects w) bucket key).
Proof.
  intros w. destruct (main_loop_upload_log collections w) as (new & Hnew & Hlen & Hall).
  split; [eauto|].
  intros bucket key Hother. rewrite Hnew, s3_get_object_app.
  rewrite s3_get_object_none; [reflexivity|].
  eapply Forall_impl; [|exact Hall].
  intros obj (c & f & Hin & Hb & Hk) [Hb' Hk'].
  apply (Hother c f Hin). split; congruence.
Qed.

(** X17.  The run leaves alone every local file that is not the staging file
    [<collection>.json] of a configured collection. *)
Theorem other_files_untouched collections : forall w other,
  (forall c f, In (c, f) collections -> other <> (c ++ ".json")%string) ->
  dict_get (files (snd (main_loop collections w))) other = dict_get (files w) other.
Proof.
  induction collections as [|[c f] rest IH]; intros w other Hne; [reflexivity|].
  rewrite main_loop_cons.
  assert (Hc : other <> (c ++ ".json")%string) by (apply (Hne c f); now left).
  rewrite IH by (intros c0 f0 Hin; apply (Hne c0 f0); now right).
  destruct (process_collection_files c f w) as (r & w' & Hp & Hother & _).
  unfold guarded, try_except. rewrite Hp.
  destruct r as [[]|e]; simpl; auto.
Qed.

End MoreRun.

Section MoreExport2.

Context {L : Lib} {E : Env}.

Lemma write_rows_app filename pre post : forall w,
  write_rows filename (pre ++ post) w =
  match write_rows filename pre w with
  | (Ok _, w') => write_rows filename post w'
  | (Raise e, w') => (Raise e, w')
  end.
Proof.
  induction pre as [|row pre IH]; intros w; [reflexivity|].
  cbn [app write_rows]. unfold bind, lift.
  destruct (json_dumps row) as [line|e]; [|reflexivity].
  destruct (write filename (line ++ newline) w) as [[[]|e] w1]; [apply IH | reflexivity].
Qed.

Lemma export_to_ndjson_stops df filename w pre bad post text e :
  iterrows df = (pre ++ bad :: post)%list ->
  ndjson pre = Ok text ->
  json_dumps bad = Raise e ->
  open_error filename = None ->
  exists w',
    export_to_ndjson df filename w = (Raise e, w') /\
    dict_get (files w') filename = Some text.
Proof.
  intros Hrows Hpre Hbad Hopen.
  unfold export_to_ndjson, bind, open_w. rewrite Hopen, Hrows, write_rows_app.
  set (w1 := mkWorld _ _ _).
  destruct (write_rows_spec filename pre w1 "") as (w' & _ & _ & Hm).
  { subst w1. simpl. apply dict_get_set_same. }
  rewrite Hpre in Hm. destruct Hm as [Hw Hf]. rewrite Hw.
  cbn [write_rows]. unfold bind, lift. rewrite Hbad.
  exists w'. split; [reflexivity | exact Hf].
Qed.

(** X18.  When a row cannot be serialised, [export_to_ndjson] raises the
    error of [json.dumps] and leaves in the file the lines of the rows before
    it, and only those: a truncated file, not an empty or a missing one. *)
Theorem export_failure_leaves_prefix df filename w pre bad post text e :
  iterrows df = (pre ++ bad :: post)%list ->
  ndjson pre = Ok text ->
  json_dumps bad = Raise e ->
  open_error filename = None ->
  fst (export_to_ndjson df filename w) = Raise e /\
  dict_get (files (snd (export_to_ndjson df filename w))) filename = Some text.
Proof.
  intros Hrows Hpre Hbad Hopen.
  destruct (export_to_ndjson_stops df filename w pre bad post text e
              Hrows Hpre Hbad Hopen) as (w' & Hx & Hf).
  rewrite Hx. auto.
Qed.

End MoreExport2.

Section MoreCast2.

Context {L : Lib}.

Lemma box_numeric b c i v :
  match c with ColObject _ | ColDatetime64 _ => False | _ => True end ->
  box b c i = Some v -> is_numeric_cell v = true.
Proof.
  destruct c as [l|l|l|l|l|l|l]; simpl; try contradiction; intros _;
    destruct (nth_error l i) as [x|]; simpl; try discriminate; intros [= <-];
    try reflexivity; try (now destruct b); now destruct x.
Qed.

(** X19.  When [cast_types] returns, a field declared ["float"] holds in
    every row a number or a missing marker, never a text: the column is what
    [pd.to_numeric] makes of it, with NaN where a text is no number. *)
Theorem cast_types_float_is_number df schema df' name :
  NoDup (df_columns df) ->
  NoDup (map Name schema) ->
  In (mkField name "float") schema ->
  cast_types df schema = Ok df' ->
  (forall c, getitem df name = Some c -> getitem df' name = Some (to_numeric c)) /\
  (forall i v, In (name, v) (row_to_dict df' i) -> is_numeric_cell v = true).
Proof.
  intros Hnd Hs Hin Hcast. split.
  - intros c Hget.
    destruct (cast_types_loop schema df df' Hcast) as (_ & _ & _ & Hdecl).
    destruct (Hdecl Hs _ _ Hin Hget) as (c' & Hc & Hget'). simpl in Hc, Hget'.
    unfold cast_series in Hc. simpl in Hc. congruence.
  - intros i v Hrow.
    apply row_cell in Hrow as (c' & Hget & Hb); [|eapply cast_types_NoDup; eauto].
    destruct (cast_types_declared _ _ _ _ _ _ Hs Hin Hcast Hget) as (c & _ & Hc).
    unfold cast_series in Hc. simpl in Hc. injection Hc as <-.
    eapply box_numeric; [apply to_numeric_not_object | exact Hb].
Qed.

End MoreCast2.

(* ================================================================= *)
(** ** The further properties at concrete inputs *)

Lemma digit_no_control n : is_control (digit n) = false.
Proof.
  unfold digit, is_control, ord, chr.
  rewrite N_ascii_embedding by (pose proof (Z.mod_pos_bound n 10); lia).
  apply N.ltb_ge. pose proof (Z.mod_pos_bound n 10). lia.
Qed.

Lemma fmt_width_no_control w : forall n,
  has_char is_control (fmt_width w n) = false.
Proof.
  induction w as [|w IH]; intros n; simpl; [reflexivity|].
  rewrite has_char_app, IH. simpl. now rewrite digit_no_control.
Qed.

Lemma exact_repr_no_control f : has_char is_control (exact_repr f) = false.
Proof.
  destruct f as [s|s| |s m e]; unfold exact_repr.
  - now destruct s.
  - now destruct s.
  - reflexivity.
  - rewrite has_char_app.
    replace (has_char is_control (if s then "-" else "")) with false by now destruct s.
    destruct (0 <=? e).
    + now rewrite has_char_app, int_str_no_control.
    + cbv zeta. destruct (strip_zeros _ _ _) as [w n].
      rewrite !has_char_app, int_str_no_control.
      destruct (n =? 0); [reflexivity|]. simpl. apply fmt_width_no_control.
Qed.

Lemma sparse_frame_rectangular : rectangular sparse_frame.
Proof.
  intros name c H. unfold getitem, sparse_frame in H. cbn [dict_get cols] in H.
  destruct (String.eqb "views" name); [now inversion H|].
  destruct (String.eqb "engagement" name); [now inversion H | discriminate].
Qed.

Lemma clean_dataframe_idempotent_witness :
  NoDup (df_columns dirty_frame) /\
  clean_dataframe (clean_dataframe dirty_frame) = clean_dataframe dirty_frame.
Proof.
  assert (H : NoDup (df_columns dirty_frame)) by distinct_strings.
  split; [exact H | exact (clean_dataframe_idempotent dirty_frame H)].
Defined.

Lemma foreign_text_is_null_witness :
  nth_error [VStr "1,234"; VStr "88"] 0 = Some (VStr "1,234") /\
  has_char is_foreign "1,234" = true /\
  (exists fs, to_numeric (ColObject [VStr "1,234"; VStr "88"]) = ColFloat64 fs /\
              nth_error fs 0 = Some S754_nan) /\
  (forall c', cast_series "int" (ColObject [VStr "1,234"; VStr "88"]) = Ok c' ->
              box false c' 0 = Some VNA).
Proof.
  split; [reflexivity|]. split; [reflexivity|].
  exact (foreign_text_is_null [VStr "1,234"; VStr "88"] 0%nat "1,234" eq_refl eq_refl).
Defined.

Lemma views_schema_no_date fld : In fld views_schema -> Typ fld <> "date".
Proof. intros [<-|[<-|[]]]; discriminate. Qed.

Lemma cast_types_returns_iff_witness :
  NoDup (map Name views_schema) /\
  (forall fld, In fld views_schema -> Typ fld <> "date") /\
  ((exists df', cast_types views_frame views_schema = Ok df') <->
   (forall fld c, In fld views_schema -> Typ fld = "int" ->
      getitem views_frame (Name fld) = Some c -> castable (to_numeric c) = true)).
Proof.
  assert (H : NoDup (map Name views_schema)) by distinct_strings.
  split; [exact H|]. split; [exact views_schema_no_date|].
  exact (cast_types_returns_iff views_frame views_schema H views_schema_no_date).
Defined.

Lemma cast_types_raises_from_int_or_date_witness :
  NoDup (map Name views_schema) /\
  cast_types fraction_frame views_schema = Raise (unsafe_cast "float64") /\
  exists fld c,
    In fld views_schema /\ getitem fraction_frame (Name fld) = Some c /\
    cast_series (Typ fld) c = Raise (unsafe_cast "float64") /\
    (Typ fld = "int" \/ Typ fld = "date").
Proof.
  assert (H : NoDup (map Name views_schema)) by distinct_strings.
  split; [exact H|]. split; [reflexivity|].
  exact (cast_types_raises_from_int_or_date views_schema fraction_frame
           (unsafe_cast "float64") H eq_refl).
Defined.

Lemma cast_types_keeps_shape_witness :
  cast_types views_frame views_schema = Ok views_cast /\
  nrows views_cast = nrows views_frame /\
  df_columns views_cast = df_columns views_frame /\
  (forall name c', getitem views_cast name = Some c' ->
     exists c, getitem views_frame name = Some c /\ col_length c' = col_length c) /\
  (forall name, getitem views_frame name = None -> getitem views_cast name = None).
Proof.
  split; [reflexivity|].
  exact (cast_types_keeps_shape views_frame views_schema views_cast eq_refl).
Defined.

Lemma cast_types_idempotent_witness :
  NoDup (map Name views_schema) /\
  (forall fld, In fld views_schema -> Typ fld <> "date") /\
  cast_types views_frame views_schema = Ok views_cast /\
  cast_types views_cast views_schema = Ok views_cast.
Proof.
  assert (H : NoDup (map Name views_schema)) by distinct_strings.
  split; [exact H|]. split; [exact views_schema_no_date|]. split; [reflexivity|].
  exact (cast_types_idempotent views_frame views_schema views_cast H
           views_schema_no_date eq_refl).
Defined.

Lemma sparse_frame_free_of_NA name c :
  getitem sparse_frame name = Some c -> free_of_NA c = true.
Proof.
  intros H. unfold getitem, sparse_frame in H. cbn [dict_get cols] in H.
  destruct (String.eqb "views" name); [now inversion H|].
  destruct (String.eqb "engagement" name); [now inversion H | discriminate].
Qed.

Lemma export_to_ndjson_returns_iff_witness :
  NoDup (df_columns sparse_frame) /\ rectangular sparse_frame /\
  (forall name c, getitem sparse_frame name = Some c -> free_of_NA c = true) /\
  (fst (export_to_ndjson sparse_frame "out.json" empty_world) = Ok tt <->
   open_error "out.json" = None /\
   forall name c, getitem sparse_frame name = Some c -> encodable c = true) /\
  (fst (export_to_ndjson sparse_frame "out.json" empty_world) = Ok tt ->
   exists text,
     ndjson (iterrows sparse_frame) = Ok text /\
     dict_get (files (snd (export_to_ndjson sparse_frame "out.json" empty_world)))
              "out.json" = Some text).
Proof.
  assert (H : NoDup (df_columns sparse_frame)) by distinct_strings.
  split; [exact H|]. split; [exact sparse_frame_rectangular|].
  split; [exact sparse_frame_free_of_NA|].
  exact (export_to_ndjson_returns_iff sparse_frame "out.json" empty_world H
           sparse_frame_rectangular sparse_frame_free_of_NA).
Defined.

Lemma sparse_frame_integers name l :
  getitem sparse_frame name = Some (ColNullableInt64 l) -> forallb is_some l = true.
Proof.
  intros H. unfold getitem, sparse_frame in H. cbn [dict_get cols] in H.
  destruct (String.eqb "views" name); [now inversion H|].
  destruct (String.eqb "engagement" name); discriminate.
Qed.

Lemma prepared_frame_serialisable_iff_witness :
  prepared_frame sparse_documents (metrics_schema "userId") = Ok sparse_frame /\
  sparse_documents <> [] /\
  (forall name l, getitem sparse_frame name = Some (ColNullableInt64 l) ->
                  forallb is_some l = true) /\
  ((exists text, ndjson (iterrows sparse_frame) = Ok text) <->
   (forall name c, getitem sparse_frame name = Some c -> is_datetime64 c = false)).
Proof.
  assert (H : sparse_documents <> []) by discriminate.
  split; [reflexivity|]. split; [exact H|]. split; [exact sparse_frame_integers|].
  exact (prepared_frame_serialisable_iff sparse_documents (metrics_schema "userId")
           sparse_frame eq_refl H sparse_frame_integers).
Defined.

Lemma ndjson_one_line_per_row_witness :
  (forall f, has_char is_control (float_repr f) = false) /\
  ndjson (iterrows sparse_frame) = Ok sparse_text /\
  count_chars is_newline sparse_text = List.length (iterrows sparse_frame) /\
  Forall (fun row => exists line, json_dumps row = Ok line /\
                                  count_chars is_newline line = O)
         (iterrows sparse_frame).
Proof.
  split; [exact exact_repr_no_control|]. split; [reflexivity|].
  exact (ndjson_one_line_per_row (iterrows sparse_frame) exact_repr_no_control
           sparse_text eq_refl).
Defined.

Lemma rows_follow_documents_witness :
  prepared_frame sparse_documents (metrics_schema "userId") = Ok sparse_frame /\
  List.length (iterrows sparse_frame) = List.length sparse_documents /\
  (forall i, (i < List.length sparse_documents)%nat ->
     map fst (row_to_dict sparse_frame i) = filter not_id (frame_labels sparse_documents)) /\
  NoDup (filter not_id (frame_labels sparse_documents)).
Proof.
  split; [reflexivity|].
  exact (rows_follow_documents sparse_documents (metrics_schema "userId")
           sparse_frame eq_refl).
Defined.

Lemma staging_file_is_removed_witness :
  let c := "AdminTiktokMetrics" in
  let f := "admin_tiktok_metrics/" in
  find c = Ok (hd [] example_documents :: tl example_documents) /\
  fst (process_collection c f empty_world) = Ok tt /\
  dict_get (files (snd (process_collection c f empty_world))) (c ++ ".json") = None /\
  (forall other, other <> (c ++ ".json")%string ->
     dict_get (files (snd (process_collection c f empty_world))) other =
     dict_get (files empty_world) other).
Proof.
  cbv zeta. split; [reflexivity|].
  assert (H : fst (process_collection "AdminTiktokMetrics" "admin_tiktok_metrics/"
                     empty_world) = Ok tt) by (vm_compute; reflexivity).
  split; [exact H|].
  exact (staging_file_is_removed "AdminTiktokMetrics" "admin_tiktok_metrics/" empty_world
           (hd [] example_documents) (tl example_documents) eq_refl H).
Defined.

Lemma failed_upload_leaves_staging_file_witness :
  let c := "UserTiktokMetrics" in
  let f := "user_tiktok_metrics/" in
  let e := S3UploadFailedError "access denied" in
  @find failing_upload_env c = Ok (hd [] sparse_documents :: tl sparse_documents) /\
  @upload_error failing_upload_env (c ++ ".json")
    (@BUCKET_NAME failing_upload_env) (f ++ c ++ ".json") = Some e /\
  fst (@process_collection example_lib failing_upload_env c f empty_world) = Raise e /\
  dict_get (files (snd (@process_collection example_lib failing_upload_env c f empty_world)))
           (c ++ ".json") = Some sparse_text /\
  s3_objects (snd (@process_collection example_lib failing_upload_env c f empty_world)) =
  s3_objects empty_world.
Proof.
  cbv zeta. split; [reflexivity|]. split; [reflexivity|].
  exact (@failed_upload_leaves_staging_file example_lib failing_upload_env
           "UserTiktokMetrics" "user_tiktok_metrics/" empty_world
           (hd [] sparse_documents) (tl sparse_documents)
           (metrics_schema "userId") sparse_frame sparse_text
           (S3UploadFailedError "access denied")
           eq_refl eq_refl eq_refl eq_refl eq_refl eq_refl).
Defined.

Lemma other_files_untouched_witness :
  (forall c f, In (c, f) COLLECTIONS -> "notes.txt" <> (c ++ ".json")%string) /\
  dict_get (files (snd (main_loop COLLECTIONS notes_world))) "notes.txt" =
  dict_get (files notes_world) "notes.txt".
Proof.
  assert (H : forall c f, In (c, f) COLLECTIONS -> "notes.txt" <> (c ++ ".json")%string).
  { intros c f [Hin|[Hin|[]]]; injection Hin as <- <-; discriminate. }
  split; [exact H|].
  exact (other_files_untouched COLLECTIONS notes_world "notes.txt" H).
Defined.

Lemma export_failure_leaves_prefix_witness :
  let bad := [("ref", VObjectId "65f0c0ffee0000000000a001")] in
  let e := TypeError "Object of type ObjectId is not JSON serializable" in
  iterrows half_frame = ([[("ref", VStr "a")]] ++ bad :: [])%list /\
  ndjson [[("ref", VStr "a")]] = Ok first_line /\
  json_dumps bad = Raise e /\
  open_error "out.json" = None /\
  fst (export_to_ndjson half_frame "out.json" empty_world) = Raise e /\
  dict_get (files (snd (export_to_ndjson half_frame "out.json" empty_world))) "out.json"
  = Some first_line.
Proof.
  cbv zeta. do 4 (split; [reflexivity|]).
  exact (export_failure_leaves_prefix half_frame "out.json" empty_world
           [[("ref", VStr "a")]] [("ref", VObjectId "65f0c0ffee0000000000a001")] []
           first_line
           (TypeError "Object of type ObjectId is not JSON serializable")
           eq_refl eq_refl eq_refl eq_refl).
Defined.

Lemma cast_types_float_is_number_witness :
  let schema := [mkField "engagement" "float"] in
  NoDup (df_columns engagement_frame) /\
  NoDup (map Name schema) /\
  In (mkField "engagement" "float") schema /\
  cast_types engagement_frame schema = Ok engagement_frame /\
  (forall c, getitem engagement_frame "engagement" = Some c ->
             getitem engagement_frame "engagement" = Some (to_numeric c)) /\
  (forall i v, In ("engagement", v) (row_to_dict engagement_frame i) ->
               is_numeric_cell v = true).
Proof.
  cbv zeta.
  assert (H1 : NoDup (df_columns engagement_frame)) by distinct_strings.
  assert (H2 : NoDup (map Name [mkField "engagement" "float"])) by distinct_strings.
  assert (H3 : In (mkField "engagement" "float") [mkField "engagement" "float"])
    by (now left).
  split; [exact H1|]. split; [exact H2|]. split; [exact H3|]. split; [reflexivity|].
  exact (cast_types_float_is_number engagement_frame [mkField "engagement" "float"]
           engagement_frame "engagement" H1 H2 H3 eq_refl).
Defined.
